(** * Credit-statement accrual and the nightly batch runner

    A shallow embedding of [accrueDebtInternal] (controllers/debtController.js)
    and of [processDebtAccruals] (services/scheduledTasksService.js).

    Conventions of the embedding.
    - A JavaScript [Date] built by [new Date(y, m, d)] is the start of a
      local calendar day: a normalised triple (year, 0-based month, day of
      month).  A [Date] parsed from a text by [new Date(text)] may carry a
      time of day: it is an [Instant], a local day and the milliseconds
      elapsed since the day began.  Date comparisons ([<], [>=],
      [getTime() !==]) are comparisons of instants.
    - In the run, JavaScript numbers that carry money or rates are exact
      rationals [Q]: sums are exact and [toFixed(2)] is rounding of the exact
      value to the nearest cent, ties away from zero.  NaN and the infinities
      are outside that model: a cell that does not hold a finite number is
      [None] where the source guards it with [Number.isFinite] or [|| 0].
      The expression of the statement balance is also given in binary64, as
      the engine computes it (module [Binary64]).
    - The spreadsheet behind [sheetsService] is an explicit store that is
      threaded through the operation; every call on the service may reject,
      as decided by a fault plan [Call -> bool].  Sheet cells are modelled
      after parsing, and [getExpensesObjects] yields objects (no [null]
      entries).
    - The functions the controller imports from utils/finance.js and
      utils/creditStatementCalculator.js, and [sumPaymentsForDebt], are fields
      of the record [Externals]; the reads and writes of GoogleSheetsService
      on the ledger and on the Debts sheet follow the interface the
      specification gives for them.
    - [new Date()] is one and the same day throughout a run. *)

From Stdlib Require Import ZArith QArith Qround Qminmax Qabs Lqa.
From Stdlib Require Floats.
From Stdlib Require Import String Ascii List Permutation Sorted Lia Bool.
From stdpp Require Import base list.
Import ListNotations.

Local Open Scope Z_scope.

(* ===================================================================== *)
(** ** Calendar days: [new Date(y, m, d)] and its getters                 *)
(* ===================================================================== *)

Record Date := mkDate { getFullYear : Z; getMonth : Z; getDate : Z }.

Definition isLeapYear (y : Z) : bool :=
  ((y mod 4 =? 0) && negb (y mod 100 =? 0)) || (y mod 400 =? 0).

(** Length of month [m] (0-based, 0..11) of year [y]. *)
Definition daysInMonth (y m : Z) : Z :=
  if m =? 1 then (if isLeapYear y then 29 else 28)
  else if (m =? 3) || (m =? 5) || (m =? 8) || (m =? 10) then 30
  else 31.

Definition nextDay (d : Date) : Date :=
  if getDate d <? daysInMonth (getFullYear d) (getMonth d)
  then mkDate (getFullYear d) (getMonth d) (getDate d + 1)
  else if getMonth d <? 11
       then mkDate (getFullYear d) (getMonth d + 1) 1
       else mkDate (getFullYear d + 1) 0 1.

Definition prevDay (d : Date) : Date :=
  if 1 <? getDate d
  then mkDate (getFullYear d) (getMonth d) (getDate d - 1)
  else if 0 <? getMonth d
       then mkDate (getFullYear d) (getMonth d - 1)
                   (daysInMonth (getFullYear d) (getMonth d - 1))
       else mkDate (getFullYear d - 1) 11 31.

(** [addDays d n]: the day [n] days after [d] (before, when [n < 0]). *)
Definition addDays (d : Date) (n : Z) : Date :=
  if 0 <=? n then Nat.iter (Z.to_nat n) nextDay d
  else Nat.iter (Z.to_nat (- n)) prevDay d.

(** [new Date(y, m, d)]: months outside 0..11 carry into the year, days
    outside the month carry into the neighbouring months, and a year in
    0..99 means 1900 + year (ECMAScript MakeDay / the Date constructor). *)
Definition newDate (y m d : Z) : Date :=
  let yr := if (0 <=? y) && (y <=? 99) then 1900 + y else y in
  addDays (mkDate (yr + m / 12) (m mod 12) 1) (d - 1).

(** Order of two days ([a < b], [a >= b] on Date objects). *)
Definition dateCompare (a b : Date) : comparison :=
  match getFullYear a ?= getFullYear b with
  | Eq => match getMonth a ?= getMonth b with
          | Eq => getDate a ?= getDate b
          | c => c
          end
  | c => c
  end.

Definition dateLtb (a b : Date) : bool :=
  match dateCompare a b with Lt => true | _ => false end.
Definition dateLeb (a b : Date) : bool :=
  match dateCompare a b with Gt => false | _ => true end.
Definition dateEqb (a b : Date) : bool :=
  match dateCompare a b with Eq => true | _ => false end.

(** An instant of local time: the calendar day it falls on and the
    milliseconds elapsed since that day began.  [new Date(y, m, d)] is the
    day at 0. *)
Record Instant := mkInstant { localDay : Date; sinceMidnight : N }.

Definition atMidnight (d : Date) : Instant := mkInstant d 0.

(** Order of two instants ([a < b], [a >= b], [a.getTime() !== b.getTime()],
    the sign of [a - b]). *)
Definition instantCompare (a b : Instant) : comparison :=
  match dateCompare (localDay a) (localDay b) with
  | Eq => N.compare (sinceMidnight a) (sinceMidnight b)
  | c => c
  end.

Definition instantLtb (a b : Instant) : bool :=
  match instantCompare a b with Lt => true | _ => false end.
Definition instantLeb (a b : Instant) : bool :=
  match instantCompare a b with Gt => false | _ => true end.

(** A triple that is a day of the calendar. *)
Definition validDate (d : Date) : Prop :=
  0 <= getMonth d <= 11 /\ 1 <= getDate d <= daysInMonth (getFullYear d) (getMonth d).

(* ===================================================================== *)
(** ** Strings: digits, ISO days, trimming, lower case                    *)
(* ===================================================================== *)

Definition digitChar (n : Z) : ascii := ascii_of_nat (48 + Z.to_nat (n mod 10)).

Definition pad2 (n : Z) : string :=
  String (digitChar (n / 10)) (String (digitChar n) EmptyString).

Definition pad4 (n : Z) : string :=
  String (digitChar (n / 1000)) (String (digitChar (n / 100))
    (String (digitChar (n / 10)) (String (digitChar n) EmptyString))).

(** The text [YYYY-MM-DD] of a day (years 0..9999, the range in which
    [toISOString] prints four digits). *)
Definition formatDay (d : Date) : string :=
  (pad4 (getFullYear d) ++ "-" ++ pad2 (getMonth d + 1) ++ "-" ++ pad2 (getDate d))%string.

Definition digitValue (c : ascii) : option Z :=
  let n := Z.of_nat (nat_of_ascii c) in
  if (48 <=? n) && (n <=? 57) then Some (n - 48) else None.

(** [k] decimal digits at the head of [s]: their value and the rest. *)
Fixpoint parseDigits (k : nat) (s : string) (acc : Z) : option (Z * string) :=
  match k with
  | O => Some (acc, s)
  | S k' =>
      match s with
      | String c r =>
          match digitValue c with
          | Some v => parseDigits k' r (10 * acc + v)
          | None => None
          end
      | EmptyString => None
      end
  end.

Definition isSpace (c : ascii) : bool :=
  let n := nat_of_ascii c in
  (n =? 32)%nat || ((9 <=? n)%nat && (n <=? 13)%nat).

Fixpoint trimStart (s : string) : string :=
  match s with
  | String c r => if isSpace c then trimStart r else s
  | EmptyString => EmptyString
  end.

Fixpoint trimEnd (s : string) : string :=
  match s with
  | String c r =>
      match trimEnd r with
      | EmptyString => if isSpace c then EmptyString else String c EmptyString
      | r' => String c r'
      end
  | EmptyString => EmptyString
  end.

Definition trim (s : string) : string := trimEnd (trimStart s).

Definition lowerChar (c : ascii) : ascii :=
  let n := nat_of_ascii c in
  if (65 <=? n)%nat && (n <=? 90)%nat then ascii_of_nat (n + 32) else c.

Fixpoint toLowerCase (s : string) : string :=
  match s with
  | String c r => String (lowerChar c) (toLowerCase r)
  | EmptyString => EmptyString
  end.

(** Truthiness of a string value: missing and empty are both falsy. *)
Definition truthy (s : string) : bool := negb (String.eqb s EmptyString).

(* ===================================================================== *)
(** ** Numbers                                                            *)
(* ===================================================================== *)

Definition Qltb (a b : Q) : bool := negb (Qle_bool b a).

(** [Number(x.toFixed(2))]. *)
Definition toFixed2 (x : Q) : Q :=
  let cents (v : Q) : Q := Qmake (Qfloor (v * 100 + (1 # 2))) 100 in
  if Qltb x 0 then Qopp (cents (Qopp x)) else cents x.

(** [Math.max(0, x)]. *)
Definition mathMax0 (x : Q) : Q := Qmax 0 x.

(** [(s, e) => s + e.amount] folded from 0. *)
Definition sumQ (l : list Q) : Q := fold_left Qplus l 0%Q.

(** The arithmetic of lines 496-499 as the engine carries it out, on
    binary64 numbers (the primitive floats: [+] and [-] round to nearest,
    ties to even; NaN, the infinities and the signed zeros are values). *)
Module Binary64.
Import Stdlib.Floats.Floats.
Local Open Scope float_scope.

(** [Math.max(0, x)]: NaN for NaN, [+0] for [-0] and below, [x] above. *)
Definition mathMax0 (x : float) : float :=
  if is_nan x then nan else if 0 <? x then x else 0.

(** The integer [n] for which [n / 100] is closest to the number
    [m * 2 ^ e], the larger one of two: the digits that [toFixed(2)] prints. *)
Definition centsOf (m : positive) (e : Z) : Z :=
  if (0 <=? e)%Z then (Z.pos m * 2 ^ e * 100)%Z
  else ((200 * Z.pos m + 2 ^ (- e)) / 2 ^ (1 - e))%Z.

(** An integer below [2 ^ 53] as a number. *)
Definition ofZ (n : Z) : float := of_uint63 (Uint63.of_Z n).

(** [Number(x.toFixed(2))].  NaN and the infinities print as themselves, a
    number from [1e21] on prints in full, a zero prints as ["0.00"]; any
    other number prints the digits of [centsOf] behind its sign, and
    [Number] reads them back as the nearest number: the quotient of the
    integer by 100 when the integer is below [2 ^ 53], the number itself from
    there on (its neighbours are more than a cent away). *)
Definition toFixed2 (x : float) : float :=
  match Prim2SF x with
  | S754_zero _ => 0
  | S754_finite s m e =>
      if 1e21 <=? abs x then x
      else
        let n := centsOf m e in
        let q := if (n <? 2 ^ 53)%Z then ofZ n / 100 else abs x in
        if s then - q else q
  | _ => x
  end.

(** [Number((Math.max(0, previousBalance + charges + interests - payments)).toFixed(2))] *)
Definition statementBalanceOf (previousBalance charges interests payments : float) : float :=
  toFixed2 (mathMax0 (previousBalance + charges + interests - payments)).

End Binary64.

(* ===================================================================== *)
(** ** Data model: the three sheets                                      *)
(* ===================================================================== *)

(** A row of the Debts sheet as [accrueDebtInternal] reads it: [balance],
    [dueDay] and [cutOffDay] are [None] when the cell is blank or does not
    parse to a finite number; [active] is [row[idx.active] === 'TRUE']. *)
Module Debt.
Record t := mk {
  id : string;
  balance : option Q;
  dueDay : option Z;
  cutOffDay : option Z;
  interesEfectivo : Q;
  active : bool
}.
End Debt.

(** An object of [getExpensesObjects]: a missing [debtId], [date] or
    [entryType] is the empty string, [amount] is [None] when [Number(e.amount)]
    is NaN. *)
Module Expense.
Record t := mk {
  debtId : string;
  date : string;
  entryType : string;
  amount : option Q
}.
End Expense.

(** ['charge'] and ['payment'], the two values of [kind] that reach
    [periodEvents]. *)
Inductive EntryKind := payment | charge.

Module Event.
Record t := mk { date : Instant; kind : EntryKind; amount : Q }.
End Event.

(** A record of the CreditHistory sheet. [termMonths] is always [null] and
    is left out. *)
Module CreditHistory.
Record t := mk {
  debtId : string;
  statementDate : string;
  dueDate : string;
  previousBalance : Q;
  charges : Q;
  interests : Q;
  payments : Q;
  statementBalance : option Q;
  bonifiableInterest : Q;
  installmentBalance : Q;
  annualEffectiveRate : Q;
  periodDays : Z;
  paymentMade : Q
}.
End CreditHistory.

Record Sheets := mkSheets {
  debtsSheet : list Debt.t;
  creditHistorySheet : list CreditHistory.t;
  expensesSheet : list Expense.t
}.

(** What the controller imports from modules outside this development, and
    what it takes from the host: [new Date(text)] for a text that is not in
    the form YYYY-MM-DD ([parseLegacyDate], [None] for an invalid date), and
    the UTC calendar day of an instant ([utcDayOf]), which is what
    [toISOString().slice(0, 10)] prints; it depends on the time zone of the
    host and on the offset in force at that instant. *)
Record Externals := mkExternals {
  nextDateForDayOfMonth : Z -> Date -> Date;
  daysBetweenDates : Date -> Date -> Z;
  computeSpdInterests : Q -> list Event.t -> Q -> Date -> Date -> Q * Q;
  computeInterestCarryOver : CreditHistory.t -> Q -> Q;
  sumPaymentsForDebt : list Expense.t -> string -> string -> string -> Q;
  parseLegacyDate : string -> option Instant;
  utcDayOf : Instant -> Date
}.

(* ===================================================================== *)
(** ** The service: calls that may reject, over an explicit store        *)
(* ===================================================================== *)

Inductive Call :=
| CallGetDebts
| CallGetCreditHistoryObjects
| CallFindCreditHistoryRow
| CallGetCreditHistoryByRow
| CallGetExpensesObjects
| CallSumPaymentsCarryOver
| CallSumPaymentsMade
| CallUpdateCreditHistoryRow
| CallAppendCreditHistoryRecord
| CallUpdateDebt
| CallGetDebtsObjects.

Inductive Error :=
| ApiError (status : Z) (message : string)
| Rejected (c : Call).

Inductive Outcome (A : Type) :=
| Returned (a : A)
| Thrown (e : Error).
Arguments Returned {A} a.
Arguments Thrown {A} e.

(** An asynchronous operation on the store: its outcome and the store it
    leaves behind (also when it throws). *)
Definition Op (A : Type) : Type := Sheets -> Outcome A * Sheets.

Definition ret {A} (a : A) : Op A := fun s => (Returned a, s).
Definition throw {A} (e : Error) : Op A := fun s => (Thrown e, s).
Definition bind {A B} (m : Op A) (k : A -> Op B) : Op B :=
  fun s => match m s with
           | (Returned a, s') => k a s'
           | (Thrown e, s') => (Thrown e, s')
           end.
(** [try { m } catch (e) { h }]. *)
Definition tryCatch {A} (m : Op A) (h : Op A) : Op A :=
  fun s => match m s with
           | (Returned a, s') => (Returned a, s')
           | (Thrown _, s') => h s'
           end.

Notation "'await!' x ':=' m 'in' k" := (bind m (fun x => k))
  (at level 10, x name, m at level 100, k at level 200).
Notation "'do!' m 'in' k" := (bind m (fun _ => k))
  (at level 10, m at level 100, k at level 200).

Section Service.
Variable rejects : Call -> bool.

(** [await sheetsService.c(...)]: rejects as the fault plan says, and
    otherwise reads the store. *)
Definition awaitRead {A} (c : Call) (f : Sheets -> A) : Op A :=
  fun s => if rejects c then (Thrown (Rejected c), s) else (Returned (f s), s).

(** A write: a rejected write leaves the store as it was. *)
Definition awaitWrite (c : Call) (f : Sheets -> Sheets) : Op unit :=
  fun s => if rejects c then (Thrown (Rejected c), s) else (Returned tt, f s).

Definition matchesKey (debtId statementDateStr : string) (h : CreditHistory.t) : bool :=
  String.eqb (CreditHistory.debtId h) debtId
  && String.eqb (CreditHistory.statementDate h) statementDateStr.

(** How many records the ledger holds under one idempotency key. *)
Definition countKey (debtId statementDateStr : string) (history : list CreditHistory.t) : nat :=
  length (List.filter (matchesKey debtId statementDateStr) history).

(** Position of the first element that satisfies [p]. *)
Fixpoint findIndex {A} (p : A -> bool) (l : list A) : option nat :=
  match l with
  | [] => None
  | x :: r => if p x then Some O else option_map S (findIndex p r)
  end.

(** Modelled from the spec: [findCreditHistoryRow(debtId, statementDate)] of
    GoogleSheetsService, which is not among the sources.  It yields the row
    reference of the record of that key, [null] when there is none; rows are
    counted from 1 and row 1 is the header, so record [i] is row [i + 2]. *)
Definition findCreditHistoryRow (debtId statementDateStr : string) : Op (option nat) :=
  awaitRead CallFindCreditHistoryRow
    (fun s => option_map (fun i => (i + 2)%nat)
                (findIndex (matchesKey debtId statementDateStr) (creditHistorySheet s))).

(** Modelled from the spec: [getCreditHistoryByRow(row)], the record a row
    reference stands for. *)
Definition getCreditHistoryByRow (row : nat) : Op (option CreditHistory.t) :=
  awaitRead CallGetCreditHistoryByRow (fun s => creditHistorySheet s !! (row - 2)%nat).

(** Modelled from the spec: [updateCreditHistoryRecord(rowRef, record)],
    overwriting the record at that row. *)
Definition updateCreditHistoryRow (row : nat) (record : CreditHistory.t) : Op unit :=
  awaitWrite CallUpdateCreditHistoryRow
    (fun s => mkSheets (debtsSheet s)
                (<[(row - 2)%nat := record]> (creditHistorySheet s))
                (expensesSheet s)).

(** Modelled from the spec: [appendCreditHistoryRecord(record)]. *)
Definition appendCreditHistoryRecord (record : CreditHistory.t) : Op unit :=
  awaitWrite CallAppendCreditHistoryRecord
    (fun s => mkSheets (debtsSheet s) (creditHistorySheet s ++ [record]) (expensesSheet s)).

Fixpoint setBalance (debtId : string) (b : Q) (rows : list Debt.t) : list Debt.t :=
  match rows with
  | [] => []
  | r :: rest =>
      if String.eqb (Debt.id r) debtId
      then Debt.mk (Debt.id r) (Some b) (Debt.dueDay r) (Debt.cutOffDay r)
                   (Debt.interesEfectivo r) (Debt.active r) :: rest
      else r :: setBalance debtId b rest
  end.

(** Modelled from the spec: [updateDebt(partial)] with the partial
    [{ id, balance }]: the balance cell of the debt's row is rewritten. *)
Definition updateDebt (debtId : string) (b : Q) : Op unit :=
  awaitWrite CallUpdateDebt
    (fun s => mkSheets (setBalance debtId b (debtsSheet s)) (creditHistorySheet s)
                (expensesSheet s)).
End Service.

(* ===================================================================== *)
(** ** accrueDebtInternal: resolving the dates                           *)
(* ===================================================================== *)

(** [new Date(d.getFullYear(), d.getMonth(), d.getDate())]. *)
Definition dateOnly (d : Date) : Date :=
  newDate (getFullYear d) (getMonth d) (getDate d).

(** [Math.min(Math.max(1, d), new Date(y, m + 1, 0).getDate())]. *)
Definition dayClamp (y m d : Z) : Z :=
  Z.min (Z.max 1 d) (getDate (newDate y (m + 1) 0)).

(** [/^\d{4}-\d{2}$/] on the period, then
    [[parseInt(yStr, 10), parseInt(mStr, 10) - 1]]. *)
Definition parsePeriod (p : string) : option (Z * Z) :=
  match parseDigits 4 p 0 with
  | Some (y, String "-"%char r) =>
      match parseDigits 2 r 0 with
      | Some (m, EmptyString) => Some (y, m - 1)
      | _ => None
      end
  | _ => None
  end.

(** The cutoff date of month [(y, m)] for a debt with cutoff day [c]. *)
Definition cutoffOfMonth (y m c : Z) : Date := newDate y m (dayClamp y m c).

(** The statement date of the period [(y, m)]: the month's cutoff date, or
    its last day when the debt has no cutoff day. *)
Definition statementDateOfMonth (cutOffDay : option Z) (y m : Z) : Date :=
  match cutOffDay with
  | Some c => cutoffOfMonth y m c
  | None => newDate y (m + 1) 0
  end.

(** Step 2 of [accrueDebtInternal]: the statement date, from the period when
    one is given in the form YYYY-MM, from the base date otherwise. *)
Definition resolveStatementDate (cutOffDay : option Z) (baseDate : Date)
    (periodParam : option string) : Error + Date :=
  let base := dateOnly baseDate in
  let fromBase :=
    match cutOffDay with
    | Some c =>
        let currentMonthCut := cutoffOfMonth (getFullYear base) (getMonth base) c in
        if getDate currentMonthCut <=? getDate base
        then currentMonthCut
        else
          let prevMonth := newDate (getFullYear base) (getMonth base - 1) 1 in
          cutoffOfMonth (getFullYear prevMonth) (getMonth prevMonth) c
    | None => newDate (getFullYear base) (getMonth base) 0
    end in
  match periodParam with
  | Some p =>
      match (if truthy p then parsePeriod p else None) with
      | Some (y, m) =>
          if (m <? 0) || (11 <? m)
          then inl (ApiError 400 "Invalid period format. Expected YYYY-MM")
          else inr (statementDateOfMonth cutOffDay y m)
      | None => inr fromBase
      end
  | None => inr fromBase
  end.

(** The cutoff date of the month before the statement's month. *)
Definition prevStatementDateOf (cutOffDay : option Z) (statementDate : Date) : Date :=
  let prevMonth := newDate (getFullYear statementDate) (getMonth statementDate - 1) 1 in
  match cutOffDay with
  | Some c => cutoffOfMonth (getFullYear prevMonth) (getMonth prevMonth) c
  | None => newDate (getFullYear statementDate) (getMonth statementDate) 0
  end.

(** [startPeriod]: the day after the previous statement date. *)
Definition startPeriodOf (prevStatementDate : Date) : Date :=
  newDate (getFullYear prevStatementDate) (getMonth prevStatementDate)
          (getDate prevStatementDate + 1).

(** The test of the gathering loop:
    [dateOnlyEvent >= startPeriodDateOnly && dateOnlyEvent < statementDateOnly]. *)
Definition inPeriod (startPeriodDateOnly statementDateOnly : Date) (dateOnlyEvent : Instant)
    : bool :=
  instantLeb (atMidnight startPeriodDateOnly) dateOnlyEvent
  && instantLtb dateOnlyEvent (atMidnight statementDateOnly).

(** The event window of the cycle that closes on [statementDate]. *)
Definition inCycle (cutOffDay : option Z) (statementDate : Date) (d : Instant) : bool :=
  inPeriod (dateOnly (startPeriodOf (prevStatementDateOf cutOffDay statementDate)))
           (dateOnly statementDate) d.

(* ===================================================================== *)
(** ** accrueDebtInternal: the events of the period                      *)
(* ===================================================================== *)

Section Events.
Variable ext : Externals.

(** [date.toISOString().slice(0, 10)]: the UTC day of an instant. *)
Definition isoDayAt (i : Instant) : string := formatDay (utcDayOf ext i).

(** [statementDate.toISOString().slice(0, 10)]: the UTC day of the start of
    a local day. *)
Definition isoDay (d : Date) : string := isoDayAt (atMidnight d).

(** [parseDateString]: [YYYY-MM-DD] at the head of the text is read by
    components and gives the start of that local day, anything else goes to
    [new Date(dateStr)], which keeps the time of day of the text and may be
    an invalid date ([None]). *)
Definition parseDateString (dateStr : string) : option Instant :=
  match parseDigits 4 dateStr 0 with
  | Some (y, String "-"%char r1) =>
      match parseDigits 2 r1 0 with
      | Some (m, String "-"%char r2) =>
          match parseDigits 2 r2 0 with
          | Some (d, _) => Some (atMidnight (newDate y (m - 1) d))
          | None => parseLegacyDate ext dateStr
          end
      | _ => parseLegacyDate ext dateStr
      end
  | _ => parseLegacyDate ext dateStr
  end.

(** The guard that opens both the gathering loop and the two filters of the
    running balance. *)
Definition ofDebt (debtId : string) (e : Expense.t) : bool :=
  truthy (Expense.debtId e) && String.eqb (Expense.debtId e) debtId
  && truthy (Expense.date e).

(** [e.entryType ? String(e.entryType).toLowerCase() : ''] *)
Definition entryTypeOf (e : Expense.t) : string :=
  if truthy (Expense.entryType e) then toLowerCase (Expense.entryType e)
  else EmptyString.

(** [Number(e.amount) || 0] *)
Definition amountOf (e : Expense.t) : Q :=
  match Expense.amount e with Some a => a | None => 0%Q end.

(** One turn of the loop [for (const e of allExpenses)]: the event that is
    pushed, if any. *)
Definition eventOf (debtId : string) (startPeriodDateOnly statementDateOnly : Date)
    (e : Expense.t) : option Event.t :=
  if negb (ofDebt debtId e) then None
  else
    match parseDateString (trim (Expense.date e)) with
    | None => None
    | Some dateOnlyEvent =>
        if inPeriod startPeriodDateOnly statementDateOnly dateOnlyEvent
        then
          let entryType := entryTypeOf e in
          let amount := amountOf e in
          if Qle_bool amount 0 then None
          else if String.eqb entryType "charge"
               then Some (Event.mk dateOnlyEvent charge amount)
               else if String.eqb entryType "payment"
                    then Some (Event.mk dateOnlyEvent payment amount)
                    else None
        else None
    end.

Fixpoint gatherEvents (debtId : string) (startPeriodDateOnly statementDateOnly : Date)
    (allExpenses : list Expense.t) : list Event.t :=
  match allExpenses with
  | [] => []
  | e :: rest =>
      match eventOf debtId startPeriodDateOnly statementDateOnly e with
      | Some ev => ev :: gatherEvents debtId startPeriodDateOnly statementDateOnly rest
      | None => gatherEvents debtId startPeriodDateOnly statementDateOnly rest
      end
  end.

(** The text of a kind, as [entryType] spells it after lower-casing. *)
Definition kindName (k : EntryKind) : string :=
  match k with charge => "charge" | payment => "payment" end.

Definition kindEqb (a b : EntryKind) : bool :=
  match a, b with
  | payment, payment | charge, charge => true
  | _, _ => false
  end.

(** The comparator handed to [periodEvents.sort]: negative, zero or
    positive (for two different instants only the sign of [a.date - b.date]
    is kept). *)
Definition compareEvents (a b : Event.t) : Z :=
  match instantCompare (Event.date a) (Event.date b) with
  | Lt => -1
  | Gt => 1
  | Eq => if kindEqb (Event.kind a) (Event.kind b) then 0
          else match Event.kind a with payment => -1 | charge => 1 end
  end.

(** [Array.prototype.sort] is stable; with a comparator that is a total
    preorder its result is the stable sorted arrangement, which insertion
    from the right computes. *)
Fixpoint insertEvent (e : Event.t) (l : list Event.t) : list Event.t :=
  match l with
  | [] => [e]
  | x :: r => if compareEvents e x <=? 0 then e :: l else x :: insertEvent e r
  end.

Definition sortEvents (l : list Event.t) : list Event.t :=
  fold_right insertEvent [] l.

(** [periodEvents] as the calculator receives it. *)
Definition periodEvents (debtId : string) (startPeriodDateOnly statementDateOnly : Date)
    (allExpenses : list Expense.t) : list Event.t :=
  sortEvents (gatherEvents debtId startPeriodDateOnly statementDateOnly allExpenses).

(** [periodEvents.filter(e => e.kind === k).reduce((s, e) => s + e.amount, 0)] *)
Definition sumKind (k : EntryKind) (events : list Event.t) : Q :=
  sumQ (map Event.amount (List.filter (fun e => kindEqb (Event.kind e) k) events)).

(** [debt.interesEfectivo > 1 ? (debt.interesEfectivo / 100) : debt.interesEfectivo] *)
Definition annualRateUnit (interesEfectivo : Q) : Q :=
  if Qltb 1 interesEfectivo then (interesEfectivo / 100)%Q else interesEfectivo.

(** [Number((Math.max(0, previousBalance + charges + interests - payments)).toFixed(2))] *)
Definition statementBalanceOf (previousBalance charges interests payments : Q) : Q :=
  toFixed2 (mathMax0 (previousBalance + charges + interests - payments)%Q).
End Events.

(* ===================================================================== *)
(** ** accrueDebtInternal                                                *)
(* ===================================================================== *)

(** [options]: [dateParam] is the local day of [new Date(dateParam)], for a
    text that is a date.  (For a text that is none [new Date] gives an
    invalid date, and for a debt that is found and active [toISOString]
    throws a RangeError in step 3; such requests are not described here.) *)
Record Options := mkOptions {
  recompute : bool;
  dateParam : option Date;
  periodParam : option string
}.

Inductive AccrueResult :=
| SkippedInactive
    (* { success: true, skipped: true, reason: 'Debt is inactive' } *)
| SkippedAlready (statementDate : string)
    (* { success: true, skipped: true, reason: 'Already accrued ...', statementDate } *)
| Created (key : string) (data : CreditHistory.t) (statementDate : string).
    (* { success: true, idempotency: { key, status: 'created' }, data, statementDate } *)

Definition skipped (r : AccrueResult) : bool :=
  match r with Created _ _ _ => false | _ => true end.

Section Accrual.
Variable ext : Externals.
Variable rejects : Call -> bool.

(** The records of the debt that close before [statementDateStr]. *)
Definition priorStatements (debtId statementDateStr : string)
    (history : list CreditHistory.t) : list CreditHistory.t :=
  List.filter (fun h => String.eqb (CreditHistory.debtId h) debtId
                        && truthy (CreditHistory.statementDate h)
                        && String.ltb (CreditHistory.statementDate h) statementDateStr)
              history.

(** [.sort((a, b) => (a.statementDate < b.statementDate ? 1 : -1))[0]]: a
    record with the greatest statement date.  The comparator never answers
    0: of two records of one date it always puts its first argument first,
    and the sort of the engine (insertion by binary search, runs reversed,
    merges that ask for the later element first) then leaves the later of
    them in front; the last in sheet order is taken. *)
Fixpoint latestStatement (l : list CreditHistory.t) : option CreditHistory.t :=
  match l with
  | [] => None
  | h :: r =>
      match latestStatement r with
      | None => Some h
      | Some h' =>
          if String.ltb (CreditHistory.statementDate h') (CreditHistory.statementDate h)
          then Some h else Some h'
      end
  end.

Definition previousBalanceOf (lastForDebt : option CreditHistory.t) (debt : Debt.t) : Q :=
  let ofDebt := match Debt.balance debt with Some b => b | None => 0%Q end in
  match lastForDebt with
  | Some l => match CreditHistory.statementBalance l with
              | Some b => b
              | None => ofDebt
              end
  | None => ofDebt
  end.

(** The two filters after the write: expenses of the debt whose instant is
    after the start of the statement day and not after the start of today,
    of one entry type; their amounts are summed as they are. *)
Definition sumAfterStatement (debtId : string) (statementDateOnly today : Date)
    (entryType : string) (allExpenses : list Expense.t) : Q :=
  sumQ (map (amountOf)
    (List.filter
       (fun e =>
          ofDebt debtId e &&
          match parseDateString ext (trim (Expense.date e)) with
          | Some dateOnlyEvent =>
              instantLtb (atMidnight statementDateOnly) dateOnlyEvent
              && instantLeb dateOnlyEvent (atMidnight (dateOnly today))
              && String.eqb (entryTypeOf e) entryType
          | None => false
          end)
       allExpenses)).

Definition rowTruthy (row : option nat) : bool :=
  match row with Some (S _) => true | _ => false end.

Definition accrueDebtInternal (today : Date) (debtId : string) (options : Options)
    : Op AccrueResult :=
  let baseDate := match dateParam options with Some d => d | None => today end in
  (* 1) Load debt; [debtsSheet] holds [rows.slice(1)] *)
  await! rows := awaitRead rejects CallGetDebts debtsSheet in
  match List.find (fun r => String.eqb (Debt.id r) debtId) rows with
  | None => throw (ApiError 404 "Debt not found")
  | Some debt =>
    if negb (Debt.active debt) then ret SkippedInactive
    else
    (* 2) Resolve statementDate and dueDate *)
    match resolveStatementDate (Debt.cutOffDay debt) baseDate (periodParam options) with
    | inl e => throw e
    | inr statementDate =>
      let dueDate :=
        match Debt.dueDay debt with
        | Some dd => nextDateForDayOfMonth ext dd statementDate
        | None => cutoffOfMonth (getFullYear statementDate) (getMonth statementDate) 25
        end in
      let prevStatementDate := prevStatementDateOf (Debt.cutOffDay debt) statementDate in
      (* 3) Idempotency *)
      await! history := awaitRead rejects CallGetCreditHistoryObjects creditHistorySheet in
      let statementDateStr := isoDay ext statementDate in
      let exists_ := existsb (matchesKey debtId statementDateStr) history in
      if exists_ && negb (recompute options)
      then ret (SkippedAlready statementDateStr)
      else
      await! previousRowNumber :=
        (if exists_ && recompute options
         then
           await! row := findCreditHistoryRow rejects debtId statementDateStr in
           if rowTruthy row
           then do! getCreditHistoryByRow rejects (default O row) in ret row
           else ret row
         else ret None) in
      (* 4) previousBalance *)
      let lastForDebt := latestStatement (priorStatements debtId statementDateStr history) in
      let previousBalance := previousBalanceOf lastForDebt debt in
      (* 5) events of the period *)
      await! allExpenses := awaitRead rejects CallGetExpensesObjects expensesSheet in
      let startPeriod := startPeriodOf prevStatementDate in
      let startPeriodDateOnly := dateOnly startPeriod in
      let statementDateOnly := dateOnly statementDate in
      let events := periodEvents ext debtId startPeriodDateOnly statementDateOnly allExpenses in
      let charges := sumKind charge events in
      let payments := sumKind payment events in
      let rate := annualRateUnit (Debt.interesEfectivo debt) in
      let spd := computeSpdInterests ext previousBalance events rate startPeriod statementDate in
      let interestSobreSaldo := fst spd in
      let interestBonificable := snd spd in
      await! interestCarryOver :=
        match lastForDebt with
        | Some l =>
            tryCatch
              (await! prevPaid :=
                 awaitRead rejects CallSumPaymentsCarryOver
                   (fun s => sumPaymentsForDebt ext (expensesSheet s) debtId
                               (CreditHistory.statementDate l) (CreditHistory.dueDate l)) in
               ret (computeInterestCarryOver ext l prevPaid))
              (ret 0%Q)
        | None => ret 0%Q
        end in
      let interests := toFixed2 (interestSobreSaldo + interestCarryOver)%Q in
      let bonifiableInterest := toFixed2 interestBonificable in
      let statementBalance := statementBalanceOf previousBalance charges interests payments in
      let installmentBalance := toFixed2 (statementBalance + bonifiableInterest)%Q in
      (* 7) Persist *)
      await! paymentMade :=
        awaitRead rejects CallSumPaymentsMade
          (fun s => sumPaymentsForDebt ext (expensesSheet s) debtId statementDateStr
                      (isoDay ext dueDate)) in
      let record :=
        CreditHistory.mk debtId statementDateStr (isoDay ext dueDate) previousBalance
          charges interests payments (Some statementBalance) bonifiableInterest
          installmentBalance rate
          (daysBetweenDates ext (dateOnly startPeriod) statementDate) paymentMade in
      do! (if exists_ && rowTruthy previousRowNumber && recompute options
           then updateCreditHistoryRow rejects (default O previousRowNumber) record
           else appendCreditHistoryRecord rejects record) in
      (* running balance of the debt *)
      let currentCharges := sumAfterStatement debtId statementDateOnly today "charge" allExpenses in
      let currentPayments := sumAfterStatement debtId statementDateOnly today "payment" allExpenses in
      let currentBalance := toFixed2 (statementBalance + currentCharges - currentPayments)%Q in
      do! updateDebt rejects debtId currentBalance in
      ret (Created (debtId ++ "|" ++ statementDateStr)%string record statementDateStr)
    end
  end.
End Accrual.

(* ===================================================================== *)
(** ** processDebtAccruals: the nightly batch                            *)
(* ===================================================================== *)

Record User := mkUser {
  userId : string;
  sheetId : string;
  accessToken : string;
  refreshToken : string
}.

(** The outcome of the probe [fetch(.../spreadsheets/${user.sheetId})] made
    with the stored access token: it throws, or answers with a status
    ([ok] is a status in 200..299). *)
Inductive ProbeResult :=
| ProbeThrows
| ProbeStatus (status : Z).

Definition responseOk (status : Z) : bool := (200 <=? status) && (status <=? 299).

(** A tenant during one run: the user row, how the outside world answers
    for that user (probe, [authService.refreshAccessToken], where [None] is a
    rejection, [userSheetService.updateUserTokens]), and the user's
    spreadsheet with the fault plan of its service. *)
Record Tenant := mkTenant {
  user : User;
  probe : ProbeResult;
  refreshAccessToken : option string;
  updateUserTokensRejects : bool;
  tenantRejects : Call -> bool;
  tenantSheets : Sheets
}.

(** The fields of the [logger.info('Processing debt accrual for cutoff day')]
    entry written just before each call of [accrueDebtInternal]. *)
Record AccrualLogEntry := mkLog {
  logUserId : string;
  logDebtId : string;
  logCutOffDay : Z;
  logToday : Z
}.

(** The counters of the run, the accrual log, and the spreadsheets of the
    tenants as the run leaves them (in the order of the users). *)
Record Batch := mkBatch {
  totalProcessed : nat;
  totalSkipped : nat;
  totalErrors : nat;
  accrualLog : list AccrualLogEntry;
  sheetsAfter : list Sheets
}.

Section BatchRunner.
Variable ext : Externals.
Variable today : Date.

(** The gate of the inner loop: an active debt whose [cutOffDay] is a
    non-zero number equal to [today.getDate()]. *)
Definition dueToday (debt : Debt.t) : bool :=
  Debt.active debt &&
  match Debt.cutOffDay debt with
  | Some cutOffDay => negb (cutOffDay =? 0) && (cutOffDay =? getDate today)
  | None => false
  end.

(** One turn of [for (const debt of debts)]. The counters and the log are
    the run's, the sheets are the tenant's. *)
Definition processDebt (t : Tenant) (st : Batch * Sheets) (debt : Debt.t) : Batch * Sheets :=
  let (b, s) := st in
  if negb (dueToday debt) then st
  else
    let entry := mkLog (userId (user t)) (Debt.id debt)
                       (default 0 (Debt.cutOffDay debt)) (getDate today) in
    let log := accrualLog b ++ [entry] in
    match accrueDebtInternal ext (tenantRejects t) today (Debt.id debt)
            (mkOptions false None None) s with
    | (Returned result, s') =>
        if skipped result
        then (mkBatch (totalProcessed b) (S (totalSkipped b)) (totalErrors b) log
                      (sheetsAfter b), s')
        else (mkBatch (S (totalProcessed b)) (totalSkipped b) (totalErrors b) log
                      (sheetsAfter b), s')
    | (Thrown _, s') =>
        (mkBatch (totalProcessed b) (totalSkipped b) (S (totalErrors b)) log
                 (sheetsAfter b), s')
    end.

(** Whether the credential check lets the run go on to the tenant's debts
    ([false]: one of the three [continue] statements is reached). *)
Definition credentialsUsable (t : Tenant) : bool :=
  match probe t with
  | ProbeThrows => false
  | ProbeStatus status =>
      if (status =? 401) && truthy (refreshToken (user t))
      then match refreshAccessToken t with
           | Some _ => negb (updateUserTokensRejects t)
           | None => false
           end
      else negb (negb (responseOk status) && negb (status =? 401))
  end.

Definition closeTenant (b : Batch) (s : Sheets) : Batch :=
  mkBatch (totalProcessed b) (totalSkipped b) (totalErrors b) (accrualLog b)
          (sheetsAfter b ++ [s]).

(** One turn of [for (const user of users)]. *)
Definition processUser (b : Batch) (t : Tenant) : Batch :=
  if negb (truthy (sheetId (user t))) || negb (truthy (accessToken (user t)))
  then closeTenant b (tenantSheets t)
  else if negb (credentialsUsable t)
  then closeTenant b (tenantSheets t)
  else if tenantRejects t CallGetDebtsObjects
  then (* the outer catch *)
    closeTenant (mkBatch (totalProcessed b) (totalSkipped b) (S (totalErrors b))
                         (accrualLog b) (sheetsAfter b)) (tenantSheets t)
  else
    let debts := debtsSheet (tenantSheets t) in
    let (b', s') := fold_left (processDebt t) debts (b, tenantSheets t) in
    closeTenant b' s'.

Definition emptyBatch : Batch := mkBatch O O O [] [].

(** The three counters of the summary that closes the run. *)
Definition counters (b : Batch) : nat * nat * nat :=
  (totalProcessed b, totalSkipped b, totalErrors b).

Definition processDebtAccruals (users : list Tenant) : Batch :=
  fold_left processUser users emptyBatch.
End BatchRunner.

(* ===================================================================== *)
(** ** The record of a cycle, as a function of what the run has read     *)
(* ===================================================================== *)

Section CycleRecord.
Variable ext : Externals.
Variable rejects : Call -> bool.

(** [interestCarryOver]: nothing without a previous statement, nothing when
    the read of the payments is rejected (the [catch]), and what
    [computeInterestCarryOver] makes of the payments otherwise. *)
Definition carryOverOf (debtId : string) (lastForDebt : option CreditHistory.t)
    (allExpenses : list Expense.t) : Q :=
  match lastForDebt with
  | Some l =>
      if rejects CallSumPaymentsCarryOver then 0%Q
      else computeInterestCarryOver ext l
             (sumPaymentsForDebt ext allExpenses debtId
                (CreditHistory.statementDate l) (CreditHistory.dueDate l))
  | None => 0%Q
  end.

(** [dueDate]: the next occurrence of the due day on or after the statement
    date, the 25th of the statement's month without a due day. *)
Definition dueDateOf (debt : Debt.t) (statementDate : Date) : Date :=
  match Debt.dueDay debt with
  | Some dd => nextDateForDayOfMonth ext dd statementDate
  | None => cutoffOfMonth (getFullYear statementDate) (getMonth statementDate) 25
  end.

(** The object [record] of step 7 (and [previewData] of the preview, up to
    [periodDays]), from the debt row, the statement date, the ledger and the
    expenses as the run read them.  [periodEnd] is the second argument of
    [daysBetweenDates]: [statementDate] in the accrual, [statementDateOnly] in
    the preview. *)
Definition cycleRecord (debtId : string) (debt : Debt.t) (statementDate periodEnd : Date)
    (history : list CreditHistory.t) (allExpenses : list Expense.t) : CreditHistory.t :=
  let statementDateStr := isoDay ext statementDate in
  let dueDate := dueDateOf debt statementDate in
  let prevStatementDate := prevStatementDateOf (Debt.cutOffDay debt) statementDate in
  let lastForDebt := latestStatement (priorStatements debtId statementDateStr history) in
  let previousBalance := previousBalanceOf lastForDebt debt in
  let startPeriod := startPeriodOf prevStatementDate in
  let events := periodEvents ext debtId (dateOnly startPeriod) (dateOnly statementDate)
                             allExpenses in
  let charges := sumKind charge events in
  let payments := sumKind payment events in
  let rate := annualRateUnit (Debt.interesEfectivo debt) in
  let spd := computeSpdInterests ext previousBalance events rate startPeriod statementDate in
  let interests := toFixed2 (fst spd + carryOverOf debtId lastForDebt allExpenses)%Q in
  let bonifiableInterest := toFixed2 (snd spd) in
  let statementBalance := statementBalanceOf previousBalance charges interests payments in
  let installmentBalance := toFixed2 (statementBalance + bonifiableInterest)%Q in
  CreditHistory.mk debtId statementDateStr (isoDay ext dueDate) previousBalance
    charges interests payments (Some statementBalance) bonifiableInterest
    installmentBalance rate
    (daysBetweenDates ext (dateOnly startPeriod) periodEnd)
    (sumPaymentsForDebt ext allExpenses debtId statementDateStr (isoDay ext dueDate)).

(** [currentBalance]: the statement balance plus the charges and minus the
    payments dated after the statement date and up to today, in cents. *)
Definition runningBalanceOf (debtId : string) (statementDate today : Date)
    (statementBalance : Q) (allExpenses : list Expense.t) : Q :=
  toFixed2 (statementBalance
            + sumAfterStatement ext debtId (dateOnly statementDate) today "charge" allExpenses
            - sumAfterStatement ext debtId (dateOnly statementDate) today "payment" allExpenses)%Q.

(** The ledger after the write of step 7: the record takes the place of the
    first record of its key, or goes to the end when the key is new. *)
Definition ledgerWith (record : CreditHistory.t) (history : list CreditHistory.t)
    : list CreditHistory.t :=
  match findIndex (matchesKey (CreditHistory.debtId record)
                              (CreditHistory.statementDate record)) history with
  | Some i => <[i := record]> history
  | None => history ++ [record]
  end.

(* ===================================================================== *)
(** ** getDebtStatementPreview                                           *)
(* ===================================================================== *)

(** What the handler answers with status 200: the skip of an inactive debt,
    the stored record ([cached: true]), or the computed preview with the
    interest breakdown and the itemised charges and payments. *)
Inductive PreviewResult :=
| PreviewInactive
| PreviewCached (existing : CreditHistory.t)
| PreviewComputed (data : CreditHistory.t)
    (interestSobreSaldo interestBonificable interestCarryOver : Q)
    (chargesDetail paymentsDetail : list (string * Q)).

(** [periodEvents.filter(e => e.kind === k).map(e => ({ date, amount }))] with
    the date as the UTC day of the event's instant and the amount in cents. *)
Definition detailOf (k : EntryKind) (events : list Event.t) : list (string * Q) :=
  map (fun e => (isoDayAt ext (Event.date e), toFixed2 (Event.amount e)))
      (List.filter (fun e => kindEqb (Event.kind e) k) events).

(** The handler of GET /api/debts/:id/statement-preview; an error handed to
    [next] is [Thrown]. *)
Definition getDebtStatementPreview (today : Date) (id : string) (options : Options)
    : Op PreviewResult :=
  let baseDate := match dateParam options with Some d => d | None => today end in
  await! rows := awaitRead rejects CallGetDebts debtsSheet in
  match List.find (fun r => String.eqb (Debt.id r) id) rows with
  | None => throw (ApiError 404 "Debt not found")
  | Some debt =>
    if negb (Debt.active debt) then ret PreviewInactive
    else
    match resolveStatementDate (Debt.cutOffDay debt) baseDate (periodParam options) with
    | inl e => throw e
    | inr statementDate =>
      let dueDate :=
        match Debt.dueDay debt with
        | Some dd => nextDateForDayOfMonth ext dd statementDate
        | None => cutoffOfMonth (getFullYear statementDate) (getMonth statementDate) 25
        end in
      let prevStatementDate := prevStatementDateOf (Debt.cutOffDay debt) statementDate in
      await! history := awaitRead rejects CallGetCreditHistoryObjects creditHistorySheet in
      let statementDateStr := isoDay ext statementDate in
      let existing := List.find (matchesKey id statementDateStr) history in
      match (if recompute options then None else existing) with
      | Some h => ret (PreviewCached h)
      | None =>
        let lastForDebt := latestStatement (priorStatements id statementDateStr history) in
        let previousBalance := previousBalanceOf lastForDebt debt in
        await! allExpenses := awaitRead rejects CallGetExpensesObjects expensesSheet in
        let startPeriod := startPeriodOf prevStatementDate in
        let startPeriodDateOnly := dateOnly startPeriod in
        let statementDateOnly := dateOnly statementDate in
        let events := periodEvents ext id startPeriodDateOnly statementDateOnly allExpenses in
        let charges := sumKind charge events in
        let payments := sumKind payment events in
        let rate := annualRateUnit (Debt.interesEfectivo debt) in
        let spd := computeSpdInterests ext previousBalance events rate startPeriod statementDate in
        let interestSobreSaldo := fst spd in
        let interestBonificable := snd spd in
        await! interestCarryOver :=
          match lastForDebt with
          | Some l =>
              tryCatch
                (await! prevPaid :=
                   awaitRead rejects CallSumPaymentsCarryOver
                     (fun s => sumPaymentsForDebt ext (expensesSheet s) id
                                 (CreditHistory.statementDate l) (CreditHistory.dueDate l)) in
                 ret (computeInterestCarryOver ext l prevPaid))
                (ret 0%Q)
          | None => ret 0%Q
          end in
        let interests := toFixed2 (interestSobreSaldo + interestCarryOver)%Q in
        let bonifiableInterest := toFixed2 interestBonificable in
        let statementBalance := statementBalanceOf previousBalance charges interests payments in
        let installmentBalance := toFixed2 (statementBalance + bonifiableInterest)%Q in
        let periodDays := daysBetweenDates ext startPeriodDateOnly statementDateOnly in
        await! paymentMade :=
          awaitRead rejects CallSumPaymentsMade
            (fun s => sumPaymentsForDebt ext (expensesSheet s) id statementDateStr
                        (isoDay ext dueDate)) in
        let previewData :=
          CreditHistory.mk id statementDateStr (isoDay ext dueDate) previousBalance
            charges interests payments (Some statementBalance) bonifiableInterest
            installmentBalance rate periodDays paymentMade in
        ret (PreviewComputed previewData interestSobreSaldo interestBonificable
               interestCarryOver (detailOf charge events) (detailOf payment events))
      end
    end
  end.
End CycleRecord.

(* ===================================================================== *)
(** ** getDebtInstallments                                               *)
(* ===================================================================== *)

Record InstallmentRow := mkRow {
  rowPeriod : Z;
  rowDate : string;
  rowPayment : Q;
  rowInterest : Q;
  rowPrincipal : Q;
  rowRemaining : Q
}.

(** The body of the answer: the principal, the rate, the payment in cents,
    [schedule.length], the schedule and the three totals, each the sum of a
    column of the schedule put in cents. *)
Record InstallmentPlan := mkPlan {
  planBalance : Q;
  planMonthlyRate : Q;
  planPayment : Q;
  planMonths : nat;
  planSchedule : list InstallmentRow;
  planTotalPaid : Q;
  planTotalInterest : Q;
  planTotalPrincipal : Q
}.

(** [String(n)] for an integer of up to [fuel] digits. *)
Fixpoint digitsOf (fuel : nat) (n : Z) : string :=
  match fuel with
  | O => EmptyString
  | S fuel' =>
      if n <? 10 then String (digitChar n) EmptyString
      else (digitsOf fuel' (n / 10) ++ String (digitChar n) EmptyString)%string
  end.

Definition numberToString (n : Z) : string :=
  if n <? 0 then ("-" ++ digitsOf 21 (- n))%string else digitsOf 21 n.

(** What the handler answers with: the plan computed from a balance that is
    a finite number, or the answer for a balance cell that is not one (the
    row type keeps no more of it: the source answers one row of zeros for a
    blank cell, and NaN in every amount for a text that does not parse). *)
Inductive InstallmentAnswer :=
| PlanFor (plan : InstallmentPlan)
| PlanOfNonNumber.

Section Installments.
Variable ext : Externals.
Variable rejects : Call -> bool.
(** [debt.interesEfectivo !== null ? monthlyRateFromAnnualEffective(...) : 0]
    and [interestForMonth]; both functions are of utils/finance.js, which is
    not among the sources. *)
Variable monthlyRateOf : Debt.t -> Q.
Variable interestForMonth : Q -> Q -> Q.

(** The equal payment: the annuity formula for a positive rate, the
    principal divided by the months otherwise. *)
Definition annuityPayment (principal monthlyRate : Q) (months : Z) : Q :=
  if Qltb 0 monthlyRate
  then (principal * (monthlyRate * Qpower (1 + monthlyRate) months)
        / (Qpower (1 + monthlyRate) months - 1))%Q
  else if 0 <? months then (principal / inject_Z months)%Q else principal.

(** [`${date.getFullYear()}-${String(date.getMonth() + 1).padStart(2, '0')}-01`] *)
Definition firstOfMonthLabel (date : Date) : string :=
  (numberToString (getFullYear date) ++ "-" ++ pad2 (getMonth date + 1) ++ "-01")%string.

(** The part of the payment that goes to the principal: the payment less
    the interest, not below 0 and not above what remains. *)
Definition principalPartOf (payment interest remaining : Q) : Q :=
  let p := (payment - interest)%Q in
  let p := if Qltb p 0 then 0%Q else p in
  if Qltb remaining p then remaining else p.

(** The loop [for (let i = 0; i < months; i++)] from turn [i] on, with
    [fuel] turns left; it breaks after the row that brings the balance to 0. *)
Fixpoint scheduleFrom (fuel : nat) (i : Z) (remaining : Q)
    (payment monthlyRate : Q) (baseYear baseMonth targetDay : Z) : list InstallmentRow :=
  match fuel with
  | O => []
  | S fuel' =>
      let m := baseMonth + i in
      let daysInMonth := getDate (newDate baseYear (m + 1) 0) in
      let day := Z.min targetDay daysInMonth in
      let date := newDate baseYear m day in
      let interest := interestForMonth remaining monthlyRate in
      let principalPart := principalPartOf payment interest remaining in
      let remaining' := mathMax0 (remaining - principalPart)%Q in
      let row := mkRow (i + 1) (firstOfMonthLabel date) (toFixed2 payment)
                       (toFixed2 interest) (toFixed2 principalPart) (toFixed2 remaining') in
      if Qle_bool remaining' 0 then [row]
      else row :: scheduleFrom fuel' (i + 1) remaining' payment monthlyRate
                               baseYear baseMonth targetDay
  end.

(** The plan (lines 269-328) for a balance, a monthly rate, a number of
    months and a start date. *)
Definition installmentPlan (balance monthlyRate : Q) (months : Z) (startDate : Date)
    : InstallmentPlan :=
  let principal := mathMax0 balance in
  let payment := annuityPayment principal monthlyRate months in
  let schedule := scheduleFrom (Z.to_nat months) 0 principal payment monthlyRate
                    (getFullYear startDate) (getMonth startDate) (getDate startDate) in
  mkPlan principal monthlyRate (toFixed2 payment) (length schedule) schedule
         (toFixed2 (sumQ (map rowPayment schedule)))
         (toFixed2 (sumQ (map rowInterest schedule)))
         (toFixed2 (sumQ (map rowPrincipal schedule))).

(** The handler of GET /api/debts/:id/installments.  [months] is
    [parseInt(req.query.months, 10)] ([None] for NaN), [start] the local day of
    [new Date(req.query.start)] when the query has one. *)
Definition getDebtInstallments (today : Date) (id : string) (months : option Z)
    (start : option Date) : Op InstallmentAnswer :=
  match months with
  | None => throw (ApiError 400 "Invalid parameters")
  | Some n =>
      if negb (truthy id) || (n <=? 0)
      then throw (ApiError 400 "Invalid parameters")
      else
        await! rows := awaitRead rejects CallGetDebts debtsSheet in
        match List.find (fun r => String.eqb (Debt.id r) id) rows with
        | None => throw (ApiError 404 "Debt not found")
        | Some debt =>
            let startDate :=
              match start with
              | Some d => d
              | None =>
                  match Debt.dueDay debt with
                  | Some dd => if dd =? 0 then today
                               else nextDateForDayOfMonth ext dd today
                  | None => today
                  end
              end in
            match Debt.balance debt with
            | Some balance =>
                ret (PlanFor (installmentPlan balance (monthlyRateOf debt) n startDate))
            | None => ret PlanOfNonNumber
            end
        end
  end.
End Installments.


(* ===================================================================== *)
(** ** Operations that only read                                         *)
(* ===================================================================== *)

(** An operation that leaves the store as it found it, whatever it answers. *)
Definition readOnly {A} (m : Op A) : Prop := forall s, snd (m s) = s.

(* ===================================================================== *)
(** ** processDebtAccruals: what a run attempts                          *)
(* ===================================================================== *)

(** The user passes the guard on [sheetId] and [accessToken] and the
    credential check: the run goes on to [getDebtsObjects]. *)
Definition reached (t : Tenant) : bool :=
  truthy (sheetId (user t)) && truthy (accessToken (user t)) && credentialsUsable t.

(** The debts of the tenant that pass the gate of the inner loop, in sheet
    order. *)
Definition dueDebts (today : Date) (t : Tenant) : list Debt.t :=
  List.filter (dueToday today) (debtsSheet (tenantSheets t)).

(** The number of accrual attempts the three counters have counted. *)
Definition totalCounted (b : Batch) : nat :=
  (totalProcessed b + totalSkipped b + totalErrors b)%nat.

(** The tenant of a later run: the same user and the same answers of the
    outside world, with the spreadsheet as an earlier run left it. *)
Definition tenantWith (t : Tenant) (s : Sheets) : Tenant :=
  mkTenant (user t) (probe t) (refreshAccessToken t) (updateUserTokensRejects t)
           (tenantRejects t) s.

(** The accrual of the day is on the books of the debt [id]: if the debt
    is found and active, the ledger holds the record of its statement. *)
Definition accruedToday (ext : Externals) (today : Date) (s : Sheets) (id : string)
    : Prop :=
  forall debt sd,
    List.find (fun r => String.eqb (Debt.id r) id) (debtsSheet s) = Some debt ->
    Debt.active debt = true ->
    resolveStatementDate (Debt.cutOffDay debt) today None = inr sd ->
    existsb (matchesKey id (isoDay ext sd)) (creditHistorySheet s) = true.
(* ===================================================================== *)
(** ** Fixtures                                                          *)
(* ===================================================================== *)

(** Modelled from the spec: [nextOccurrenceOfDay(day, fromDate)] of
    utils/finance.js, which is not among the sources: the next calendar date,
    possibly [fromDate] itself, whose day of month is [day] clamped to the
    month. *)
Definition nextOccurrenceOfDay (day : Z) (fromDate : Date) : Date :=
  let thisMonth := cutoffOfMonth (getFullYear fromDate) (getMonth fromDate) day in
  if dateLeb fromDate thisMonth then thisMonth
  else
    let next := newDate (getFullYear fromDate) (getMonth fromDate + 1) 1 in
    cutoffOfMonth (getFullYear next) (getMonth next) day.

(** Modelled from the spec: [daysBetween(dateA, dateB)] of utils/finance.js,
    which is not among the sources, for [dateA] up to [fuel] days before
    [dateB]. *)
Fixpoint daysUntil (fuel : nat) (a b : Date) : Z :=
  match fuel with
  | O => 0
  | S f => if dateLtb a b then 1 + daysUntil f (nextDay a) b else 0
  end.

(** Fixture externals: no interest accrues (as for an annual rate of 0 and a
    previous statement paid in full), no payment falls in a due window, every
    date text is in the form YYYY-MM-DD, and the host runs in UTC. *)
Definition plainExt : Externals :=
  mkExternals
    nextOccurrenceOfDay
    (daysUntil 400)
    (fun _ _ _ _ _ => (0%Q, 0%Q))
    (fun _ _ => 0%Q)
    (fun _ _ _ _ => 0%Q)
    (fun _ => None)
    localDay.

Definition noFault : Call -> bool := fun _ => false.

(** The last write of the operation is refused. *)
Definition updateDebtFails : Call -> bool :=
  fun c => match c with CallUpdateDebt => true | _ => false end.

(** A card that closes on the 15th, with a balance of 1000 and no rate. *)
Definition visa : Debt.t := Debt.mk "visa" (Some 1000%Q) (Some 5) (Some 15) 0%Q true.

(** A charge of 200 dated on the cutoff day of March 2025. *)
Definition chargeOnCutoff : Expense.t := Expense.mk "visa" "2025-03-15" "charge" (Some 200%Q).

Definition ledger (history : list CreditHistory.t) (expenses : list Expense.t) : Sheets :=
  mkSheets [visa] history expenses.


(** The statement of April 2025 as an earlier accrual left it. *)
Definition statementOfApril : CreditHistory.t :=
  CreditHistory.mk "visa" "2025-04-15" "2025-05-05" 1000%Q 0%Q 0%Q 0%Q (Some 1000%Q)
                   0%Q 1000%Q 0%Q 30 0%Q.

(** A charge and a payment of the same day, the charge entered first. *)
Definition chargeOfMarch20 : Expense.t := Expense.mk "visa" "2025-03-20" "Charge" (Some 200%Q).
Definition paymentOfMarch20 : Expense.t := Expense.mk "visa" "2025-03-20" "PAYMENT" (Some 300%Q).
Definition march20 : Date := mkDate 2025 2 20.


(** An entry whose type is neither of the two, and one without amount. *)
Definition refundOfMarch20 : Expense.t := Expense.mk "visa" "2025-03-20" "refund" (Some 50%Q).
Definition blankOfMarch20 : Expense.t := Expense.mk "visa" "2025-03-20" "charge" None.


Definition accrueApril : Options := mkOptions false None (Some "2025-04"%string).
Definition recomputeApril : Options := mkOptions true None (Some "2025-04"%string).

(** Three tenants of one nightly run.  The probe of the second answers
    401, the user has a refresh token, and the refresh is rejected. *)
Definition alice : Tenant :=
  mkTenant (mkUser "u1" "sheet-1" "token-1" "refresh-1") (ProbeStatus 200) None false
           noFault (mkSheets [visa] [] []).
Definition bob : Tenant :=
  mkTenant (mkUser "u2" "sheet-2" "token-2" "refresh-2") (ProbeStatus 401) None false
           noFault (mkSheets [visa] [] []).
Definition carol : Tenant :=
  mkTenant (mkUser "u3" "sheet-3" "token-3" "refresh-3") (ProbeStatus 200) None false
           noFault (mkSheets [visa] [] []).

(** A card that closes on the 31st, and the last day of February 2025. *)
Definition closesOn31 : Debt.t := Debt.mk "gold" (Some 500%Q) None (Some 31) 0%Q true.
Definition february28 : Date := mkDate 2025 1 28.

Definition april15 : Date := mkDate 2025 3 15.
Definition march15 : Date := mkDate 2025 2 15.


(** The cycle after the April statement. *)
Definition may15 : Date := mkDate 2025 4 15.
Definition accrueMay : Options := mkOptions false None (Some "2025-05"%string).
Definition recomputeMay : Options := mkOptions true None (Some "2025-05"%string).

(** Only the read of the payments of the previous cycle is refused. *)
Definition carryOverFails : Call -> bool :=
  fun c => match c with CallSumPaymentsCarryOver => true | _ => false end.

(** The spreadsheet of the first tenant after the run of 15 April. *)
Definition aliceAfter : Sheets :=
  default (tenantSheets alice) (head (sheetsAfter (processDebtAccruals plainExt april15 [alice]))).

(** The March statement of the card that closes on the 31st and has no due
    day. *)
Definition accrueMarch : Options := mkOptions false None (Some "2025-03"%string).
Definition goldLedger : Sheets := mkSheets [closesOn31] [] [].
Definition march31 : Date := mkDate 2025 2 31.

(** A host in Europe/London in 2025: one hour ahead of UTC from 30 March,
    01:00 UTC, to 26 October, 01:00 UTC, and on UTC otherwise.  The first hour
    of a summer day belongs to the UTC day before. *)
Definition londonUtcDay (i : Instant) : Date :=
  if dateLtb (mkDate 2025 2 30) (localDay i) && dateLeb (localDay i) (mkDate 2025 9 26)
     && (sinceMidnight i <? 3600000)%N
  then prevDay (localDay i) else localDay i.

Definition london : Externals :=
  mkExternals
    nextOccurrenceOfDay
    (daysUntil 400)
    (fun _ _ _ _ _ => (0%Q, 0%Q))
    (fun _ _ => 0%Q)
    (fun _ _ _ _ => 0%Q)
    (fun _ => None)
    londonUtcDay.

Definition march30 : Date := mkDate 2025 2 30.
(* ===================================================================== *)
(** ** Calendar lemmas                                                   *)
(* ===================================================================== *)

Lemma daysInMonth_bounds (y m : Z) : 28 <= daysInMonth y m <= 31.
Proof.
  unfold daysInMonth.
  destruct (m =? 1); [destruct (isLeapYear y); lia|].
  destruct ((m =? 3) || (m =? 5) || (m =? 8) || (m =? 10)); lia.
Qed.

Lemma iter_nextDay (y m : Z) (n : nat) :
  1 + Z.of_nat n <= daysInMonth y m ->
  Nat.iter n nextDay (mkDate y m 1) = mkDate y m (1 + Z.of_nat n).
Proof.
  induction n as [|n IH]; intros Hn.
  - reflexivity.
  - rewrite Nat.iter_succ, IH by lia.
    unfold nextDay; cbn [getDate getFullYear getMonth].
    replace (1 + Z.of_nat n <? daysInMonth y m) with true by (symmetry; apply Z.ltb_lt; lia).
    f_equal; lia.
Qed.

Lemma plain_year (y : Z) : 100 <= y -> (0 <=? y) && (y <=? 99) = false.
Proof. intros H. apply andb_false_iff. right. apply Z.leb_gt. lia. Qed.

(** Inside the month the constructor is the identity. *)
Lemma newDate_day (y m d : Z) :
  100 <= y -> 0 <= m <= 11 -> 1 <= d <= daysInMonth y m ->
  newDate y m d = mkDate y m d.
Proof.
  intros Hy Hm Hd. unfold newDate. rewrite plain_year by assumption.
  rewrite Z.div_small, Z.mod_small, Z.add_0_r by lia.
  unfold addDays.
  replace (0 <=? d - 1) with true by (symmetry; apply Z.leb_le; lia).
  rewrite iter_nextDay by lia. f_equal; lia.
Qed.

(** One day past a day of the month is the next day. *)
Lemma newDate_succ (y m d : Z) :
  100 <= y -> 0 <= m <= 11 -> 1 <= d <= daysInMonth y m ->
  newDate y m (d + 1) = nextDay (mkDate y m d).
Proof.
  intros Hy Hm Hd. unfold newDate. rewrite plain_year by assumption.
  rewrite Z.div_small, Z.mod_small, Z.add_0_r by lia.
  unfold addDays.
  replace (0 <=? d + 1 - 1) with true by (symmetry; apply Z.leb_le; lia).
  replace (Z.to_nat (d + 1 - 1)) with (S (Z.to_nat (d - 1))) by lia.
  rewrite Nat.iter_succ, iter_nextDay by lia. do 2 f_equal; lia.
Qed.

(** Day 0 of the following month is the last day of the month. *)
Lemma newDate_day0 (y m : Z) :
  100 <= y -> 0 <= m <= 11 ->
  newDate y (m + 1) 0 = mkDate y m (daysInMonth y m).
Proof.
  intros Hy Hm. unfold newDate. rewrite plain_year by assumption.
  destruct (Z.eq_dec m 11) as [->|Hne].
  - change ((11 + 1) / 12) with 1. change ((11 + 1) mod 12) with 0.
    change (daysInMonth y 11) with 31.
    change (addDays ?a (0 - 1)) with (prevDay a).
    unfold prevDay; cbn [getDate getFullYear getMonth].
    change (1 <? 1) with false. change (0 <? 0) with false. cbv iota.
    f_equal; lia.
  - rewrite Z.div_small, Z.mod_small, Z.add_0_r by lia.
    change (addDays ?a (0 - 1)) with (prevDay a).
    unfold prevDay; cbn [getDate getFullYear getMonth].
    change (1 <? 1) with false. cbv iota.
    replace (0 <? m + 1) with true by (symmetry; apply Z.ltb_lt; lia).
    replace (m + 1 - 1) with m by lia. reflexivity.
Qed.

(** The first of the month before, across the turn of the year. *)
Lemma newDate_prevMonth (y m : Z) :
  100 < y -> 0 <= m <= 11 ->
  newDate y (m - 1) 1 = if m =? 0 then mkDate (y - 1) 11 1 else mkDate y (m - 1) 1.
Proof.
  intros Hy Hm. unfold newDate. rewrite plain_year by lia.
  destruct (Z.eqb_spec m 0) as [->|Hne].
  - change ((0 - 1) / 12) with (-1). change ((0 - 1) mod 12) with 11.
    change (addDays ?a (1 - 1)) with a. f_equal; lia.
  - rewrite Z.div_small, Z.mod_small, Z.add_0_r by lia. reflexivity.
Qed.

Lemma dayClamp_month (y m c : Z) :
  100 <= y -> 0 <= m <= 11 ->
  dayClamp y m c = Z.min (Z.max 1 c) (daysInMonth y m).
Proof.
  intros Hy Hm. unfold dayClamp. rewrite newDate_day0 by assumption. reflexivity.
Qed.

Lemma cutoffOfMonth_eq (y m c : Z) :
  100 <= y -> 0 <= m <= 11 ->
  cutoffOfMonth y m c = mkDate y m (Z.min (Z.max 1 c) (daysInMonth y m)).
Proof.
  intros Hy Hm. unfold cutoffOfMonth. rewrite dayClamp_month by assumption.
  pose proof (daysInMonth_bounds y m). apply newDate_day; lia.
Qed.

(** The statement date of a month is a day of that month. *)
Lemma statementDateOfMonth_in_month (cutOffDay : option Z) (y m : Z) :
  100 <= y -> 0 <= m <= 11 ->
  exists d, statementDateOfMonth cutOffDay y m = mkDate y m d
            /\ 1 <= d <= daysInMonth y m.
Proof.
  intros Hy Hm. pose proof (daysInMonth_bounds y m).
  destruct cutOffDay as [c|]; cbn [statementDateOfMonth].
  - rewrite cutoffOfMonth_eq by assumption. eexists; split; [reflexivity|lia].
  - rewrite newDate_day0 by assumption. eexists; split; [reflexivity|lia].
Qed.

Lemma dateOnly_valid (y m d : Z) :
  100 <= y -> 0 <= m <= 11 -> 1 <= d <= daysInMonth y m ->
  dateOnly (mkDate y m d) = mkDate y m d.
Proof. intros. unfold dateOnly; cbn [getFullYear getMonth getDate]. now apply newDate_day. Qed.

Lemma dateCompare_refl (a : Date) : dateCompare a a = Eq.
Proof. unfold dateCompare. now rewrite !Z.compare_refl. Qed.

Lemma dateCompare_flip (a b : Date) : dateCompare a b = CompOpp (dateCompare b a).
Proof.
  unfold dateCompare.
  rewrite (Z.compare_antisym (getFullYear b) (getFullYear a)),
          (Z.compare_antisym (getMonth b) (getMonth a)),
          (Z.compare_antisym (getDate b) (getDate a)).
  destruct (getFullYear b ?= getFullYear a); cbn; try reflexivity.
  destruct (getMonth b ?= getMonth a); cbn; reflexivity.
Qed.

Lemma dateLtb_irrefl (a : Date) : dateLtb a a = false.
Proof. unfold dateLtb. now rewrite dateCompare_refl. Qed.

Lemma nextDay_valid (a : Date) :
  validDate a -> validDate (nextDay a).
Proof.
  destruct a as [y m d]. unfold validDate, nextDay; cbn [getFullYear getMonth getDate].
  intros [Hm Hd].
  destruct (Z.ltb_spec d (daysInMonth y m)); cbn [getFullYear getMonth getDate].
  - lia.
  - destruct (Z.ltb_spec m 11); cbn [getFullYear getMonth getDate].
    + pose proof (daysInMonth_bounds y (m + 1)). lia.
    + pose proof (daysInMonth_bounds (y + 1) 0). lia.
Qed.

Lemma nextDay_year (a : Date) : getFullYear a <= getFullYear (nextDay a).
Proof.
  destruct a as [y m d]. unfold nextDay; cbn [getFullYear getMonth getDate].
  destruct (d <? daysInMonth y m); cbn; [lia|].
  destruct (m <? 11); cbn; lia.
Qed.

(** A day comes strictly before its next day. *)
Lemma nextDay_after (a : Date) :
  validDate a -> dateCompare a (nextDay a) = Lt.
Proof.
  destruct a as [y m d]. unfold validDate, nextDay, dateCompare;
    cbn [getFullYear getMonth getDate].
  intros [Hm Hd].
  destruct (Z.ltb_spec d (daysInMonth y m)); cbn [getFullYear getMonth getDate].
  - rewrite !Z.compare_refl. apply Z.compare_lt_iff. lia.
  - destruct (Z.ltb_spec m 11); cbn [getFullYear getMonth getDate].
    + rewrite Z.compare_refl.
      replace (m ?= m + 1) with Lt by (symmetry; apply Z.compare_lt_iff; lia).
      reflexivity.
    + replace (y ?= y + 1) with Lt by (symmetry; apply Z.compare_lt_iff; lia).
      reflexivity.
Qed.

Lemma newDate_first_minus_one (y : Z) :
  100 < y -> newDate y 0 0 = mkDate (y - 1) 11 31.
Proof.
  intros Hy. unfold newDate. rewrite plain_year by lia.
  change (0 / 12) with 0. change (0 mod 12) with 0.
  change (addDays ?a (0 - 1)) with (prevDay a).
  unfold prevDay; cbn [getDate getFullYear getMonth].
  change (1 <? 1) with false. change (0 <? 0) with false. cbv iota.
  f_equal; lia.
Qed.

(** The previous statement date is the statement date of the month before. *)
Lemma prevStatementDateOf_eq (cutOffDay : option Z) (y m d : Z) :
  100 < y -> 0 <= m <= 11 ->
  prevStatementDateOf cutOffDay (mkDate y m d)
  = statementDateOfMonth cutOffDay (if m =? 0 then y - 1 else y)
                                   (if m =? 0 then 11 else m - 1).
Proof.
  intros Hy Hm. unfold prevStatementDateOf; cbn [getFullYear getMonth getDate].
  rewrite newDate_prevMonth by assumption.
  destruct (Z.eqb_spec m 0) as [->|Hne]; cbn [getFullYear getMonth getDate];
    destruct cutOffDay as [c|]; cbn [statementDateOfMonth]; try reflexivity.
  - rewrite newDate_first_minus_one, newDate_day0 by lia. reflexivity.
  - replace (m - 1 + 1) with m by lia. reflexivity.
Qed.

(** The period of a cycle starts on the day after the previous statement
    date, for statement dates written as days of their month. *)
Lemma startPeriod_next (y m d : Z) :
  100 <= y -> 0 <= m <= 11 -> 1 <= d <= daysInMonth y m ->
  dateOnly (startPeriodOf (mkDate y m d)) = nextDay (mkDate y m d).
Proof.
  intros Hy Hm Hd. unfold startPeriodOf; cbn [getFullYear getMonth getDate].
  rewrite newDate_succ by assumption.
  assert (Hv : validDate (nextDay (mkDate y m d))) by (apply nextDay_valid; split; assumption).
  pose proof (nextDay_year (mkDate y m d)) as Hyr; cbn [getFullYear] in Hyr.
  destruct (nextDay (mkDate y m d)) as [y1 m1 d1]; cbn [getFullYear] in Hyr.
  destruct Hv as [Hm1 Hd1]; cbn [getFullYear getMonth getDate] in Hm1, Hd1.
  apply dateOnly_valid; lia.
Qed.

Lemma month_before_lt (y m d y1 m1 d1 : Z) :
  0 <= m <= 11 ->
  y1 = (if m =? 0 then y - 1 else y) -> m1 = (if m =? 0 then 11 else m - 1) ->
  dateCompare (mkDate y1 m1 d1) (mkDate y m d) = Lt.
Proof.
  intros Hm -> ->. unfold dateCompare; cbn [getFullYear getMonth getDate].
  destruct (Z.eqb_spec m 0) as [->|Hne].
  - replace (y - 1 ?= y) with Lt by (symmetry; apply Z.compare_lt_iff; lia). reflexivity.
  - rewrite Z.compare_refl.
    replace (m - 1 ?= m) with Lt by (symmetry; apply Z.compare_lt_iff; lia). reflexivity.
Qed.

(** The day after a day of the month before is at most any day of the month. *)
Lemma nextDay_month_before_le (y m d y1 m1 d1 : Z) :
  0 <= m <= 11 -> 1 <= d ->
  y1 = (if m =? 0 then y - 1 else y) -> m1 = (if m =? 0 then 11 else m - 1) ->
  dateLeb (nextDay (mkDate y1 m1 d1)) (mkDate y m d) = true.
Proof.
  intros Hm Hd Hy1 Hm1. unfold nextDay; cbn [getFullYear getMonth getDate].
  destruct (d1 <? daysInMonth y1 m1).
  - unfold dateLeb. now rewrite (month_before_lt y m d y1 m1 (d1 + 1)).
  - subst y1 m1. unfold dateLeb, dateCompare.
    destruct (Z.eqb_spec m 0) as [->|Hne]; cbn [getFullYear getMonth getDate].
    + change (11 <? 11) with false. cbv iota; cbn [getFullYear getMonth getDate].
      replace (y - 1 + 1) with y by lia. rewrite Z.compare_refl.
      change (0 ?= 0) with Eq. cbv iota.
      destruct (1 ?= d) eqn:E; try reflexivity. apply Z.compare_gt_iff in E. lia.
    + replace (m - 1 <? 11) with true by (symmetry; apply Z.ltb_lt; lia).
      cbn [getFullYear getMonth getDate]. replace (m - 1 + 1) with m by lia.
      rewrite !Z.compare_refl.
      destruct (1 ?= d) eqn:E; try reflexivity. apply Z.compare_gt_iff in E. lia.
Qed.

(** The order of instants against the start of a day is the order of the
    days: an instant is at or after the start of day [a] exactly when its day
    is [a] or later, and before the start of day [b] exactly when its day is
    before [b]. *)
Lemma instantLeb_atMidnight (a : Date) (i : Instant) :
  instantLeb (atMidnight a) i = dateLeb a (localDay i).
Proof.
  unfold instantLeb, instantCompare, dateLeb. cbn [localDay sinceMidnight atMidnight].
  destruct (dateCompare a (localDay i)); try reflexivity.
  destruct (sinceMidnight i); reflexivity.
Qed.

Lemma instantLtb_atMidnight (i : Instant) (b : Date) :
  instantLtb i (atMidnight b) = dateLtb (localDay i) b.
Proof.
  unfold instantLtb, instantCompare, dateLtb. cbn [localDay sinceMidnight atMidnight].
  destruct (dateCompare (localDay i) b); try reflexivity.
  destruct (sinceMidnight i); reflexivity.
Qed.

Lemma inPeriod_day (a b : Date) (i : Instant) :
  inPeriod a b i = dateLeb a (localDay i) && dateLtb (localDay i) b.
Proof. unfold inPeriod. now rewrite instantLeb_atMidnight, instantLtb_atMidnight. Qed.

(* ===================================================================== *)
(** ** C3: the windows of consecutive cycles                             *)
(* ===================================================================== *)

(** C3. For a debt with any cutoff day (or none), take the cycle that
    closes in month [(y, m)] and the cycle of the following month (years
    after 100, where the two-digit-year rule of the constructor is idle).  The
    previous statement date of the later cycle is the statement date [S] of
    the earlier one, and the later window starts on the day after [S], while
    the earlier window stops before [S]: the windows do not overlap but they
    are not adjacent either.  The statement date [S] itself lies between the
    start of the first window and the end of the second and no instant of
    that day belongs to either of them, so the two windows leave a gap of
    one day. *)
Theorem cutoff_day_in_no_cycle (cutOffDay : option Z) (y m : Z) :
  100 < y -> 0 <= m <= 11 ->
  let y' := if m =? 11 then y + 1 else y in
  let m' := if m =? 11 then 0 else m + 1 in
  let S := statementDateOfMonth cutOffDay y m in
  let S' := statementDateOfMonth cutOffDay y' m' in
  prevStatementDateOf cutOffDay S' = S
  /\ dateOnly (startPeriodOf (prevStatementDateOf cutOffDay S')) = nextDay S
  /\ (forall t, inCycle cutOffDay S (mkInstant S t) = false)
  /\ (forall t, inCycle cutOffDay S' (mkInstant S t) = false)
  /\ dateLeb (dateOnly (startPeriodOf (prevStatementDateOf cutOffDay S))) S = true
  /\ dateLtb S S' = true.
Proof.
  intros Hy Hm y' m' S S'.
  assert (Hy' : 100 < y') by (subst y'; destruct (m =? 11); lia).
  assert (Hm' : 0 <= m' <= 11) by (subst m'; destruct (Z.eqb_spec m 11); lia).
  destruct (statementDateOfMonth_in_month cutOffDay y m) as (d & HS & Hd); [lia|lia|].
  destruct (statementDateOfMonth_in_month cutOffDay y' m') as (d' & HS' & Hd'); [lia|lia|].
  fold S in HS. fold S' in HS'.
  assert (Hback : (if m' =? 0 then y' - 1 else y') = y /\ (if m' =? 0 then 11 else m' - 1) = m).
  { subst y' m'. destruct (Z.eqb_spec m 11) as [->|Hne].
    - cbn. split; lia.
    - destruct (Z.eqb_spec (m + 1) 0); [lia|]. split; lia. }
  destruct Hback as [Hby Hbm].
  assert (Hprev : prevStatementDateOf cutOffDay S' = S).
  { rewrite HS', prevStatementDateOf_eq by assumption. rewrite Hby, Hbm. reflexivity. }
  assert (Hstart : dateOnly (startPeriodOf (prevStatementDateOf cutOffDay S')) = nextDay S).
  { rewrite Hprev, HS. apply startPeriod_next; lia. }
  assert (Hvalid : validDate S) by (rewrite HS; split; cbn; lia).
  assert (HdS : dateOnly S = S) by (rewrite HS; apply dateOnly_valid; lia).
  (* the start of the earlier window *)
  set (yp := if m =? 0 then y - 1 else y).
  set (mp := if m =? 0 then 11 else m - 1).
  assert (Hyp : 100 <= yp) by (subst yp; destruct (m =? 0); lia).
  assert (Hmp : 0 <= mp <= 11) by (subst mp; destruct (Z.eqb_spec m 0); lia).
  destruct (statementDateOfMonth_in_month cutOffDay yp mp) as (dp & HP & Hdp); [lia|lia|].
  assert (HprevS : prevStatementDateOf cutOffDay S = mkDate yp mp dp).
  { rewrite HS, prevStatementDateOf_eq by assumption. exact HP. }
  repeat split.
  - exact Hprev.
  - exact Hstart.
  - intros t. unfold inCycle. rewrite inPeriod_day. cbn [localDay].
    rewrite HdS, dateLtb_irrefl. apply andb_false_r.
  - intros t. unfold inCycle. rewrite inPeriod_day. cbn [localDay]. rewrite Hstart.
    unfold dateLeb. rewrite dateCompare_flip, (nextDay_after S Hvalid). reflexivity.
  - rewrite HprevS, startPeriod_next, HS by lia.
    now apply nextDay_month_before_le; try lia.
  - rewrite HS, HS'. unfold dateLtb.
    now rewrite (month_before_lt y' m' d' y m d); try lia.
Qed.

(** The gap at the level of the gathering loop: a charge dated on the cutoff
    day of March is an event of neither the March nor the April statement,
    and the balance written after the March accrual does not hold it. *)
Example charge_on_cutoff_day_is_dropped :
  gatherEvents plainExt "visa" (dateOnly (startPeriodOf (prevStatementDateOf (Some 15) march15)))
               (dateOnly march15) [chargeOnCutoff] = []
  /\ gatherEvents plainExt "visa" (dateOnly (startPeriodOf (prevStatementDateOf (Some 15) april15)))
               (dateOnly april15) [chargeOnCutoff] = []
  /\ resolveStatementDate (Some 15) april15 (Some "2025-03"%string) = inr march15
  /\ resolveStatementDate (Some 15) april15 (Some "2025-04"%string) = inr april15
  /\ map Debt.balance
       (debtsSheet (snd (accrueDebtInternal plainExt noFault april15 "visa"
                           (mkOptions false None (Some "2025-03"%string))
                           (ledger [] [chargeOnCutoff]))))
     = [Some (100000 # 100)].
Proof. vm_compute. repeat split. Qed.

(* ===================================================================== *)
(** ** C6: the order of the events of a period                            *)
(* ===================================================================== *)









Lemma insertEvent_perm (e : Event.t) (l : list Event.t) :
  Permutation (insertEvent e l) (e :: l).
Proof.
  induction l as [|x r IH]; cbn [insertEvent].
  - reflexivity.
  - destruct (compareEvents e x <=? 0).
    + reflexivity.
    + rewrite IH. apply perm_swap.
Qed.

(** Sorting permutes the events. *)
Lemma sortEvents_perm (l : list Event.t) : Permutation (sortEvents l) l.
Proof.
  induction l as [|x r IH]; cbn [sortEvents fold_right].
  - reflexivity.
  - fold (sortEvents r). rewrite insertEvent_perm. now constructor.
Qed.






(* ===================================================================== *)
(** ** The outcomes of accrueDebtInternal                                *)
(* ===================================================================== *)

Lemma findIndex_Some {A} (p : A -> bool) (l : list A) :
  existsb p l = true ->
  exists i x, findIndex p l = Some i /\ l !! i = Some x /\ p x = true.
Proof.
  induction l as [|a r IH]; cbn; [discriminate|].
  destruct (p a) eqn:Hp.
  - intros _. exists O, a. auto.
  - cbn. intros H. destruct (IH H) as (i & x & Hi & Hl & Hx).
    exists (S i), x. rewrite Hi. auto.
Qed.

Lemma findIndex_lookup {A} (p : A -> bool) (l : list A) (i : nat) :
  findIndex p l = Some i -> exists x, l !! i = Some x /\ p x = true.
Proof.
  revert i. induction l as [|a r IH]; intros i; cbn; [discriminate|].
  destruct (p a) eqn:Hp.
  - intros [= <-]. eauto.
  - destruct (findIndex p r) as [k|]; cbn; [|discriminate].
    intros [= <-]. destruct (IH k eq_refl) as (x & Hx & Hpx). eauto.
Qed.

(** Overwriting a record by one that answers [p] alike keeps the count. *)
Lemma filter_insert_length {A} (p : A -> bool) (l : list A) (i : nat) (old new : A) :
  l !! i = Some old -> p new = p old ->
  length (List.filter p (<[i := new]> l)) = length (List.filter p l).
Proof.
  revert i. induction l as [|a r IH]; intros i Hi Hp; [discriminate|].
  destruct i as [|i]; cbn in Hi.
  - injection Hi as ->. change (<[O := new]> (old :: r)) with (new :: r).
    cbn [List.filter]. rewrite Hp. destruct (p old); reflexivity.
  - change (<[S i := new]> (a :: r)) with (a :: <[i := new]> r).
    cbn [List.filter].
    destruct (p a); cbn [length]; rewrite (IH i) by assumption; reflexivity.
Qed.

(** Names the call whose rejection [R] records. *)
Ltac call_rejected R :=
  match type of R with
  | _ ?c = true => exists c; split; [discriminate|split; [exact R|reflexivity]]
  end.

Section AccrualProperties.
Variable ext : Externals.
Variable rejects : Call -> bool.

Lemma previousRow_phase debtId sdStr (ex rec : bool) s o s1 :
  (if ex && rec
   then await! row := findCreditHistoryRow rejects debtId sdStr in
        if rowTruthy row
        then do! getCreditHistoryByRow rejects (default O row) in ret row
        else ret row
   else ret None) s = (o, s1) ->
  ex = existsb (matchesKey debtId sdStr) (creditHistorySheet s) ->
  s1 = s /\
  ((exists c, c <> CallSumPaymentsCarryOver /\ rejects c = true /\ o = Thrown (Rejected c))
   \/ exists row, o = Returned row /\
        ((ex && rec = true
          /\ exists i, findIndex (matchesKey debtId sdStr) (creditHistorySheet s) = Some i
                       /\ row = Some (i + 2)%nat)
         \/ (ex && rec = false /\ row = None))).
Proof.
  intros H Hex. destruct (ex && rec) eqn:E.
  - apply andb_true_iff in E as [E1 E2]. rewrite Hex in E1.
    destruct (findIndex_Some _ _ E1) as (i & x & Hi & _ & _).
    unfold bind, findCreditHistoryRow, getCreditHistoryByRow, awaitRead, ret in H.
    destruct (rejects CallFindCreditHistoryRow) eqn:R.
    { injection H as <- <-. split; [reflexivity|]. left. call_rejected R. }
    rewrite Hi in H. cbn [option_map] in H.
    replace (i + 2)%nat with (S (S i)) in H by lia. cbn [rowTruthy] in H.
    destruct (rejects CallGetCreditHistoryByRow) eqn:R'; injection H as <- <-;
      (split; [reflexivity|]).
    + left. call_rejected R'.
    + right. eexists; split; [reflexivity|]. left. split; [reflexivity|].
      exists i. split; [assumption|f_equal; lia].
  - injection H as <- <-. split; [reflexivity|]. right. eexists; split; [reflexivity|]. auto.
Qed.

(** The carry-over never throws: a rejection of its read is caught. *)
Lemma carryOver_phase debtId (lastForDebt : option CreditHistory.t) s :
  exists v,
    match lastForDebt with
    | Some l =>
        tryCatch
          (await! prevPaid :=
             awaitRead rejects CallSumPaymentsCarryOver
               (fun s => sumPaymentsForDebt ext (expensesSheet s) debtId
                           (CreditHistory.statementDate l) (CreditHistory.dueDate l)) in
           ret (computeInterestCarryOver ext l prevPaid))
          (ret 0%Q)
    | None => ret 0%Q
    end s = (Returned v, s).
Proof.
  destruct lastForDebt as [l|]; [|eexists; reflexivity].
  unfold tryCatch, bind, awaitRead, ret.
  destruct (rejects CallSumPaymentsCarryOver); eexists; reflexivity.
Qed.

(** Every run of [accrueDebtInternal] ends in one of two ways.  Either
    nothing was written, and the outcome is a rejected call, the 404, the
    error of the period, or one of the two skips; or the CreditHistory
    record [rec] was written, appended or in place of the first record of
    its key, and then the balance update either succeeded or was rejected. *)
Lemma accrue_outcome today debtId options s o s' :
  accrueDebtInternal ext rejects today debtId options s = (o, s') ->
  let base := match dateParam options with Some d => d | None => today end in
  let found := List.find (fun r => String.eqb (Debt.id r) debtId) (debtsSheet s) in
  (s' = s /\
   ((exists c, c <> CallSumPaymentsCarryOver /\ rejects c = true /\ o = Thrown (Rejected c))
    \/ (found = None /\ o = Thrown (ApiError 404 "Debt not found"))
    \/ (exists debt, found = Some debt /\ Debt.active debt = false /\ o = Returned SkippedInactive)
    \/ (exists debt e, found = Some debt /\ Debt.active debt = true
          /\ resolveStatementDate (Debt.cutOffDay debt) base (periodParam options) = inl e
          /\ o = Thrown e)
    \/ (exists debt sd, found = Some debt /\ Debt.active debt = true
          /\ resolveStatementDate (Debt.cutOffDay debt) base (periodParam options) = inr sd
          /\ existsb (matchesKey debtId (isoDay ext sd)) (creditHistorySheet s) = true
          /\ recompute options = false
          /\ o = Returned (SkippedAlready (isoDay ext sd)))))
  \/ exists debt sd rec history',
      found = Some debt /\ Debt.active debt = true
      /\ resolveStatementDate (Debt.cutOffDay debt) base (periodParam options) = inr sd
      /\ CreditHistory.debtId rec = debtId
      /\ CreditHistory.statementDate rec = isoDay ext sd
      /\ CreditHistory.statementBalance rec
         = Some (statementBalanceOf (CreditHistory.previousBalance rec)
                   (CreditHistory.charges rec) (CreditHistory.interests rec)
                   (CreditHistory.payments rec))
      /\ CreditHistory.annualEffectiveRate rec = annualRateUnit (Debt.interesEfectivo debt)
      /\ ((existsb (matchesKey debtId (isoDay ext sd)) (creditHistorySheet s) = false
           /\ history' = creditHistorySheet s ++ [rec])
          \/ (recompute options = true
              /\ exists i, findIndex (matchesKey debtId (isoDay ext sd)) (creditHistorySheet s) = Some i
                           /\ history' = <[i := rec]> (creditHistorySheet s)))
      /\ ((o = Thrown (Rejected CallUpdateDebt) /\ rejects CallUpdateDebt = true
           /\ s' = mkSheets (debtsSheet s) history' (expensesSheet s))
          \/ (exists b, o = Returned (Created (debtId ++ "|" ++ isoDay ext sd)%string rec
                                       (isoDay ext sd))
              /\ s' = mkSheets (setBalance debtId b (debtsSheet s)) history' (expensesSheet s))).
Proof.
  intros Hrun base found. subst base found. revert Hrun.
  unfold accrueDebtInternal.
  unfold bind at 1. unfold awaitRead at 1.
  destruct (rejects CallGetDebts) eqn:R1.
  { intros [= <- <-]. left. split; [reflexivity|]. left. call_rejected R1. }
  destruct (List.find _ (debtsSheet s)) as [debt|] eqn:Hfind.
  2:{ intros [= <- <-]. left. split; [reflexivity|]. right; left. auto. }
  destruct (Debt.active debt) eqn:Hactive; cbn [negb].
  2:{ intros [= <- <-]. left. split; [reflexivity|]. do 2 right; left. eauto. }
  destruct (resolveStatementDate _ _ _) as [err|sd] eqn:Hsd.
  { intros [= <- <-]. left. split; [reflexivity|]. do 3 right; left.
    exists debt, err. auto. }
  unfold bind at 1. unfold awaitRead at 1.
  destruct (rejects CallGetCreditHistoryObjects) eqn:R2.
  { intros [= <- <-]. left. split; [reflexivity|]. left. call_rejected R2. }
  destruct (existsb (matchesKey debtId (isoDay ext sd)) (creditHistorySheet s)
            && negb (recompute options)) eqn:Hskip.
  { apply andb_true_iff in Hskip as [Hex Hrc]. apply negb_true_iff in Hrc.
    intros [= <- <-]. left. split; [reflexivity|]. do 4 right.
    exists debt, sd. auto 10. }
  unfold bind at 1.
  match goal with |- context [ (if ?c then ?a else ?b) s ] =>
    destruct ((if c then a else b) s) as [[row|e] s1] eqn:Hrow
  end.
  all: apply previousRow_phase in Hrow as [-> Hphase]; [|reflexivity].
  all: destruct Hphase as [(c & Hc1 & Hc2 & Hc3)|(row' & Hret & Hphase)];
    try discriminate.
  2:{ injection Hc3 as ->. intros [= <- <-]. left. split; [reflexivity|]. left.
      exists c. auto. }
  injection Hret as <-.
  unfold bind at 1. unfold awaitRead at 1.
  destruct (rejects CallGetExpensesObjects) eqn:R3.
  { intros [= <- <-]. left. split; [reflexivity|]. left. call_rejected R3. }
  unfold bind at 1.
  match goal with |- context [ match ?l with Some _ => _ | None => ret 0%Q end s ] =>
    destruct (carryOver_phase debtId l s) as [carry ->] end.
  unfold bind at 1. unfold awaitRead at 1.
  destruct (rejects CallSumPaymentsMade) eqn:R4.
  { intros [= <- <-]. left. split; [reflexivity|]. left. call_rejected R4. }
  match goal with |- context [ appendCreditHistoryRecord rejects ?r ] => set (rec := r) end.
  assert (Hrec : CreditHistory.debtId rec = debtId
                 /\ CreditHistory.statementDate rec = isoDay ext sd
                 /\ CreditHistory.statementBalance rec
                    = Some (statementBalanceOf (CreditHistory.previousBalance rec)
                              (CreditHistory.charges rec) (CreditHistory.interests rec)
                              (CreditHistory.payments rec))
                 /\ CreditHistory.annualEffectiveRate rec
                    = annualRateUnit (Debt.interesEfectivo debt))
    by (repeat split).
  destruct Hrec as (Hr1 & Hr2 & Hr3 & Hr4). clearbody rec. unfold bind at 1.
  destruct Hphase as [(Hcond & i & Hi & ->)|(Hcond & ->)].
  - (* the record exists and recompute is set: overwrite *)
    apply andb_true_iff in Hcond as [Hex Hrc]. rewrite Hex, Hrc.
    replace (rowTruthy (Some (i + 2)%nat)) with true
      by (replace (i + 2)%nat with (S (S i)) by lia; reflexivity).
    cbn [andb]. change (default O (Some (i + 2)%nat)) with (i + 2)%nat.
    unfold updateCreditHistoryRow, awaitWrite.
    replace (i + 2 - 2)%nat with i by lia.
    destruct (rejects CallUpdateCreditHistoryRow) eqn:R5.
    { intros [= <- <-]. left. split; [reflexivity|]. left. call_rejected R5. }
    unfold bind, updateDebt, awaitWrite, ret.
    cbn [debtsSheet creditHistorySheet expensesSheet].
    destruct (rejects CallUpdateDebt) eqn:R6; intros [= <- <-]; right;
      exists debt, sd, rec, (<[i := rec]> (creditHistorySheet s));
      (repeat (split; [first [assumption|reflexivity]|]));
      (split; [right; split; [reflexivity|]; exists i; auto|]).
    + left. auto.
    + right. eexists. split; reflexivity.
  - (* no record of the key: append *)
    assert (Hex : existsb (matchesKey debtId (isoDay ext sd)) (creditHistorySheet s) = false).
    { destruct (existsb _ _); [|reflexivity].
      destruct (recompute options); discriminate. }
    rewrite Hex. cbn [rowTruthy andb].
    unfold appendCreditHistoryRecord, awaitWrite.
    destruct (rejects CallAppendCreditHistoryRecord) eqn:R5.
    { intros [= <- <-]. left. split; [reflexivity|]. left. call_rejected R5. }
    unfold bind, updateDebt, awaitWrite, ret.
    cbn [debtsSheet creditHistorySheet expensesSheet].
    destruct (rejects CallUpdateDebt) eqn:R6; intros [= <- <-]; right;
      exists debt, sd, rec, (creditHistorySheet s ++ [rec]);
      (repeat (split; [first [assumption|reflexivity]|]));
      (split; [left; split; [first [assumption|reflexivity]|reflexivity]|]).
    + left. auto.
    + right. eexists. split; reflexivity.
Qed.
End AccrualProperties.

(* ===================================================================== *)
(** ** Rounding to cents                                                 *)
(* ===================================================================== *)

Lemma Qltb_false_iff (a b : Q) : Qltb a b = false <-> (b <= a)%Q.
Proof. unfold Qltb. rewrite negb_false_iff. apply Qle_bool_iff. Qed.

Lemma Qltb_true_iff (a b : Q) : Qltb a b = true <-> (a < b)%Q.
Proof.
  unfold Qltb. rewrite negb_true_iff. split.
  - intros H. apply Qnot_le_lt. intros Hle. apply Qle_bool_iff in Hle. congruence.
  - intros H. destruct (Qle_bool b a) eqn:E; [|reflexivity].
    apply Qle_bool_iff in E. exfalso. exact (Qlt_not_le _ _ H E).
Qed.

Lemma toFixed2_of_nonneg (x : Q) :
  (0 <= x)%Q -> toFixed2 x = Qmake (Qfloor (x * 100 + (1 # 2))) 100.
Proof.
  intros Hx. unfold toFixed2.
  replace (Qltb x 0) with false by (symmetry; now apply Qltb_false_iff).
  reflexivity.
Qed.

Lemma cents_as_fraction (n : Z) : (Qmake n 100 == inject_Z n * (1 # 100))%Q.
Proof. unfold Qeq, Qmult, inject_Z; cbn [Qnum Qden]. lia. Qed.

Lemma toFixed2_nonneg (x : Q) : (0 <= x)%Q -> (0 <= toFixed2 x)%Q.
Proof.
  intros Hx. rewrite toFixed2_of_nonneg by assumption.
  assert (H : (0 <= Qfloor (x * 100 + (1 # 2)))%Z).
  { change 0%Z with (Qfloor 0). apply Qfloor_resp_le. lra. }
  unfold Qle; cbn [Qnum Qden]. lia.
Qed.

(** Rounding moves a value by at most half a cent. *)
Lemma toFixed2_close (x : Q) : (0 <= x)%Q -> (Qabs (toFixed2 x - x) <= 1 # 200)%Q.
Proof.
  intros Hx. rewrite toFixed2_of_nonneg by assumption.
  pose proof (Qfloor_le (x * 100 + (1 # 2))) as Hlo.
  pose proof (Qlt_floor (x * 100 + (1 # 2))) as Hhi.
  rewrite inject_Z_plus in Hhi. change (inject_Z 1) with 1%Q in Hhi.
  rewrite cents_as_fraction.
  apply Qabs_Qle_condition. split; lra.
Qed.

(** A whole number of cents is left as it is. *)
Lemma toFixed2_cents (x : Q) (k : Z) :
  (0 <= x)%Q -> (x == Qmake k 100)%Q -> (toFixed2 x == x)%Q.
Proof.
  intros Hx Hk. rewrite toFixed2_of_nonneg by assumption.
  assert (Hfl : Qfloor (x * 100 + (1 # 2)) = k).
  { assert (E : (x * 100 + (1 # 2) == Qmake (k * 2 + 1) 2)%Q).
    { rewrite Hk. unfold Qeq, Qplus, Qmult; cbn [Qnum Qden]. lia. }
    rewrite (Qfloor_comp _ _ E). unfold Qfloor.
    cbn [Qnum Qden]. rewrite Z.add_comm, Z.div_add by lia. reflexivity. }
  rewrite Hfl. symmetry. exact Hk.
Qed.

Lemma mathMax0_nonneg (x : Q) : (0 <= mathMax0 x)%Q.
Proof. unfold mathMax0. apply Q.le_max_l. Qed.

(* ===================================================================== *)
(** ** C1, C5, C7: accrueDebtInternal                                    *)
(* ===================================================================== *)

Section AccrualClaims.
Variable ext : Externals.
Variable rejects : Call -> bool.

(** The run on a ledger that already holds the key, without recompute:
    the two reads, then the skip. *)
Lemma accrue_existing_run (today : Date) (debtId : string) (options : Options)
    (s : Sheets) (debt : Debt.t) (sd : Date) :
  List.find (fun r => String.eqb (Debt.id r) debtId) (debtsSheet s) = Some debt ->
  Debt.active debt = true ->
  resolveStatementDate (Debt.cutOffDay debt)
    (match dateParam options with Some d => d | None => today end)
    (periodParam options) = inr sd ->
  existsb (matchesKey debtId (isoDay ext sd)) (creditHistorySheet s) = true ->
  recompute options = false ->
  accrueDebtInternal ext rejects today debtId options s
  = if rejects CallGetDebts then (Thrown (Rejected CallGetDebts), s)
    else if rejects CallGetCreditHistoryObjects
         then (Thrown (Rejected CallGetCreditHistoryObjects), s)
         else (Returned (SkippedAlready (isoDay ext sd)), s).
Proof.
  intros Hfind Hactive Hsd Hex Hrc.
  unfold accrueDebtInternal. unfold bind at 1. unfold awaitRead at 1.
  destruct (rejects CallGetDebts); [reflexivity|].
  rewrite Hfind, Hactive. cbn [negb]. rewrite Hsd.
  unfold bind at 1. unfold awaitRead at 1.
  destruct (rejects CallGetCreditHistoryObjects); [reflexivity|].
  rewrite Hex, Hrc. reflexivity.
Qed.

(** C1. When a CreditHistory record already stands under
    (debtId, statementDate) and [recompute] is false, the run leaves the
    spreadsheet exactly as it was (ledger and debt balance included), and,
    its two reads being answered, it returns the skip that carries the
    statement date. *)
Theorem accrue_existing_is_skipped (today : Date) (debtId : string) (options : Options)
    (s : Sheets) (debt : Debt.t) (sd : Date) :
  List.find (fun r => String.eqb (Debt.id r) debtId) (debtsSheet s) = Some debt ->
  Debt.active debt = true ->
  resolveStatementDate (Debt.cutOffDay debt)
    (match dateParam options with Some d => d | None => today end)
    (periodParam options) = inr sd ->
  existsb (matchesKey debtId (isoDay ext sd)) (creditHistorySheet s) = true ->
  recompute options = false ->
  snd (accrueDebtInternal ext rejects today debtId options s) = s
  /\ (rejects CallGetDebts = false ->
      rejects CallGetCreditHistoryObjects = false ->
      fst (accrueDebtInternal ext rejects today debtId options s)
      = Returned (SkippedAlready (isoDay ext sd))
      /\ skipped (SkippedAlready (isoDay ext sd)) = true).
Proof.
  intros Hfind Hactive Hsd Hex Hrc.
  rewrite (accrue_existing_run today debtId options s debt sd) by assumption.
  destruct (rejects CallGetDebts), (rejects CallGetCreditHistoryObjects);
    cbn [fst snd]; split; auto; discriminate.
Qed.

Lemma find_setBalance (debtId : string) (b : Q) (rows : list Debt.t) (debt : Debt.t) :
  List.find (fun r => String.eqb (Debt.id r) debtId) rows = Some debt ->
  List.find (fun r => String.eqb (Debt.id r) debtId) (setBalance debtId b rows)
  = Some (Debt.mk (Debt.id debt) (Some b) (Debt.dueDay debt) (Debt.cutOffDay debt)
                  (Debt.interesEfectivo debt) (Debt.active debt)).
Proof.
  induction rows as [|r rest IH]; cbn [List.find setBalance]; [discriminate|].
  destruct (String.eqb (Debt.id r) debtId) eqn:E.
  - intros [= <-]. cbn [List.find Debt.id]. now rewrite E.
  - intros H. cbn [List.find]. rewrite E. now apply IH.
Qed.

Lemma existsb_insert {A} (p : A -> bool) (l : list A) (i : nat) (old new : A) :
  l !! i = Some old -> p new = true -> existsb p (<[i := new]> l) = true.
Proof.
  revert i. induction l as [|a r IH]; intros i Hi Hp; [discriminate|].
  destruct i as [|i]; cbn in Hi.
  - change (<[O := new]> (a :: r)) with (new :: r). cbn [existsb]. now rewrite Hp.
  - change (<[S i := new]> (a :: r)) with (a :: <[i := new]> r). cbn [existsb].
    rewrite (IH i) by assumption. apply orb_true_r.
Qed.

(** X9. Idempotency as a property of two runs: after a run that wrote the
    statement, the same request without recompute is skipped with the same
    statement date and leaves the spreadsheet, ledger and balance, as the
    first run left it. *)
Lemma accrue_twice_second_is_skipped (today : Date) (debtId : string) (options : Options)
    (s s' : Sheets) (key sdStr : string) (rec : CreditHistory.t) :
  accrueDebtInternal ext rejects today debtId options s
    = (Returned (Created key rec sdStr), s') ->
  rejects CallGetDebts = false ->
  rejects CallGetCreditHistoryObjects = false ->
  accrueDebtInternal ext rejects today debtId
    (mkOptions false (dateParam options) (periodParam options)) s'
  = (Returned (SkippedAlready sdStr), s').
Proof.
  intros Hrun R1 R2. apply accrue_outcome in Hrun. cbv zeta in Hrun.
  destruct Hrun as [(_ & Hleft)|(debt & sd & rec' & h' & Hd & Ha & Hsd & Hr1 & Hr2 & _ & _ & Hw & Hend)].
  { exfalso.
    destruct Hleft as [(c & _ & _ & H)|[(_ & H)|[(d & _ & _ & H)|[(d & e & _ & _ & _ & H)
                      |(d & sd & _ & _ & _ & _ & _ & H)]]]]; discriminate H. }
  destruct Hend as [(H & _)|(b & H & ->)]; [discriminate H|].
  injection H as -> <- ->.
  assert (Hkey : matchesKey debtId (isoDay ext sd) rec = true).
  { unfold matchesKey. rewrite Hr1, Hr2, !String.eqb_refl. reflexivity. }
  rewrite (accrue_existing_run today debtId _ _
             (Debt.mk (Debt.id debt) (Some b) (Debt.dueDay debt) (Debt.cutOffDay debt)
                      (Debt.interesEfectivo debt) (Debt.active debt)) sd).
  - now rewrite R1, R2.
  - cbn [debtsSheet]. now apply find_setBalance.
  - exact Ha.
  - exact Hsd.
  - cbn [creditHistorySheet].
    destruct Hw as [(_ & ->)|(_ & i & Hi & ->)].
    + rewrite existsb_app. cbn [existsb]. rewrite Hkey. now rewrite orb_true_r.
    + destruct (findIndex_lookup _ _ _ Hi) as (old & Hold & _).
      now apply (existsb_insert _ _ _ old).
  - reflexivity.
Qed.

(** C5. The annual rate is read in two forms: above 1 it is a percentage
    and is divided by 100, otherwise it is taken as the unit fraction it is;
    0.18 and 18 both give 0.18.  The rate stored in a written record is the
    debt's rate normalised this way. *)
Theorem rate_normalization (r : Q) :
  ((1 < r)%Q -> annualRateUnit r = (r / 100)%Q)
  /\ ((r <= 1)%Q -> annualRateUnit r = r)
  /\ (annualRateUnit (18 # 100) == 18 # 100)%Q
  /\ (annualRateUnit 18 == 18 # 100)%Q
  /\ (forall today debtId options s s' key sdStr rec,
        accrueDebtInternal ext rejects today debtId options s
          = (Returned (Created key rec sdStr), s') ->
        exists debt,
          List.find (fun d => String.eqb (Debt.id d) debtId) (debtsSheet s) = Some debt
          /\ CreditHistory.annualEffectiveRate rec = annualRateUnit (Debt.interesEfectivo debt)).
Proof.
  repeat split.
  - intros H. unfold annualRateUnit. now rewrite (proj2 (Qltb_true_iff 1 r) H).
  - intros H. unfold annualRateUnit. now rewrite (proj2 (Qltb_false_iff 1 r) H).
  - intros today debtId options s s' key sdStr rec Hrun.
    apply accrue_outcome in Hrun.
    destruct Hrun as [(_ & Hleft)|(debt & sd & rec' & h' & Hd & _ & _ & _ & _ & _ & Hrate & _ & Hend)].
    + exfalso.
      destruct Hleft as [(c & _ & _ & H)|[(_ & H)|[(d & _ & _ & H)|[(d & e & _ & _ & _ & H)
                        |(d & sd & _ & _ & _ & _ & _ & H)]]]]; discriminate H.
    + destruct Hend as [(H & _)|(b & H & _)]; [discriminate H|].
      injection H as _ <- _. exists debt. auto.
Qed.

(** C7 (amended). A debtId that is not in the Debts sheet ends the run with
    the 404 "Debt not found" and nothing written.  Whatever else makes the
    run throw, the spreadsheet is left exactly as it was, with one
    exception: when the last call, the update of the debt's balance, is
    rejected, the new CreditHistory record is already in the ledger
    (appended or in place) while the Debts and Expenses sheets are
    untouched. *)
Theorem failure_leaves_no_partial_state_before_last_write (today : Date) (debtId : string)
    (options : Options) (s : Sheets) :
  (rejects CallGetDebts = false ->
   List.find (fun r => String.eqb (Debt.id r) debtId) (debtsSheet s) = None ->
   accrueDebtInternal ext rejects today debtId options s
   = (Thrown (ApiError 404 "Debt not found"), s))
  /\ (forall e s',
        accrueDebtInternal ext rejects today debtId options s = (Thrown e, s') ->
        e <> Rejected CallUpdateDebt -> s' = s)
  /\ (forall e s',
        accrueDebtInternal ext rejects today debtId options s = (Thrown e, s') ->
        s' = s
        \/ (e = Rejected CallUpdateDebt /\ rejects CallUpdateDebt = true
            /\ debtsSheet s' = debtsSheet s /\ expensesSheet s' = expensesSheet s
            /\ exists rec,
                 CreditHistory.debtId rec = debtId
                 /\ (creditHistorySheet s' = creditHistorySheet s ++ [rec]
                     \/ exists i, (i < length (creditHistorySheet s))%nat
                                  /\ creditHistorySheet s' = <[i := rec]> (creditHistorySheet s)))).
Proof.
  assert (Hgen : forall e s',
             accrueDebtInternal ext rejects today debtId options s = (Thrown e, s') ->
             s' = s
             \/ (e = Rejected CallUpdateDebt /\ rejects CallUpdateDebt = true
                 /\ debtsSheet s' = debtsSheet s /\ expensesSheet s' = expensesSheet s
                 /\ exists rec,
                      CreditHistory.debtId rec = debtId
                      /\ (creditHistorySheet s' = creditHistorySheet s ++ [rec]
                          \/ exists i, (i < length (creditHistorySheet s))%nat
                                       /\ creditHistorySheet s' = <[i := rec]> (creditHistorySheet s)))).
  { intros e s' Hrun. apply accrue_outcome in Hrun.
    destruct Hrun as [(-> & _)|(debt & sd & rec & h' & _ & _ & _ & Hr1 & _ & _ & _ & Hw & Hend)];
      [left; reflexivity|].
    destruct Hend as [(H & Hr & ->)|(b & H & _)]; [|discriminate H].
    injection H as ->. right. repeat split; try assumption.
    exists rec. split; [assumption|]. cbn [creditHistorySheet].
    destruct Hw as [(_ & ->)|(_ & i & Hi & ->)]; [left; reflexivity|].
    right. exists i. split; [|reflexivity].
    destruct (findIndex_lookup _ _ _ Hi) as (old & Hold & _).
    eapply lookup_lt_Some; eassumption. }
  split; [|split].
  - intros R1 Hnone. unfold accrueDebtInternal. unfold bind at 1. unfold awaitRead at 1.
    rewrite R1, Hnone. reflexivity.
  - intros e s' Hrun Hne. destruct (Hgen e s' Hrun) as [->|(-> & _)]; [reflexivity|].
    now contradiction Hne.
  - exact Hgen.
Qed.
End AccrualClaims.

(* ===================================================================== *)
(** ** C2: the statement balance in binary64                              *)
(* ===================================================================== *)

Section Binary64Claims.
Import Stdlib.Floats.Floats.
Local Open Scope float_scope.
Variable ext : Externals.
Variable rejects : Call -> bool.













End Binary64Claims.


(* ===================================================================== *)
(** ** C10: which expenses become events                                 *)
(* ===================================================================== *)

Lemma fold_left_Qplus_acc (l : list Q) (a : Q) :
  (fold_left Qplus l a == a + fold_left Qplus l 0)%Q.
Proof.
  revert a. induction l as [|x r IH]; intros a; cbn [fold_left].
  - lra.
  - rewrite (IH (a + x)%Q), (IH (0 + x)%Q). lra.
Qed.

Lemma sumQ_cons (x : Q) (l : list Q) : (sumQ (x :: l) == x + sumQ l)%Q.
Proof. unfold sumQ; cbn [fold_left]. rewrite fold_left_Qplus_acc. lra. Qed.





Section GatheringClaims.
Variable ext : Externals.
Variables (debtId : string) (startPeriodDateOnly statementDateOnly : Date).




End GatheringClaims.

(* ===================================================================== *)
(** ** C8, C9: the nightly batch                                         *)
(* ===================================================================== *)

Section BatchClaims.
Variable ext : Externals.
Variable today : Date.

Lemma dueToday_iff (debt : Debt.t) :
  dueToday today debt = true
  <-> Debt.active debt = true
      /\ exists c, Debt.cutOffDay debt = Some c /\ c <> 0 /\ c = getDate today.
Proof.
  unfold dueToday. rewrite andb_true_iff. split.
  - intros [Ha Hc]. split; [assumption|].
    destruct (Debt.cutOffDay debt) as [c|]; [|discriminate].
    apply andb_true_iff in Hc as [H0 Heq].
    exists c. repeat split.
    + apply negb_true_iff, Z.eqb_neq in H0. exact H0.
    + now apply Z.eqb_eq.
  - intros (Ha & c & -> & H0 & Heq). split; [assumption|].
    apply andb_true_iff. split.
    + now apply negb_true_iff, Z.eqb_neq.
    + now apply Z.eqb_eq.
Qed.

Lemma processDebt_not_due (t : Tenant) (st : Batch * Sheets) (debt : Debt.t) :
  dueToday today debt = false -> processDebt ext today t st debt = st.
Proof. intros H. unfold processDebt. destruct st as [b s]. now rewrite H. Qed.

(** Every entry of the accrual log carries today's day of month as the
    cutoff day of its debt. *)
Lemma processDebt_log (t : Tenant) (st : Batch * Sheets) (debt : Debt.t) :
  Forall (fun entry => logCutOffDay entry = getDate today) (accrualLog (fst st)) ->
  Forall (fun entry => logCutOffDay entry = getDate today)
         (accrualLog (fst (processDebt ext today t st debt))).
Proof.
  intros H. unfold processDebt. destruct st as [b s].
  destruct (dueToday today debt) eqn:Hdue; cbn [negb]; [|exact H].
  apply dueToday_iff in Hdue as (_ & c & Hc & _ & Heq).
  assert (Hall : Forall (fun entry => logCutOffDay entry = getDate today)
                   (accrualLog b ++ [mkLog (userId (user t)) (Debt.id debt)
                                       (default 0 (Debt.cutOffDay debt)) (getDate today)])).
  { apply Forall_app. split; [exact H|]. constructor; [|constructor].
    cbn [logCutOffDay]. rewrite Hc. exact Heq. }
  destruct (accrueDebtInternal _ _ _ _ _ s) as [[r|e] s'];
    [destruct (skipped r)|]; exact Hall.
Qed.

Lemma processDebts_log (t : Tenant) (debts : list Debt.t) (st : Batch * Sheets) :
  Forall (fun entry => logCutOffDay entry = getDate today) (accrualLog (fst st)) ->
  Forall (fun entry => logCutOffDay entry = getDate today)
         (accrualLog (fst (fold_left (processDebt ext today t) debts st))).
Proof.
  revert st. induction debts as [|d r IH]; intros st H; cbn [fold_left]; [exact H|].
  apply IH, processDebt_log, H.
Qed.

Lemma processUser_log (b : Batch) (t : Tenant) :
  Forall (fun entry => logCutOffDay entry = getDate today) (accrualLog b) ->
  Forall (fun entry => logCutOffDay entry = getDate today)
         (accrualLog (processUser ext today b t)).
Proof.
  intros H. unfold processUser.
  destruct (negb (truthy (sheetId (user t))) || negb (truthy (accessToken (user t))));
    [exact H|].
  destruct (negb (credentialsUsable t)); [exact H|].
  destruct (tenantRejects t CallGetDebtsObjects); [exact H|].
  pose proof (processDebts_log t (debtsSheet (tenantSheets t)) (b, tenantSheets t) H) as Hf.
  destruct (fold_left _ _ _) as [b' s']. exact Hf.
Qed.

Lemma processUsers_log (users : list Tenant) (b : Batch) :
  Forall (fun entry => logCutOffDay entry = getDate today) (accrualLog b) ->
  Forall (fun entry => logCutOffDay entry = getDate today)
         (accrualLog (fold_left (processUser ext today) users b)).
Proof.
  revert b. induction users as [|t r IH]; intros b H; cbn [fold_left]; [exact H|].
  apply IH, processUser_log, H.
Qed.

(** C9. On a day of the calendar, a debt whose cutoff day is larger than
    the number of days of the month is not due: the batch passes it by
    without calling [accrueDebtInternal], and no entry of the accrual log of
    any run of that day has its cutoff day.  In general the gate opens
    exactly for an active debt whose cutoff day is the day of month of
    today, with no clamping to the length of the month. *)
Theorem batch_skips_cutoff_beyond_month_end (debt : Debt.t) (c : Z) :
  validDate today ->
  Debt.cutOffDay debt = Some c ->
  daysInMonth (getFullYear today) (getMonth today) < c ->
  dueToday today debt = false
  /\ (forall t st, processDebt ext today t st debt = st)
  /\ (forall users entry,
        In entry (accrualLog (processDebtAccruals ext today users)) ->
        logCutOffDay entry = getDate today /\ logCutOffDay entry <> c)
  /\ (forall debt',
        dueToday today debt' = true
        <-> Debt.active debt' = true /\ Debt.cutOffDay debt' = Some (getDate today)).
Proof.
  intros [Hm Hd] Hc Hlt.
  assert (Hdue : dueToday today debt = false).
  { destruct (dueToday today debt) eqn:E; [|reflexivity].
    apply dueToday_iff in E as (_ & c' & Hc' & _ & Heq). rewrite Hc in Hc'.
    injection Hc' as <-. lia. }
  split; [exact Hdue|]. split; [|split].
  - intros t st. now apply processDebt_not_due.
  - intros users entry Hin.
    assert (Hall : Forall (fun entry => logCutOffDay entry = getDate today)
                     (accrualLog (processDebtAccruals ext today users)))
      by (apply processUsers_log; constructor).
    rewrite Forall_forall in Hall. specialize (Hall entry).
    assert (Hentry : logCutOffDay entry = getDate today).
    { apply Hall. apply list_elem_of_In. exact Hin. }
    split; [exact Hentry|]. rewrite Hentry. lia.
  - intros debt'. rewrite dueToday_iff. split.
    + intros (Ha & c' & Hc' & _ & ->). auto.
    + intros (Ha & Hc'). split; [assumption|]. exists (getDate today).
      repeat split; [assumption|lia].
Qed.

(** Two batches with the same counters and log stay so through a user. *)
Lemma processDebt_counts (t : Tenant) (b1 b2 : Batch) (s : Sheets) (debt : Debt.t) :
  counters b1 = counters b2 -> accrualLog b1 = accrualLog b2 ->
  counters (fst (processDebt ext today t (b1, s) debt))
  = counters (fst (processDebt ext today t (b2, s) debt))
  /\ accrualLog (fst (processDebt ext today t (b1, s) debt))
     = accrualLog (fst (processDebt ext today t (b2, s) debt))
  /\ snd (processDebt ext today t (b1, s) debt) = snd (processDebt ext today t (b2, s) debt).
Proof.
  unfold counters. intros [= H1 H2 H3] H4. unfold processDebt.
  destruct (dueToday today debt); cbn [negb fst snd].
  - destruct (accrueDebtInternal _ _ _ _ _ s) as [[r|e] s'];
      [destruct (skipped r)|]; cbn [fst snd totalProcessed totalSkipped totalErrors accrualLog];
      rewrite H1, H2, H3, H4; auto.
  - unfold counters. rewrite H1, H2, H3, H4. auto.
Qed.

Lemma processDebts_counts (t : Tenant) (debts : list Debt.t) (b1 b2 : Batch) (s : Sheets) :
  counters b1 = counters b2 -> accrualLog b1 = accrualLog b2 ->
  counters (fst (fold_left (processDebt ext today t) debts (b1, s)))
  = counters (fst (fold_left (processDebt ext today t) debts (b2, s)))
  /\ accrualLog (fst (fold_left (processDebt ext today t) debts (b1, s)))
     = accrualLog (fst (fold_left (processDebt ext today t) debts (b2, s))).
Proof.
  revert b1 b2 s. induction debts as [|d r IH]; intros b1 b2 s Hc Hl; cbn [fold_left].
  - auto.
  - destruct (processDebt_counts t b1 b2 s d Hc Hl) as (Hc' & Hl' & Hs').
    destruct (processDebt ext today t (b1, s) d) as [b1' s1'].
    destruct (processDebt ext today t (b2, s) d) as [b2' s2'].
    cbn [fst snd] in *. subst s2'. now apply IH.
Qed.

Lemma processUser_counts (b1 b2 : Batch) (t : Tenant) :
  counters b1 = counters b2 -> accrualLog b1 = accrualLog b2 ->
  counters (processUser ext today b1 t) = counters (processUser ext today b2 t)
  /\ accrualLog (processUser ext today b1 t) = accrualLog (processUser ext today b2 t).
Proof.
  intros Hc Hl. unfold processUser.
  destruct (negb (truthy (sheetId (user t))) || negb (truthy (accessToken (user t))));
    [auto|].
  destruct (negb (credentialsUsable t)); [auto|].
  destruct (tenantRejects t CallGetDebtsObjects).
  - unfold counters in *. injection Hc as H1 H2 H3. cbn. rewrite H1, H2, H3, Hl. auto.
  - pose proof (processDebts_counts t (debtsSheet (tenantSheets t)) b1 b2 (tenantSheets t) Hc Hl)
      as [Hc' Hl'].
    destruct (fold_left _ _ (b1, _)) as [b1' s1'].
    destruct (fold_left _ _ (b2, _)) as [b2' s2'].
    cbn [fst] in *. auto.
Qed.

Lemma processUsers_counts (users : list Tenant) (b1 b2 : Batch) :
  counters b1 = counters b2 -> accrualLog b1 = accrualLog b2 ->
  counters (fold_left (processUser ext today) users b1)
  = counters (fold_left (processUser ext today) users b2)
  /\ accrualLog (fold_left (processUser ext today) users b1)
     = accrualLog (fold_left (processUser ext today) users b2).
Proof.
  revert b1 b2. induction users as [|t r IH]; intros b1 b2 Hc Hl; cbn [fold_left]; [auto|].
  destruct (processUser_counts b1 b2 t Hc Hl) as [Hc' Hl']. now apply IH.
Qed.

Lemma processUser_visits (b : Batch) (t : Tenant) :
  length (sheetsAfter (processUser ext today b t)) = S (length (sheetsAfter b)).
Proof.
  unfold processUser.
  destruct (negb (truthy (sheetId (user t))) || negb (truthy (accessToken (user t))));
    [cbn; rewrite length_app; cbn; lia|].
  destruct (negb (credentialsUsable t)); [cbn; rewrite length_app; cbn; lia|].
  destruct (tenantRejects t CallGetDebtsObjects); [cbn; rewrite length_app; cbn; lia|].
  assert (Hinv : forall debts st,
             sheetsAfter (fst (fold_left (processDebt ext today t) debts st))
             = sheetsAfter (fst st)).
  { induction debts as [|d r IH]; intros st; cbn [fold_left]; [reflexivity|].
    rewrite IH. unfold processDebt. destruct st as [b0 s0].
    destruct (negb (dueToday today d)); [reflexivity|].
    destruct (accrueDebtInternal _ _ _ _ _ s0) as [[r0|e] s'];
      [destruct (skipped r0)|]; reflexivity. }
  specialize (Hinv (debtsSheet (tenantSheets t)) (b, tenantSheets t)).
  destruct (fold_left _ _ _) as [b' s']. cbn [fst] in Hinv.
  cbn. rewrite length_app, Hinv. cbn. lia.
Qed.

Lemma processUsers_visits (users : list Tenant) (b : Batch) :
  length (sheetsAfter (fold_left (processUser ext today) users b))
  = (length (sheetsAfter b) + length users)%nat.
Proof.
  revert b. induction users as [|t r IH]; intros b; cbn [fold_left length]; [lia|].
  rewrite IH, processUser_visits. lia.
Qed.

(** C8 (amended). A tenant whose probe answers 401, who has a refresh
    token, and whose refresh is rejected is passed over: the counters and
    the log are left as they are (the failed refresh is not counted as an
    error), the tenant's spreadsheet is untouched, and the run goes on, so
    that the counters and the log of the whole run are those of the run
    without that tenant.  An error thrown while the tenant's debts are
    loaded adds one to [totalErrors]; an error thrown by the accrual of a
    debt adds one to [totalErrors] and the loop goes on with the next debt.
    Every user of the list is visited. *)
Theorem batch_isolates_failures :
  (forall b t,
     truthy (sheetId (user t)) = true -> truthy (accessToken (user t)) = true ->
     probe t = ProbeStatus 401 -> truthy (refreshToken (user t)) = true ->
     refreshAccessToken t = None ->
     processUser ext today b t = closeTenant b (tenantSheets t)
     /\ forall before after,
          counters (processDebtAccruals ext today (before ++ t :: after))
          = counters (processDebtAccruals ext today (before ++ after))
          /\ accrualLog (processDebtAccruals ext today (before ++ t :: after))
             = accrualLog (processDebtAccruals ext today (before ++ after)))
  /\ (forall b t,
        truthy (sheetId (user t)) = true -> truthy (accessToken (user t)) = true ->
        credentialsUsable t = true -> tenantRejects t CallGetDebtsObjects = true ->
        processUser ext today b t
        = closeTenant (mkBatch (totalProcessed b) (totalSkipped b) (S (totalErrors b))
                               (accrualLog b) (sheetsAfter b)) (tenantSheets t))
  /\ (forall t b s debt e s',
        dueToday today debt = true ->
        accrueDebtInternal ext (tenantRejects t) today (Debt.id debt)
          (mkOptions false None None) s = (Thrown e, s') ->
        forall rest,
          fold_left (processDebt ext today t) (debt :: rest) (b, s)
          = fold_left (processDebt ext today t) rest
              (mkBatch (totalProcessed b) (totalSkipped b) (S (totalErrors b))
                 (accrualLog b ++ [mkLog (userId (user t)) (Debt.id debt)
                                     (default 0 (Debt.cutOffDay debt)) (getDate today)])
                 (sheetsAfter b), s'))
  /\ (forall users,
        length (sheetsAfter (processDebtAccruals ext today users)) = length users).
Proof.
  split; [|split; [|split]].
  - intros b t Hsheet Htoken Hprobe Hrefresh Hfail.
    assert (Hskip : forall b0, processUser ext today b0 t = closeTenant b0 (tenantSheets t)).
    { intros b0. unfold processUser. rewrite Hsheet, Htoken. cbn [negb orb].
      unfold credentialsUsable. rewrite Hprobe, Hrefresh, Hfail. reflexivity. }
    split; [apply Hskip|].
    intros before after. unfold processDebtAccruals.
    rewrite !fold_left_app. cbn [fold_left]. rewrite Hskip.
    apply processUsers_counts; reflexivity.
  - intros b t Hsheet Htoken Huse Hrej. unfold processUser.
    rewrite Hsheet, Htoken, Huse, Hrej. reflexivity.
  - intros t b s debt e s' Hdue Hrun rest. cbn [fold_left]. f_equal.
    unfold processDebt. rewrite Hdue, Hrun. reflexivity.
  - intros users. unfold processDebtAccruals. rewrite processUsers_visits. reflexivity.
Qed.
End BatchClaims.

(* ===================================================================== *)
(** ** The claims on the fixtures                                        *)
(* ===================================================================== *)

(** C1 on the fixture: the April statement of the card is in the ledger and
    the accrual of April is asked again without recompute. *)
Lemma accrue_existing_is_skipped_witness :
  snd (accrueDebtInternal plainExt noFault april15 "visa" accrueApril
         (ledger [statementOfApril] []))
  = ledger [statementOfApril] []
  /\ (noFault CallGetDebts = false ->
      noFault CallGetCreditHistoryObjects = false ->
      fst (accrueDebtInternal plainExt noFault april15 "visa" accrueApril
             (ledger [statementOfApril] []))
      = Returned (SkippedAlready (isoDay plainExt april15))
      /\ skipped (SkippedAlready (isoDay plainExt april15)) = true).
Proof.
  apply (accrue_existing_is_skipped plainExt noFault april15 "visa" accrueApril
           (ledger [statementOfApril] []) visa april15); reflexivity.
Defined.


(** C3 on the fixture: the card that closes on the 15th, March and April
    2025.  The 15th of March is in neither window. *)
Lemma cutoff_day_in_no_cycle_witness :
  prevStatementDateOf (Some 15) april15 = march15
  /\ dateOnly (startPeriodOf (prevStatementDateOf (Some 15) april15)) = nextDay march15
  /\ (forall t, inCycle (Some 15) march15 (mkInstant march15 t) = false)
  /\ (forall t, inCycle (Some 15) april15 (mkInstant march15 t) = false)
  /\ dateLeb (dateOnly (startPeriodOf (prevStatementDateOf (Some 15) march15))) march15 = true
  /\ dateLtb march15 april15 = true.
Proof.
  apply (cutoff_day_in_no_cycle (Some 15) 2025 2); lia.
Defined.


(** C7 as stated fails: when the update of the debt's balance is rejected,
    the run throws and the ledger already holds the new record. *)
Lemma rejected_balance_update_leaves_record :
  exists e s',
    accrueDebtInternal plainExt updateDebtFails april15 "visa" accrueApril (ledger [] [])
      = (Thrown e, s')
    /\ s' <> ledger [] []
    /\ length (creditHistorySheet s') = 1%nat
    /\ debtsSheet s' = [visa].
Proof.
  do 2 eexists. split; [vm_compute; reflexivity|].
  split; [discriminate|]. split; reflexivity.
Qed.

(** C7 (amended) on the fixture: a debt that is not in the sheet. *)
Lemma missing_debt_is_not_found_witness :
  accrueDebtInternal plainExt noFault april15 "ghost" accrueApril (ledger [] [])
  = (Thrown (ApiError 404 "Debt not found"), ledger [] []).
Proof.
  apply (proj1 (failure_leaves_no_partial_state_before_last_write plainExt noFault april15
                  "ghost" accrueApril (ledger [] []))); reflexivity.
Defined.

(** C8 as stated fails: of three tenants the second has an expired token
    whose refresh is rejected; the two others are processed and the run
    counts no error. *)
Lemma failed_refresh_is_not_counted :
  credentialsUsable bob = false
  /\ counters (processDebtAccruals plainExt april15 [alice; bob; carol]) = (2%nat, 0%nat, 0%nat)
  /\ ~ (1 <= totalErrors (processDebtAccruals plainExt april15 [alice; bob; carol]))%nat.
Proof.
  split; [reflexivity|]. split; [vm_compute; reflexivity|].
  vm_compute. lia.
Qed.

(** C8 (amended) on the same run. *)
Lemma batch_isolates_failures_witness :
  processUser plainExt april15 emptyBatch bob = closeTenant emptyBatch (tenantSheets bob)
  /\ forall before after,
       counters (processDebtAccruals plainExt april15 (before ++ bob :: after))
       = counters (processDebtAccruals plainExt april15 (before ++ after))
       /\ accrualLog (processDebtAccruals plainExt april15 (before ++ bob :: after))
          = accrualLog (processDebtAccruals plainExt april15 (before ++ after)).
Proof.
  apply (proj1 (batch_isolates_failures plainExt april15) emptyBatch bob); reflexivity.
Defined.

(** C9 on the fixture: a card that closes on the 31st, on the last day of
    February 2025. *)
Lemma batch_skips_cutoff_beyond_month_end_witness :
  dueToday february28 closesOn31 = false
  /\ (forall t st, processDebt plainExt february28 t st closesOn31 = st)
  /\ (forall users entry,
        In entry (accrualLog (processDebtAccruals plainExt february28 users)) ->
        logCutOffDay entry = getDate february28 /\ logCutOffDay entry <> 31)
  /\ (forall debt',
        dueToday february28 debt' = true
        <-> Debt.active debt' = true /\ Debt.cutOffDay debt' = Some (getDate february28)).
Proof.
  apply (batch_skips_cutoff_beyond_month_end plainExt february28 closesOn31 31).
  - unfold validDate, february28; cbn [getFullYear getMonth getDate].
    change (daysInMonth 2025 1) with 28. lia.
  - reflexivity.
  - change (daysInMonth (getFullYear february28) (getMonth february28)) with 28. lia.
Defined.


(** The entries of other types and without amount leave the events as they
    are: of the four entries of 20 March two are events. *)
Example only_charges_and_payments_are_events :
  periodEvents plainExt "visa" (mkDate 2025 2 16) april15
    [chargeOfMarch20; refundOfMarch20; blankOfMarch20; paymentOfMarch20]
  = [Event.mk (atMidnight march20) payment 300; Event.mk (atMidnight march20) charge 200].
Proof. reflexivity. Qed.

(* ===================================================================== *)
(** ** Further properties: texts of days and periods                     *)
(* ===================================================================== *)

Lemma digitValue_digitChar (n : Z) : digitValue (digitChar n) = Some (n mod 10).
Proof.
  unfold digitChar. pose proof (Z.mod_pos_bound n 10 ltac:(lia)) as Hb.
  remember (n mod 10) as k eqn:Hk. clear Hk.
  assert (Hc : k = 0 \/ k = 1 \/ k = 2 \/ k = 3 \/ k = 4 \/ k = 5 \/ k = 6 \/ k = 7
               \/ k = 8 \/ k = 9) by lia.
  destruct Hc as [->|[->|[->|[->|[->|[->|[->|[->|[->| ->]]]]]]]]]; reflexivity.
Qed.

(** Two digits are read back as the number they print. *)
Lemma parseDigits_pad2 (n : Z) (rest : string) :
  0 <= n <= 99 -> parseDigits 2 (pad2 n ++ rest) 0 = Some (n, rest).
Proof.
  intros Hn. unfold pad2. cbn [append parseDigits].
  rewrite !digitValue_digitChar.
  pose proof (Z.div_mod n 10 ltac:(lia)) as Hdm.
  pose proof (Z.mod_pos_bound n 10 ltac:(lia)) as Hb.
  assert (Hq : 0 <= n / 10 < 10)
    by (split; [apply Z.div_pos; lia|apply Z.div_lt_upper_bound; lia]).
  rewrite (Z.mod_small (n / 10) 10) by lia.
  do 2 f_equal. lia.
Qed.

(** Four digits are read back as the number they print. *)
Lemma parseDigits_pad4 (n : Z) (rest : string) :
  0 <= n <= 9999 -> parseDigits 4 (pad4 n ++ rest) 0 = Some (n, rest).
Proof.
  intros Hn. unfold pad4. cbn [append parseDigits].
  rewrite !digitValue_digitChar.
  pose proof (Z.div_mod n 10 ltac:(lia)) as H0.
  pose proof (Z.mod_pos_bound n 10 ltac:(lia)) as B0.
  pose proof (Z.div_mod (n / 10) 10 ltac:(lia)) as H1.
  pose proof (Z.mod_pos_bound (n / 10) 10 ltac:(lia)) as B1.
  pose proof (Z.div_mod (n / 10 / 10) 10 ltac:(lia)) as H2.
  pose proof (Z.mod_pos_bound (n / 10 / 10) 10 ltac:(lia)) as B2.
  replace (n / 100) with (n / 10 / 10) by (rewrite Z.div_div by lia; reflexivity).
  replace (n / 1000) with (n / 10 / 10 / 10) by (rewrite !Z.div_div by lia; reflexivity).
  assert (Hq : 0 <= n / 10 / 10 / 10 < 10) by lia.
  rewrite (Z.mod_small (n / 10 / 10 / 10) 10) by lia.
  do 2 f_equal. lia.
Qed.

(** The text of a period, [YYYY-MM], for the 0-based month [m]. *)
Lemma parsePeriod_text (y m : Z) :
  0 <= y <= 9999 -> 0 <= m + 1 <= 99 ->
  parsePeriod (pad4 y ++ "-" ++ pad2 (m + 1)) = Some (y, m).
Proof.
  intros Hy Hm. unfold parsePeriod.
  rewrite parseDigits_pad4 by assumption. cbn [append].
  replace (pad2 (m + 1)) with (pad2 (m + 1) ++ "")%string by (unfold pad2; reflexivity).
  rewrite parseDigits_pad2 by assumption.
  do 2 f_equal. lia.
Qed.

Lemma parsePeriod_truthy (p : string) (y m : Z) :
  parsePeriod p = Some (y, m) -> truthy p = true.
Proof. destruct p; [discriminate|reflexivity]. Qed.

(** X1. A period in the form YYYY-MM with a month 01..12 fixes the
    statement date whatever the base date is: it is the cutoff day of that
    month, brought to 1 when it is below 1 and to the last day of the month
    when the month is shorter, and the last day of the month for a debt with
    no cutoff day (years from 100 on). *)
Theorem period_statement_date_is_clamped_cutoff (cutOffDay : option Z) (baseDate : Date)
    (p : string) (y m : Z) :
  parsePeriod p = Some (y, m) -> 100 <= y -> 0 <= m <= 11 ->
  resolveStatementDate cutOffDay baseDate (Some p)
  = inr (mkDate y m (match cutOffDay with
                     | Some c => Z.min (Z.max 1 c) (daysInMonth y m)
                     | None => daysInMonth y m
                     end))
  /\ validDate (mkDate y m (match cutOffDay with
                            | Some c => Z.min (Z.max 1 c) (daysInMonth y m)
                            | None => daysInMonth y m
                            end)).
Proof.
  intros Hp Hy Hm. pose proof (daysInMonth_bounds y m) as Hb. split.
  - unfold resolveStatementDate. rewrite (parsePeriod_truthy p y m Hp), Hp.
    replace ((m <? 0) || (11 <? m)) with false
      by (symmetry; apply orb_false_iff; split; apply Z.ltb_ge; lia).
    f_equal. destruct cutOffDay as [c|]; cbn [statementDateOfMonth].
    + now apply cutoffOfMonth_eq.
    + now apply newDate_day0.
  - unfold validDate; cbn [getFullYear getMonth getDate].
    destruct cutOffDay as [c|]; lia.
Qed.

(** X2. The only error of the date resolution is the 400 of a period that
    has the form YYYY-MM with a month outside 01..12; it is raised whatever
    the cutoff day and the base date are.  A period that is not in that form
    (or is empty) is not an error: it is ignored, and the statement date is
    the one of the base date. *)
Theorem period_errors_are_month_range_only (cutOffDay : option Z) (baseDate : Date)
    (periodParam : option string) :
  (forall e, resolveStatementDate cutOffDay baseDate periodParam = inl e <->
             e = ApiError 400 "Invalid period format. Expected YYYY-MM"
             /\ exists p y m, periodParam = Some p /\ parsePeriod p = Some (y, m)
                              /\ (m < 0 \/ 11 < m))
  /\ (forall p, periodParam = Some p -> parsePeriod p = None ->
        resolveStatementDate cutOffDay baseDate periodParam
        = resolveStatementDate cutOffDay baseDate None).
Proof.
  split.
  - intros e. unfold resolveStatementDate.
    destruct periodParam as [p|].
    + destruct (truthy p) eqn:Ht.
      * destruct (parsePeriod p) as [[y m]|] eqn:Hp.
        -- destruct ((m <? 0) || (11 <? m)) eqn:Hr.
           ++ split.
              ** intros [= <-]. split; [reflexivity|]. exists p, y, m.
                 split; [reflexivity|]. split; [exact Hp|].
                 apply orb_true_iff in Hr as [H|H]; apply Z.ltb_lt in H; lia.
              ** intros [-> _]. reflexivity.
           ++ split; [discriminate|].
              intros (_ & p' & y' & m' & [= <-] & Hp' & Hm).
              rewrite Hp in Hp'. injection Hp' as <- <-.
              apply orb_false_iff in Hr as [H1 H2].
              apply Z.ltb_ge in H1, H2. lia.
        -- split; [discriminate|].
           intros (_ & p' & y' & m' & [= <-] & Hp' & _). congruence.
      * split; [discriminate|].
        intros (_ & p' & y' & m' & [= <-] & Hp' & _).
        apply parsePeriod_truthy in Hp'. congruence.
    + split; [discriminate|]. intros (_ & p' & y' & m' & H & _). discriminate.
  - intros p -> Hp. unfold resolveStatementDate. rewrite Hp.
    destruct (truthy p); reflexivity.
Qed.

Lemma newDate_day_zero (y m : Z) :
  100 < y -> 0 <= m <= 11 ->
  newDate y m 0 = if m =? 0 then mkDate (y - 1) 11 31
                  else mkDate y (m - 1) (daysInMonth y (m - 1)).
Proof.
  intros Hy Hm. destruct (Z.eqb_spec m 0) as [->|Hne].
  - now apply newDate_first_minus_one.
  - replace m with (m - 1 + 1) at 1 by lia. apply newDate_day0; lia.
Qed.

(** X3. Without a period the statement date never lies after the base date.
    With a cutoff day it is the latest cutoff date on or before the base
    date: the cutoff date of the base month when the base day has reached it
    (the base date itself when it is the cutoff date), the cutoff date of the
    month before otherwise.  Without a cutoff day it is the last day of the
    month before, also when the base date is itself the last day of its month. *)
Theorem base_statement_date_is_latest_cutoff (cutOffDay : option Z) (base : Date) :
  validDate base -> 100 < getFullYear base ->
  exists sd,
    resolveStatementDate cutOffDay base None = inr sd
    /\ validDate sd
    /\ dateLeb sd base = true
    /\ match cutOffDay with
       | Some c =>
           let k := Z.min (Z.max 1 c) (daysInMonth (getFullYear base) (getMonth base)) in
           if k <=? getDate base
           then sd = mkDate (getFullYear base) (getMonth base) k
           else sd = statementDateOfMonth (Some c)
                       (if getMonth base =? 0 then getFullYear base - 1 else getFullYear base)
                       (if getMonth base =? 0 then 11 else getMonth base - 1)
                /\ dateLtb base (mkDate (getFullYear base) (getMonth base) k) = true
       | None =>
           sd = statementDateOfMonth None
                  (if getMonth base =? 0 then getFullYear base - 1 else getFullYear base)
                  (if getMonth base =? 0 then 11 else getMonth base - 1)
           /\ dateLtb sd base = true
       end.
Proof.
  destruct base as [y m d]. unfold validDate; cbn [getFullYear getMonth getDate].
  intros [Hm Hd] Hy.
  unfold resolveStatementDate.
  rewrite dateOnly_valid by lia. cbn [getFullYear getMonth getDate].
  set (yp := if m =? 0 then y - 1 else y).
  set (mp := if m =? 0 then 11 else m - 1).
  assert (Hyp : 100 <= yp) by (subst yp; destruct (m =? 0); lia).
  assert (Hmp : 0 <= mp <= 11) by (subst mp; destruct (Z.eqb_spec m 0); lia).
  pose proof (daysInMonth_bounds y m) as Hb.
  pose proof (daysInMonth_bounds yp mp) as Hbp.
  destruct cutOffDay as [c|].
  - rewrite cutoffOfMonth_eq by lia. cbn [getDate]. cbv zeta.
    destruct (Z.leb_spec (Z.min (Z.max 1 c) (daysInMonth y m)) d) as [Hle|Hgt].
    + eexists. split; [reflexivity|]. split; [|split; [|reflexivity]].
      * unfold validDate; cbn. lia.
      * unfold dateLeb, dateCompare; cbn [getFullYear getMonth getDate].
        rewrite !Z.compare_refl.
        destruct (Z.compare_spec (Z.min (Z.max 1 c) (daysInMonth y m)) d); try reflexivity. lia.
    + rewrite newDate_prevMonth by lia.
      assert (Hcut : cutoffOfMonth yp mp c
                     = mkDate yp mp (Z.min (Z.max 1 c) (daysInMonth yp mp)))
        by (apply cutoffOfMonth_eq; lia).
      exists (cutoffOfMonth yp mp c). split.
      { subst yp mp. destruct (m =? 0); reflexivity. }
      rewrite Hcut. split; [unfold validDate; cbn; lia|]. split.
      * unfold dateLeb. now rewrite (month_before_lt y m d yp mp).
      * split; [cbn [statementDateOfMonth]; now rewrite Hcut|].
        unfold dateLtb, dateCompare; cbn [getFullYear getMonth getDate].
        rewrite !Z.compare_refl.
        destruct (Z.compare_spec d (Z.min (Z.max 1 c) (daysInMonth y m))); try reflexivity; lia.
  - rewrite newDate_day_zero by lia.
    assert (Hsd : statementDateOfMonth None yp mp = mkDate yp mp (daysInMonth yp mp))
      by (cbn [statementDateOfMonth]; apply newDate_day0; lia).
    exists (mkDate yp mp (daysInMonth yp mp)). split.
    { subst yp mp. destruct (Z.eqb_spec m 0); [reflexivity|reflexivity]. }
    split; [unfold validDate; cbn; lia|].
    assert (Hlt : dateCompare (mkDate yp mp (daysInMonth yp mp)) (mkDate y m d) = Lt)
      by now apply (month_before_lt y m d yp mp).
    split; [unfold dateLeb; now rewrite Hlt|].
    split; [now rewrite Hsd|unfold dateLtb; now rewrite Hlt].
Qed.

Lemma string_append_assoc (a b c : string) : ((a ++ b) ++ c = a ++ (b ++ c))%string.
Proof. induction a as [|ch a IH]; cbn [append]; [reflexivity|now rewrite IH]. Qed.

(** X4. The text of a day is read back as the start of that day, whatever
    follows the ten characters (a time, for instance) and without recourse
    to the fallback parser: [parseDateString] inverts the YYYY-MM-DD form
    (days of the years 100..9999). *)
Theorem parseDateString_formatDay (ext : Externals) (d : Date) (rest : string) :
  validDate d -> 100 <= getFullYear d <= 9999 ->
  parseDateString ext (formatDay d ++ rest) = Some (atMidnight d).
Proof.
  destruct d as [y m dd]. unfold validDate; cbn [getFullYear getMonth getDate].
  intros [Hm Hd] Hy. pose proof (daysInMonth_bounds y m) as Hb.
  unfold parseDateString, formatDay; cbn [getFullYear getMonth getDate].
  rewrite !string_append_assoc.
  rewrite parseDigits_pad4 by lia. cbn [append].
  rewrite parseDigits_pad2 by lia. cbn [append].
  rewrite parseDigits_pad2 by lia.
  replace (m + 1 - 1) with m by lia.
  do 2 f_equal. apply newDate_day; lia.
Qed.

Lemma formatDay_components (d : Date) (rest : string) :
  0 <= getFullYear d <= 9999 -> 0 <= getMonth d + 1 <= 99 -> 0 <= getDate d <= 99 ->
  parseDigits 4 (formatDay d ++ rest) 0
  = Some (getFullYear d, ("-" ++ pad2 (getMonth d + 1) ++ "-" ++ pad2 (getDate d) ++ rest)%string)
  /\ parseDigits 2 (pad2 (getMonth d + 1) ++ "-" ++ pad2 (getDate d) ++ rest) 0
     = Some (getMonth d + 1, ("-" ++ pad2 (getDate d) ++ rest)%string)
  /\ parseDigits 2 (pad2 (getDate d) ++ rest) 0 = Some (getDate d, rest).
Proof.
  intros Hy Hm Hd. unfold formatDay. rewrite !string_append_assoc.
  rewrite parseDigits_pad4, !parseDigits_pad2 by assumption. auto.
Qed.

(** Two days with the same text are the same day. *)
Lemma formatDay_inj (a b : Date) :
  0 <= getFullYear a <= 9999 -> 0 <= getMonth a + 1 <= 99 -> 0 <= getDate a <= 99 ->
  0 <= getFullYear b <= 9999 -> 0 <= getMonth b + 1 <= 99 -> 0 <= getDate b <= 99 ->
  formatDay a = formatDay b -> a = b.
Proof.
  intros Hya Hma Hda Hyb Hmb Hdb Heq.
  destruct (formatDay_components a "" Hya Hma Hda) as (A1 & A2 & A3).
  destruct (formatDay_components b "" Hyb Hmb Hdb) as (B1 & B2 & B3).
  set (value := fun o : option (Z * string) => match o with Some (v, _) => v | None => 0 end).
  set (after := fun o : option (Z * string) =>
                  match o with Some (_, String _ r) => r | _ => EmptyString end).
  assert (E1 : parseDigits 4 (formatDay a ++ "") 0 = parseDigits 4 (formatDay b ++ "") 0)
    by now rewrite Heq.
  rewrite A1, B1 in E1.
  assert (Hy : getFullYear a = getFullYear b) by exact (f_equal value E1).
  assert (Hr1 : (pad2 (getMonth a + 1) ++ "-" ++ pad2 (getDate a) ++ "")%string
                = (pad2 (getMonth b + 1) ++ "-" ++ pad2 (getDate b) ++ "")%string)
    by exact (f_equal after E1).
  assert (E2 := A2). rewrite Hr1, B2 in E2.
  assert (Hmo : getMonth b + 1 = getMonth a + 1) by exact (f_equal value E2).
  assert (Hr2 : (pad2 (getDate b) ++ "")%string = (pad2 (getDate a) ++ "")%string)
    by exact (f_equal after E2).
  assert (E3 := A3). rewrite <- Hr2, B3 in E3.
  assert (Hd : getDate b = getDate a) by exact (f_equal value E3).
  destruct a, b; cbn [getFullYear getMonth getDate] in *. f_equal; lia.
Qed.

Lemma prevDay_valid (a : Date) : validDate a -> validDate (prevDay a).
Proof.
  destruct a as [y m d]. unfold validDate, prevDay; cbn [getFullYear getMonth getDate].
  intros [Hm Hd].
  destruct (Z.ltb_spec 1 d); cbn [getFullYear getMonth getDate]; [lia|].
  destruct (Z.ltb_spec 0 m); cbn [getFullYear getMonth getDate].
  - pose proof (daysInMonth_bounds y (m - 1)). lia.
  - change (daysInMonth (y - 1) 11) with 31. lia.
Qed.

(** The day after the day before is the day itself. *)
Lemma nextDay_prevDay (a : Date) : validDate a -> nextDay (prevDay a) = a.
Proof.
  destruct a as [y m d]. unfold validDate, prevDay; cbn [getFullYear getMonth getDate].
  intros [Hm Hd].
  destruct (Z.ltb_spec 1 d).
  - unfold nextDay; cbn [getFullYear getMonth getDate].
    replace (d - 1 <? daysInMonth y m) with true by (symmetry; apply Z.ltb_lt; lia).
    f_equal; lia.
  - destruct (Z.ltb_spec 0 m); unfold nextDay; cbn [getFullYear getMonth getDate].
    + rewrite Z.ltb_irrefl.
      replace (m - 1 <? 11) with true by (symmetry; apply Z.ltb_lt; lia).
      f_equal; lia.
    + change (daysInMonth (y - 1) 11) with 31. change (31 <? 31) with false.
      change (11 <? 11) with false. cbv iota. f_equal; lia.
Qed.

(** The day before the day after is the day itself. *)
Lemma prevDay_nextDay (a : Date) : validDate a -> prevDay (nextDay a) = a.
Proof.
  destruct a as [y m d]. unfold validDate, nextDay; cbn [getFullYear getMonth getDate].
  intros [Hm Hd]. pose proof (daysInMonth_bounds y m) as Hb.
  destruct (Z.ltb_spec d (daysInMonth y m)).
  - unfold prevDay; cbn [getFullYear getMonth getDate].
    replace (1 <? d + 1) with true by (symmetry; apply Z.ltb_lt; lia).
    f_equal; lia.
  - destruct (Z.ltb_spec m 11); unfold prevDay; cbn [getFullYear getMonth getDate].
    + change (1 <? 1) with false.
      replace (0 <? m + 1) with true by (symmetry; apply Z.ltb_lt; lia).
      cbv iota. replace (m + 1 - 1) with m by lia. f_equal; lia.
    + change (1 <? 1) with false. change (0 <? 0) with false. cbv iota.
      assert (m = 11) by lia. subst m. change (daysInMonth y 11) with 31 in *.
      f_equal; lia.
Qed.

Lemma nextDay_neq (a : Date) : nextDay a <> a.
Proof.
  destruct a as [y m d]. unfold nextDay; cbn [getFullYear getMonth getDate].
  destruct (d <? daysInMonth y m); [intros [=]; lia|].
  destruct (m <? 11); intros [=]; lia.
Qed.

(** X5. The statement date text is the UTC day of the local midnight of
    the statement date, so it is the day itself in a host on or behind UTC
    and the day before in a host ahead of UTC.  Among statement dates whose
    midnights lie on the same side, two different dates never have the same
    text (days of the years 2..9999); where the offset turns positive between
    a day and the next one (Europe/London at the start of summer time), both
    days have the same text. *)
Theorem isoDay_is_injective_while_offset_keeps_side (ext : Externals) (a b : Date) :
  validDate a -> validDate b ->
  2 <= getFullYear a <= 9999 -> 2 <= getFullYear b <= 9999 ->
  ((utcDayOf ext (atMidnight a) = a /\ utcDayOf ext (atMidnight b) = b)
   \/ (utcDayOf ext (atMidnight a) = prevDay a /\ utcDayOf ext (atMidnight b) = prevDay b) ->
   isoDay ext a = isoDay ext b -> a = b)
  /\ (utcDayOf ext (atMidnight a) = a ->
      utcDayOf ext (atMidnight (nextDay a)) = prevDay (nextDay a) ->
      isoDay ext (nextDay a) = isoDay ext a /\ nextDay a <> a).
Proof.
  intros Va Vb Ya Yb. unfold isoDay, isoDayAt.
  assert (Hrange : forall d, validDate d -> 1 <= getFullYear d <= 9999 ->
                     0 <= getFullYear d <= 9999 /\ 0 <= getMonth d + 1 <= 99
                     /\ 0 <= getDate d <= 99).
  { intros d [Hm Hd] Hy. pose proof (daysInMonth_bounds (getFullYear d) (getMonth d)). lia. }
  assert (Hprev : forall d, validDate d -> 2 <= getFullYear d <= 9999 ->
                    1 <= getFullYear (prevDay d) <= 9999).
  { intros [y m d]. unfold validDate, prevDay; cbn [getFullYear getMonth getDate].
    intros _ Hy. destruct (1 <? d); cbn; [lia|]. destruct (0 <? m); cbn; lia. }
  split.
  - intros [[-> ->]|[-> ->]] Heq.
    + destruct (Hrange a Va ltac:(lia)) as (A1 & A2 & A3).
      destruct (Hrange b Vb ltac:(lia)) as (B1 & B2 & B3).
      exact (formatDay_inj _ _ A1 A2 A3 B1 B2 B3 Heq).
    + destruct (Hrange (prevDay a) (prevDay_valid a Va) (Hprev a Va Ya)) as (A1 & A2 & A3).
      destruct (Hrange (prevDay b) (prevDay_valid b Vb) (Hprev b Vb Yb)) as (B1 & B2 & B3).
      pose proof (formatDay_inj _ _ A1 A2 A3 B1 B2 B3 Heq) as Hp.
      rewrite <- (nextDay_prevDay a Va), <- (nextDay_prevDay b Vb), Hp. reflexivity.
  - intros -> ->. rewrite prevDay_nextDay by exact Va. split; [reflexivity|].
    apply nextDay_neq.
Qed.

(* ===================================================================== *)
(** ** Further properties: the run of accrueDebtInternal                 *)
(* ===================================================================== *)

Lemma findIndex_None {A} (p : A -> bool) (l : list A) :
  existsb p l = false -> findIndex p l = None.
Proof.
  induction l as [|a r IH]; cbn; [reflexivity|].
  destruct (p a); cbn; [discriminate|]. intros H. now rewrite IH.
Qed.

Section AccrualRun.
Variable ext : Externals.
Variable rejects : Call -> bool.

Lemma previousRow_value debtId sdStr (ex rec : bool) s :
  rejects CallFindCreditHistoryRow = false ->
  rejects CallGetCreditHistoryByRow = false ->
  (if ex && rec
   then await! row := findCreditHistoryRow rejects debtId sdStr in
        if rowTruthy row
        then do! getCreditHistoryByRow rejects (default O row) in ret row
        else ret row
   else ret None) s
  = (Returned (if ex && rec
               then option_map (fun i => (i + 2)%nat)
                      (findIndex (matchesKey debtId sdStr) (creditHistorySheet s))
               else None), s).
Proof.
  intros R1 R2. destruct (ex && rec); [|reflexivity].
  unfold bind, findCreditHistoryRow, getCreditHistoryByRow, awaitRead, ret.
  rewrite R1.
  destruct (findIndex _ _) as [i|]; cbn [option_map rowTruthy]; [|reflexivity].
  replace (i + 2)%nat with (S (S i)) by lia. cbn [rowTruthy]. now rewrite R2.
Qed.

Lemma carryOver_value debtId (lastForDebt : option CreditHistory.t) s :
  match lastForDebt with
  | Some l =>
      tryCatch
        (await! prevPaid :=
           awaitRead rejects CallSumPaymentsCarryOver
             (fun s => sumPaymentsForDebt ext (expensesSheet s) debtId
                         (CreditHistory.statementDate l) (CreditHistory.dueDate l)) in
         ret (computeInterestCarryOver ext l prevPaid))
        (ret 0%Q)
  | None => ret 0%Q
  end s = (Returned (carryOverOf ext rejects debtId lastForDebt (expensesSheet s)), s).
Proof.
  destruct lastForDebt as [l|]; [|reflexivity].
  unfold tryCatch, bind, awaitRead, ret, carryOverOf.
  destruct (rejects CallSumPaymentsCarryOver); reflexivity.
Qed.

(** The run that writes, in one equation: with the debt found and active,
    the statement date resolved, no call rejected (but possibly the read of
    the carry-over payments) and no skip, the run returns the record of the
    cycle, puts it in the ledger and sets the balance of the debt. *)
Lemma accrue_run (today : Date) (debtId : string) (options : Options)
    (s : Sheets) (debt : Debt.t) (sd : Date) :
  (forall c, c <> CallSumPaymentsCarryOver -> rejects c = false) ->
  List.find (fun r => String.eqb (Debt.id r) debtId) (debtsSheet s) = Some debt ->
  Debt.active debt = true ->
  resolveStatementDate (Debt.cutOffDay debt)
    (match dateParam options with Some d => d | None => today end)
    (periodParam options) = inr sd ->
  existsb (matchesKey debtId (isoDay ext sd)) (creditHistorySheet s)
  && negb (recompute options) = false ->
  accrueDebtInternal ext rejects today debtId options s
  = (Returned (Created (debtId ++ "|" ++ isoDay ext sd)%string
                 (cycleRecord ext rejects debtId debt sd sd (creditHistorySheet s)
                    (expensesSheet s))
                 (isoDay ext sd)),
     mkSheets
       (setBalance debtId
          (runningBalanceOf ext debtId sd today
             (default 0%Q (CreditHistory.statementBalance
                             (cycleRecord ext rejects debtId debt sd sd
                                (creditHistorySheet s) (expensesSheet s))))
             (expensesSheet s))
          (debtsSheet s))
       (ledgerWith (cycleRecord ext rejects debtId debt sd sd (creditHistorySheet s)
                      (expensesSheet s))
                   (creditHistorySheet s))
       (expensesSheet s)).
Proof.
  intros Hok Hfind Hactive Hsd Hskip.
  unfold accrueDebtInternal. unfold bind at 1. unfold awaitRead at 1.
  rewrite (Hok CallGetDebts) by discriminate.
  rewrite Hfind, Hactive. cbn [negb]. rewrite Hsd.
  unfold bind at 1. unfold awaitRead at 1.
  rewrite (Hok CallGetCreditHistoryObjects) by discriminate.
  rewrite Hskip. unfold bind at 1.
  rewrite previousRow_value by (apply Hok; discriminate).
  unfold bind at 1. unfold awaitRead at 1.
  rewrite (Hok CallGetExpensesObjects) by discriminate.
  unfold bind at 1. rewrite carryOver_value.
  unfold bind at 1. unfold awaitRead at 1.
  rewrite (Hok CallSumPaymentsMade) by discriminate.
  unfold ledgerWith.
  change (CreditHistory.debtId (cycleRecord ext rejects debtId debt sd sd
                                  (creditHistorySheet s) (expensesSheet s))) with debtId.
  change (CreditHistory.statementDate (cycleRecord ext rejects debtId debt sd sd
                                         (creditHistorySheet s) (expensesSheet s)))
    with (isoDay ext sd).
  destruct (existsb (matchesKey debtId (isoDay ext sd)) (creditHistorySheet s)) eqn:Hex.
  - destruct (recompute options) eqn:Hrc; [|discriminate Hskip].
    destruct (findIndex_Some _ _ Hex) as (i & old & Hi & _ & _). rewrite Hi.
    cbn [andb option_map].
    replace (rowTruthy (Some (i + 2)%nat)) with true
      by (replace (i + 2)%nat with (S (S i)) by lia; reflexivity).
    change (default O (Some (i + 2)%nat)) with (i + 2)%nat.
    unfold bind, updateCreditHistoryRow, updateDebt, awaitWrite, ret.
    rewrite (Hok CallUpdateCreditHistoryRow), (Hok CallUpdateDebt) by discriminate.
    cbn [debtsSheet creditHistorySheet expensesSheet].
    replace (i + 2 - 2)%nat with i by lia. reflexivity.
  - rewrite (findIndex_None _ _ Hex). cbn [andb].
    unfold bind, appendCreditHistoryRecord, updateDebt, awaitWrite, ret.
    rewrite (Hok CallAppendCreditHistoryRecord), (Hok CallUpdateDebt) by discriminate.
    reflexivity.
Qed.
End AccrualRun.

Lemma matchesKey_eq (d k : string) (h : CreditHistory.t) :
  matchesKey d k h = true <-> CreditHistory.debtId h = d /\ CreditHistory.statementDate h = k.
Proof. unfold matchesKey. rewrite andb_true_iff, !String.eqb_eq. reflexivity. Qed.

Lemma countKey_app (d k : string) (l1 l2 : list CreditHistory.t) :
  countKey d k (l1 ++ l2) = (countKey d k l1 + countKey d k l2)%nat.
Proof. unfold countKey. now rewrite List.filter_app, length_app. Qed.

Lemma countKey_absent (d k : string) (l : list CreditHistory.t) :
  existsb (matchesKey d k) l = false -> countKey d k l = O.
Proof.
  unfold countKey. induction l as [|a r IH]; cbn [existsb List.filter]; [reflexivity|].
  destruct (matchesKey d k a); cbn [orb]; [discriminate|exact IH].
Qed.

Lemma setBalance_keeps (debtId : string) (b : Q) (rows : list Debt.t) :
  map (fun r => (Debt.id r, Debt.dueDay r, Debt.cutOffDay r, Debt.interesEfectivo r,
                 Debt.active r)) (setBalance debtId b rows)
  = map (fun r => (Debt.id r, Debt.dueDay r, Debt.cutOffDay r, Debt.interesEfectivo r,
                   Debt.active r)) rows
  /\ forall i r, rows !! i = Some r -> Debt.id r <> debtId ->
                 setBalance debtId b rows !! i = Some r.
Proof.
  induction rows as [|a rest [IH1 IH2]]; cbn [setBalance map]; [split; [reflexivity|]|].
  - intros i r H. discriminate H.
  - destruct (String.eqb_spec (Debt.id a) debtId) as [Heq|Hne].
    + split; [reflexivity|]. intros [|i] r H Hr; cbn in H |- *.
      * injection H as <-. contradiction.
      * exact H.
    + cbn [map]. split; [now rewrite IH1|].
      intros [|i] r H Hr; cbn in H |- *; [exact H|now apply IH2].
Qed.

Section AccrualEffects.
Variable ext : Externals.
Variable rejects : Call -> bool.

(** X6. The first accrual of a cycle appends: with no record under
    (debtId, statementDate), the debt found and active and no call rejected,
    the run returns a record with the key "debtId|statementDate"; the ledger
    is the old ledger followed by that one record, which carries the debt,
    the statement date and the due date of the cycle and is then the only
    record of its key, while every other key keeps its records; the Debts
    sheet changes in the balance of the debt alone and the Expenses sheet
    not at all. *)
Theorem first_accrual_appends_one_record (today : Date) (debtId : string) (options : Options)
    (s : Sheets) (debt : Debt.t) (sd : Date) :
  (forall c, c <> CallSumPaymentsCarryOver -> rejects c = false) ->
  List.find (fun r => String.eqb (Debt.id r) debtId) (debtsSheet s) = Some debt ->
  Debt.active debt = true ->
  resolveStatementDate (Debt.cutOffDay debt)
    (match dateParam options with Some d => d | None => today end)
    (periodParam options) = inr sd ->
  existsb (matchesKey debtId (isoDay ext sd)) (creditHistorySheet s) = false ->
  exists rec b,
    accrueDebtInternal ext rejects today debtId options s
    = (Returned (Created (debtId ++ "|" ++ isoDay ext sd)%string rec (isoDay ext sd)),
       mkSheets (setBalance debtId b (debtsSheet s)) (creditHistorySheet s ++ [rec])
                (expensesSheet s))
    /\ CreditHistory.debtId rec = debtId
    /\ CreditHistory.statementDate rec = isoDay ext sd
    /\ CreditHistory.dueDate rec = isoDay ext (dueDateOf ext debt sd)
    /\ matchesKey debtId (isoDay ext sd) rec = true
    /\ countKey debtId (isoDay ext sd) (creditHistorySheet s ++ [rec]) = 1%nat
    /\ (forall d k, matchesKey d k rec = false ->
          countKey d k (creditHistorySheet s ++ [rec]) = countKey d k (creditHistorySheet s)).
Proof.
  intros Hok Hfind Hactive Hsd Hex.
  do 2 eexists. split.
  - rewrite (accrue_run ext rejects today debtId options s debt sd Hok Hfind Hactive Hsd)
      by now rewrite Hex.
    unfold ledgerWith.
    change (CreditHistory.debtId (cycleRecord ext rejects debtId debt sd sd
                                    (creditHistorySheet s) (expensesSheet s))) with debtId.
    change (CreditHistory.statementDate (cycleRecord ext rejects debtId debt sd sd
                                           (creditHistorySheet s) (expensesSheet s)))
      with (isoDay ext sd).
    rewrite (findIndex_None _ _ Hex). reflexivity.
  - split; [reflexivity|]. split; [reflexivity|]. split; [reflexivity|]. split; [|split].
    + apply matchesKey_eq. split; reflexivity.
    + rewrite countKey_app, (countKey_absent _ _ _ Hex). unfold countKey.
      cbn [List.filter]. unfold matchesKey at 1.
      change (CreditHistory.debtId (cycleRecord ext rejects debtId debt sd sd
                                      (creditHistorySheet s) (expensesSheet s))) with debtId.
      change (CreditHistory.statementDate (cycleRecord ext rejects debtId debt sd sd
                                             (creditHistorySheet s) (expensesSheet s)))
        with (isoDay ext sd).
      rewrite !String.eqb_refl. reflexivity.
    + intros d k Hk. rewrite countKey_app. unfold countKey at 2.
      cbn [List.filter]. rewrite Hk. cbn [length]. lia.
Qed.

(** X7. "At most one record per (debtId, statementDate)" is an invariant of
    the ledger under [accrueDebtInternal]: whatever the request, the fault
    plan and the outcome, a ledger that satisfies it before the run
    satisfies it after the run. *)
Theorem accrual_keeps_keys_unique (today : Date) (debtId : string) (options : Options)
    (s s' : Sheets) (o : Outcome AccrueResult) :
  accrueDebtInternal ext rejects today debtId options s = (o, s') ->
  (forall d k, (countKey d k (creditHistorySheet s) <= 1)%nat) ->
  forall d k, (countKey d k (creditHistorySheet s') <= 1)%nat.
Proof.
  intros Hrun Hinv d k. apply accrue_outcome in Hrun. cbv zeta in Hrun.
  destruct Hrun as [(-> & _)|(debt & sd & rec & h' & _ & _ & _ & Hr1 & Hr2 & _ & _ & Hw & Hend)];
    [apply Hinv|].
  assert (Hs' : creditHistorySheet s' = h')
    by (destruct Hend as [(_ & _ & ->)|(b & _ & ->)]; reflexivity).
  rewrite Hs'. clear Hs' Hend.
  destruct Hw as [(Hno & ->)|(_ & i & Hi & ->)].
  - rewrite countKey_app. unfold countKey at 2. cbn [List.filter].
    destruct (matchesKey d k rec) eqn:Hm; cbn [length].
    + apply matchesKey_eq in Hm as [<- <-]. rewrite Hr1, Hr2.
      rewrite (countKey_absent _ _ _ Hno). lia.
    + specialize (Hinv d k). lia.
  - destruct (findIndex_lookup _ _ _ Hi) as (old & Hold & Hkey).
    apply matchesKey_eq in Hkey as [K1 K2].
    unfold countKey. rewrite (filter_insert_length _ _ _ old); [apply Hinv|exact Hold|].
    unfold matchesKey. now rewrite Hr1, Hr2, K1, K2.
Qed.

(** The frame of a run: the Expenses sheet and the identity of the Debts
    rows. *)
Lemma accrue_frame (today : Date) (debtId : string)
    (options : Options) (s s' : Sheets) (o : Outcome AccrueResult) :
  accrueDebtInternal ext rejects today debtId options s = (o, s') ->
  expensesSheet s' = expensesSheet s
  /\ map (fun r => (Debt.id r, Debt.dueDay r, Debt.cutOffDay r, Debt.interesEfectivo r,
                    Debt.active r)) (debtsSheet s')
     = map (fun r => (Debt.id r, Debt.dueDay r, Debt.cutOffDay r, Debt.interesEfectivo r,
                      Debt.active r)) (debtsSheet s).
Proof.
  intros Hrun. apply accrue_outcome in Hrun. cbv zeta in Hrun.
  destruct Hrun as [(-> & _)|(debt & sd & rec & h' & _ & _ & _ & _ & _ & _ & _ & _ & Hend)];
    [auto|].
  destruct Hend as [(_ & _ & ->)|(b & _ & ->)];
    cbn [debtsSheet creditHistorySheet expensesSheet]; [auto|].
  destruct (setBalance_keeps debtId b (debtsSheet s)) as [K1 _]. auto.
Qed.

(** X8. What no run of [accrueDebtInternal] touches, whatever its outcome:
    the Expenses sheet; and in the Debts sheet the number and order of the
    rows, their ids, due days, cutoff days, rates and active flags, and the
    whole row of every other debt.  Only the balance of the debt itself can
    change. *)
Theorem accrual_changes_only_ledger_and_balance (today : Date) (debtId : string)
    (options : Options) (s s' : Sheets) (o : Outcome AccrueResult) :
  accrueDebtInternal ext rejects today debtId options s = (o, s') ->
  expensesSheet s' = expensesSheet s
  /\ map (fun r => (Debt.id r, Debt.dueDay r, Debt.cutOffDay r, Debt.interesEfectivo r,
                    Debt.active r)) (debtsSheet s')
     = map (fun r => (Debt.id r, Debt.dueDay r, Debt.cutOffDay r, Debt.interesEfectivo r,
                      Debt.active r)) (debtsSheet s)
  /\ (forall i r, debtsSheet s !! i = Some r -> Debt.id r <> debtId ->
                  debtsSheet s' !! i = Some r)
  /\ (length (creditHistorySheet s) <= length (creditHistorySheet s')
      <= S (length (creditHistorySheet s)))%nat.
Proof.
  intros Hrun. apply accrue_outcome in Hrun. cbv zeta in Hrun.
  destruct Hrun as [(-> & _)|(debt & sd & rec & h' & _ & _ & _ & _ & _ & _ & _ & Hw & Hend)].
  { repeat split; auto; lia. }
  assert (Hlen : (length (creditHistorySheet s) <= length h'
                  <= S (length (creditHistorySheet s)))%nat).
  { destruct Hw as [(_ & ->)|(_ & i & _ & ->)].
    - rewrite length_app. cbn. lia.
    - rewrite length_insert. lia. }
  destruct Hend as [(_ & _ & ->)|(b & _ & ->)];
    cbn [debtsSheet creditHistorySheet expensesSheet].
  - repeat split; auto; lia.
  - destruct (setBalance_keeps debtId b (debtsSheet s)) as [K1 K2].
    repeat split; auto; lia.
Qed.
End AccrualEffects.

Lemma string_ltb_irrefl (a : string) : String.ltb a a = false.
Proof.
  unfold String.ltb. pose proof (String.compare_antisym a a) as H.
  destruct (String.compare a a); try reflexivity; discriminate H.
Qed.

Lemma filter_insert_same {A} (p : A -> bool) (l : list A) (i : nat) (old new : A) :
  l !! i = Some old -> p old = false -> p new = false ->
  List.filter p (<[i := new]> l) = List.filter p l.
Proof.
  revert i. induction l as [|a r IH]; intros i Hi Ho Hn; [discriminate|].
  destruct i as [|i]; cbn in Hi.
  - injection Hi as ->. change (<[O := new]> (old :: r)) with (new :: r).
    cbn [List.filter]. now rewrite Ho, Hn.
  - change (<[S i := new]> (a :: r)) with (a :: <[i := new]> r).
    cbn [List.filter]. now rewrite (IH i Hi Ho Hn).
Qed.

Lemma findIndex_insert {A} (p : A -> bool) (l : list A) (i : nat) (new : A) :
  findIndex p l = Some i -> p new = true ->
  findIndex p (<[i := new]> l) = Some i /\ <[i := new]> (<[i := new]> l) = <[i := new]> l.
Proof.
  revert i. induction l as [|a r IH]; intros i; cbn [findIndex]; [discriminate|].
  destruct (p a) eqn:Hp.
  - intros [= <-] Hn. change (<[O := new]> (a :: r)) with (new :: r).
    cbn [findIndex]. rewrite Hn. split; reflexivity.
  - destruct (findIndex p r) as [k|] eqn:Hk; cbn [option_map]; [|discriminate].
    intros [= <-] Hn. change (<[S k := new]> (a :: r)) with (a :: <[k := new]> r).
    destruct (IH k eq_refl Hn) as [I1 I2].
    cbn [findIndex]. rewrite Hp, I1. cbn [option_map].
    change (<[S k := new]> (a :: <[k := new]> r)) with (a :: <[k := new]> (<[k := new]> r)).
    now rewrite I2.
Qed.

Lemma findIndex_app_new {A} (p : A -> bool) (l : list A) (new : A) :
  findIndex p l = None -> p new = true ->
  findIndex p (l ++ [new]) = Some (length l) /\ <[length l := new]> (l ++ [new]) = l ++ [new].
Proof.
  induction l as [|a r IH]; cbn [findIndex app length].
  - intros _ Hn. rewrite Hn. split; reflexivity.
  - destruct (p a) eqn:Hp; [discriminate|].
    destruct (findIndex p r) as [k|] eqn:Hk; cbn [option_map]; [discriminate|].
    intros _ Hn. destruct (IH eq_refl Hn) as [I1 I2]. rewrite I1. cbn [option_map].
    change (<[S (length r) := new]> (a :: (r ++ [new])))
      with (a :: <[length r := new]> (r ++ [new])).
    now rewrite I2.
Qed.

Lemma ledgerWith_idem (rec : CreditHistory.t) (h : list CreditHistory.t) :
  ledgerWith rec (ledgerWith rec h) = ledgerWith rec h.
Proof.
  assert (Hkey : matchesKey (CreditHistory.debtId rec) (CreditHistory.statementDate rec) rec
                 = true) by (apply matchesKey_eq; auto).
  unfold ledgerWith.
  destruct (findIndex _ h) as [i|] eqn:Hi.
  - destruct (findIndex_insert _ _ _ _ Hi Hkey) as [-> ->]. reflexivity.
  - destruct (findIndex_app_new _ _ _ Hi Hkey) as [-> ->]. reflexivity.
Qed.

Lemma priorStatements_ledgerWith (debtId : string) (rec : CreditHistory.t)
    (h : list CreditHistory.t) :
  priorStatements debtId (CreditHistory.statementDate rec) (ledgerWith rec h)
  = priorStatements debtId (CreditHistory.statementDate rec) h.
Proof.
  unfold priorStatements, ledgerWith.
  destruct (findIndex _ h) as [i|] eqn:Hi.
  - destruct (findIndex_lookup _ _ _ Hi) as (old & Hold & Hkey).
    apply matchesKey_eq in Hkey as [_ K2].
    apply (filter_insert_same _ _ _ old); [exact Hold| |].
    + rewrite K2, string_ltb_irrefl. apply andb_false_r.
    + rewrite string_ltb_irrefl. apply andb_false_r.
  - rewrite List.filter_app. cbn [List.filter].
    rewrite string_ltb_irrefl, andb_false_r. apply app_nil_r.
Qed.

Lemma setBalance_idem (debtId : string) (b b' : Q) (rows : list Debt.t) :
  setBalance debtId b' (setBalance debtId b rows) = setBalance debtId b' rows.
Proof.
  induction rows as [|r rest IH]; cbn [setBalance]; [reflexivity|].
  destruct (String.eqb (Debt.id r) debtId) eqn:E; cbn [setBalance Debt.id]; rewrite E.
  - reflexivity.
  - now rewrite IH.
Qed.

Lemma existsb_ledgerWith (rec : CreditHistory.t) (h : list CreditHistory.t) :
  existsb (matchesKey (CreditHistory.debtId rec) (CreditHistory.statementDate rec))
          (ledgerWith rec h) = true.
Proof.
  assert (Hkey : matchesKey (CreditHistory.debtId rec) (CreditHistory.statementDate rec) rec
                 = true) by (apply matchesKey_eq; auto).
  unfold ledgerWith. destruct (findIndex _ h) as [i|] eqn:Hi.
  - destruct (findIndex_insert _ _ _ _ Hi Hkey) as [H _].
    destruct (findIndex_lookup _ _ _ H) as (x & Hx & Hp).
    apply existsb_exists. exists x. split; [|exact Hp].
    apply list_elem_of_In. eapply list_elem_of_lookup_2; exact Hx.
  - rewrite existsb_app. cbn [existsb]. rewrite Hkey. now rewrite orb_true_r.
Qed.

Section Recompute.
Variable ext : Externals.
Variable rejects : Call -> bool.

(** X10. A rejected read of the payments of the previous cycle does not fail
    the accrual: with every other call answered, the run writes the
    statement as usual, its interests being the interest on the balance
    alone (carry-over 0), rounded to cents. *)
Theorem carry_over_failure_is_swallowed (today : Date) (debtId : string) (options : Options)
    (s : Sheets) (debt : Debt.t) (sd : Date) :
  (forall c, c <> CallSumPaymentsCarryOver -> rejects c = false) ->
  rejects CallSumPaymentsCarryOver = true ->
  List.find (fun r => String.eqb (Debt.id r) debtId) (debtsSheet s) = Some debt ->
  Debt.active debt = true ->
  resolveStatementDate (Debt.cutOffDay debt)
    (match dateParam options with Some d => d | None => today end)
    (periodParam options) = inr sd ->
  existsb (matchesKey debtId (isoDay ext sd)) (creditHistorySheet s)
  && negb (recompute options) = false ->
  exists rec s',
    accrueDebtInternal ext rejects today debtId options s
    = (Returned (Created (debtId ++ "|" ++ isoDay ext sd)%string rec (isoDay ext sd)), s')
    /\ existsb (matchesKey debtId (isoDay ext sd)) (creditHistorySheet s') = true
    /\ let startPeriod := startPeriodOf (prevStatementDateOf (Debt.cutOffDay debt) sd) in
       let events := periodEvents ext debtId (dateOnly startPeriod) (dateOnly sd)
                                  (expensesSheet s) in
       CreditHistory.interests rec
       = toFixed2 (fst (computeSpdInterests ext (CreditHistory.previousBalance rec) events
                          (annualRateUnit (Debt.interesEfectivo debt)) startPeriod sd) + 0)%Q.
Proof.
  intros Hok Hrej Hfind Hactive Hsd Hskip.
  do 2 eexists. split; [apply (accrue_run ext rejects); eassumption|].
  cbn [creditHistorySheet]. split.
  - pose proof (existsb_ledgerWith
                  (cycleRecord ext rejects debtId debt sd sd (creditHistorySheet s)
                     (expensesSheet s)) (creditHistorySheet s)) as H.
    exact H.
  - cbv zeta. unfold cycleRecord. cbn [CreditHistory.interests CreditHistory.previousBalance].
    unfold carryOverOf. rewrite Hrej.
    destruct (latestStatement _); reflexivity.
Qed.

(** X11. Recompute is idempotent once the debt has an earlier statement with
    a balance: with no call rejected, the debt found and active and
    recompute=true, a second run of the same request returns the same
    record and leaves the spreadsheet exactly as the first run left it. *)
Theorem recompute_twice_is_recompute_once (today : Date) (debtId : string) (options : Options)
    (s : Sheets) (debt : Debt.t) (sd : Date) (l : CreditHistory.t) (pb : Q) :
  (forall c, c <> CallSumPaymentsCarryOver -> rejects c = false) ->
  List.find (fun r => String.eqb (Debt.id r) debtId) (debtsSheet s) = Some debt ->
  Debt.active debt = true ->
  resolveStatementDate (Debt.cutOffDay debt)
    (match dateParam options with Some d => d | None => today end)
    (periodParam options) = inr sd ->
  recompute options = true ->
  latestStatement (priorStatements debtId (isoDay ext sd) (creditHistorySheet s)) = Some l ->
  CreditHistory.statementBalance l = Some pb ->
  exists rec s1,
    accrueDebtInternal ext rejects today debtId options s
    = (Returned (Created (debtId ++ "|" ++ isoDay ext sd)%string rec (isoDay ext sd)), s1)
    /\ accrueDebtInternal ext rejects today debtId options s1
       = (Returned (Created (debtId ++ "|" ++ isoDay ext sd)%string rec (isoDay ext sd)), s1).
Proof.
  intros Hok Hfind Hactive Hsd Hrc Hlast Hpb.
  assert (Hskip : forall h, existsb (matchesKey debtId (isoDay ext sd)) h
                            && negb (recompute options) = false)
    by (intros h; rewrite Hrc; apply andb_false_r).
  do 2 eexists. split; [exact (accrue_run ext rejects today debtId options s debt sd Hok Hfind Hactive Hsd (Hskip _))|].
  set (rec := cycleRecord ext rejects debtId debt sd sd (creditHistorySheet s)
                (expensesSheet s)).
  set (b := runningBalanceOf ext debtId sd today
              (default 0%Q (CreditHistory.statementBalance rec)) (expensesSheet s)).
  set (debt' := Debt.mk (Debt.id debt) (Some b) (Debt.dueDay debt) (Debt.cutOffDay debt)
                        (Debt.interesEfectivo debt) (Debt.active debt)).
  rewrite (accrue_run ext rejects today debtId options _ debt' sd Hok);
    [|cbn [debtsSheet]; now apply find_setBalance|exact Hactive|exact Hsd|apply Hskip].
  cbn [debtsSheet creditHistorySheet expensesSheet].
  assert (Hrec : cycleRecord ext rejects debtId debt' sd sd
                   (ledgerWith rec (creditHistorySheet s)) (expensesSheet s) = rec).
  { unfold rec at 2. unfold cycleRecord.
    change (isoDay ext sd) with (CreditHistory.statementDate rec).
    rewrite priorStatements_ledgerWith.
    change (CreditHistory.statementDate rec) with (isoDay ext sd).
    rewrite Hlast. unfold previousBalanceOf. rewrite Hpb. reflexivity. }
  rewrite Hrec. fold b. rewrite setBalance_idem, ledgerWith_idem. reflexivity.
Qed.


(** C4. With a record already standing under (debtId, statementDate) and
    [recompute] set, a run in which no call is rejected recomputes the
    statement and writes it over the first record of that key, in place.
    The record returned and now standing at that position is the record of
    the cycle as steps 4 to 6 compute it from the debt, the earlier
    statements and the expenses; it does not depend on the record that stood
    there.  Every other position keeps its record, the ledger keeps its
    length and every key its number of records (so "at most one record per
    key" is preserved), and the balance of the debt becomes the running
    balance that follows from the recomputed statement. *)
Theorem recompute_overwrites_in_place (today : Date) (debtId : string) (options : Options)
    (s : Sheets) (debt : Debt.t) (sd : Date) :
  (forall c, c <> CallSumPaymentsCarryOver -> rejects c = false) ->
  List.find (fun r => String.eqb (Debt.id r) debtId) (debtsSheet s) = Some debt ->
  Debt.active debt = true ->
  resolveStatementDate (Debt.cutOffDay debt)
    (match dateParam options with Some d => d | None => today end)
    (periodParam options) = inr sd ->
  existsb (matchesKey debtId (isoDay ext sd)) (creditHistorySheet s) = true ->
  recompute options = true ->
  let rec := cycleRecord ext rejects debtId debt sd sd (creditHistorySheet s)
               (expensesSheet s) in
  let b := runningBalanceOf ext debtId sd today
             (default 0%Q (CreditHistory.statementBalance rec)) (expensesSheet s) in
  exists i old,
    findIndex (matchesKey debtId (isoDay ext sd)) (creditHistorySheet s) = Some i
    /\ creditHistorySheet s !! i = Some old
    /\ matchesKey debtId (isoDay ext sd) old = true
    /\ matchesKey debtId (isoDay ext sd) rec = true
    /\ accrueDebtInternal ext rejects today debtId options s
       = (Returned (Created (debtId ++ "|" ++ isoDay ext sd)%string rec (isoDay ext sd)),
          mkSheets (setBalance debtId b (debtsSheet s))
                   (<[i := rec]> (creditHistorySheet s)) (expensesSheet s))
    /\ <[i := rec]> (creditHistorySheet s) !! i = Some rec
    /\ (forall j, j <> i -> <[i := rec]> (creditHistorySheet s) !! j = creditHistorySheet s !! j)
    /\ length (<[i := rec]> (creditHistorySheet s)) = length (creditHistorySheet s)
    /\ (forall d k, countKey d k (<[i := rec]> (creditHistorySheet s))
                    = countKey d k (creditHistorySheet s))
    /\ ((forall d k, (countKey d k (creditHistorySheet s) <= 1)%nat) ->
        forall d k, (countKey d k (<[i := rec]> (creditHistorySheet s)) <= 1)%nat)
    /\ (forall x, matchesKey debtId (isoDay ext sd) x = true ->
          cycleRecord ext rejects debtId debt sd sd (<[i := x]> (creditHistorySheet s))
            (expensesSheet s) = rec).
Proof.
  intros Hok Hfind Hactive Hsd Hex Hrc rec b.
  destruct (findIndex_Some _ _ Hex) as (i & old & Hi & Hold & Hkey).
  assert (Hkrec : matchesKey debtId (isoDay ext sd) rec = true)
    by (apply matchesKey_eq; split; reflexivity).
  assert (Hsame : forall d k, matchesKey d k rec = matchesKey d k old).
  { intros d k. apply matchesKey_eq in Hkey as [K1 K2]. unfold matchesKey.
    change (CreditHistory.debtId rec) with debtId.
    change (CreditHistory.statementDate rec) with (isoDay ext sd).
    now rewrite K1, K2. }
  assert (Hcount : forall d k, countKey d k (<[i := rec]> (creditHistorySheet s))
                               = countKey d k (creditHistorySheet s)).
  { intros d k. unfold countKey. apply (filter_insert_length _ _ _ old); auto. }
  exists i, old. split; [exact Hi|]. split; [exact Hold|]. split; [exact Hkey|].
  split; [exact Hkrec|]. split.
  { rewrite (accrue_run ext rejects today debtId options s debt sd Hok Hfind Hactive Hsd)
      by (rewrite Hrc; apply andb_false_r).
    fold rec. fold b. unfold ledgerWith.
    change (CreditHistory.debtId rec) with debtId.
    change (CreditHistory.statementDate rec) with (isoDay ext sd).
    rewrite Hi. reflexivity. }
  split; [apply list_lookup_insert_eq; eapply lookup_lt_Some; exact Hold|].
  split; [intros j Hj; apply list_lookup_insert_ne; congruence|].
  split; [apply length_insert|]. split; [exact Hcount|].
  split; [intros Hinv d k; rewrite Hcount; apply Hinv|].
  intros x Hx. unfold rec, cycleRecord.
  assert (Hprior : priorStatements debtId (isoDay ext sd) (<[i := x]> (creditHistorySheet s))
                   = priorStatements debtId (isoDay ext sd) (creditHistorySheet s)).
  { unfold priorStatements. apply (filter_insert_same _ _ _ old); [exact Hold| |].
    - apply matchesKey_eq in Hkey as [_ K2].
      rewrite K2, string_ltb_irrefl. apply andb_false_r.
    - apply matchesKey_eq in Hx as [_ K2].
      rewrite K2, string_ltb_irrefl. apply andb_false_r. }
  rewrite Hprior. reflexivity.
Qed.
End Recompute.

Section EventsOfTheRun.
Variable ext : Externals.
Variable rejects : Call -> bool.

End EventsOfTheRun.

(* ===================================================================== *)
(** ** The preview                                                       *)
(* ===================================================================== *)

Lemma readOnly_ret {A} (a : A) : readOnly (ret a).
Proof. intros s. reflexivity. Qed.

Lemma readOnly_throw {A} (e : Error) : readOnly (@throw A e).
Proof. intros s. reflexivity. Qed.

Lemma readOnly_awaitRead {A} (rejects : Call -> bool) (c : Call) (f : Sheets -> A) :
  readOnly (awaitRead rejects c f).
Proof. intros s. unfold awaitRead. destruct (rejects c); reflexivity. Qed.

Lemma readOnly_bind {A B} (m : Op A) (k : A -> Op B) :
  readOnly m -> (forall a, readOnly (k a)) -> readOnly (bind m k).
Proof.
  intros Hm Hk s. unfold bind. specialize (Hm s).
  destruct (m s) as [[a|e] s1]; cbn [snd] in Hm; subst s1; [apply Hk|reflexivity].
Qed.

Lemma readOnly_tryCatch {A} (m h : Op A) :
  readOnly m -> readOnly h -> readOnly (tryCatch m h).
Proof.
  intros Hm Hh s. unfold tryCatch. specialize (Hm s).
  destruct (m s) as [[a|e] s1]; cbn [snd] in Hm; subst s1; [reflexivity|apply Hh].
Qed.

Ltac read_only :=
  repeat first
    [ apply readOnly_ret | apply readOnly_throw | apply readOnly_awaitRead
    | apply readOnly_tryCatch
    | apply readOnly_bind; [|intros ?]
    | match goal with
      | |- readOnly (match ?x with _ => _ end) => destruct x
      end ].

Section Preview.
Variable ext : Externals.
Variable rejects : Call -> bool.

(** The preview that computes, in one equation. *)
Lemma preview_run (today : Date) (id : string) (options : Options)
    (s : Sheets) (debt : Debt.t) (sd : Date) :
  (forall c, c <> CallSumPaymentsCarryOver -> rejects c = false) ->
  List.find (fun r => String.eqb (Debt.id r) id) (debtsSheet s) = Some debt ->
  Debt.active debt = true ->
  resolveStatementDate (Debt.cutOffDay debt)
    (match dateParam options with Some d => d | None => today end)
    (periodParam options) = inr sd ->
  (if recompute options then None
   else List.find (matchesKey id (isoDay ext sd)) (creditHistorySheet s)) = None ->
  let data := cycleRecord ext rejects id debt sd (dateOnly sd) (creditHistorySheet s)
                (expensesSheet s) in
  let startPeriod := startPeriodOf (prevStatementDateOf (Debt.cutOffDay debt) sd) in
  let events := periodEvents ext id (dateOnly startPeriod) (dateOnly sd) (expensesSheet s) in
  let spd := computeSpdInterests ext (CreditHistory.previousBalance data) events
               (annualRateUnit (Debt.interesEfectivo debt)) startPeriod sd in
  getDebtStatementPreview ext rejects today id options s
  = (Returned (PreviewComputed data (fst spd) (snd spd)
                 (carryOverOf ext rejects id
                    (latestStatement (priorStatements id (isoDay ext sd)
                                        (creditHistorySheet s)))
                    (expensesSheet s))
                 (detailOf ext charge events) (detailOf ext payment events)), s).
Proof.
  intros Hok Hfind Hactive Hsd Hnew. cbv zeta.
  unfold getDebtStatementPreview. unfold bind at 1. unfold awaitRead at 1.
  rewrite (Hok CallGetDebts) by discriminate.
  rewrite Hfind, Hactive. cbn [negb]. rewrite Hsd.
  unfold bind at 1. unfold awaitRead at 1.
  rewrite (Hok CallGetCreditHistoryObjects) by discriminate.
  rewrite Hnew.
  unfold bind at 1. unfold awaitRead at 1.
  rewrite (Hok CallGetExpensesObjects) by discriminate.
  unfold bind at 1. rewrite (carryOver_value ext rejects).
  unfold bind at 1. unfold awaitRead at 1.
  rewrite (Hok CallSumPaymentsMade) by discriminate.
  reflexivity.
Qed.

(** X13. The preview never writes: whatever the request, the fault plan and
    the answer (skip, cached record, computed preview or error), the
    spreadsheet after [getDebtStatementPreview] is the spreadsheet before. *)
Theorem preview_never_writes (today : Date) (id : string) (options : Options) (s : Sheets) :
  snd (getDebtStatementPreview ext rejects today id options s) = s.
Proof.
  revert s. change (readOnly (getDebtStatementPreview ext rejects today id options)).
  unfold getDebtStatementPreview. cbv zeta. read_only.
Qed.
End Preview.

Lemma find_absent {A} (p : A -> bool) (l : list A) :
  existsb p l = false -> List.find p l = None.
Proof.
  induction l as [|a r IH]; cbn [existsb List.find]; [reflexivity|].
  destruct (p a); cbn [orb]; [discriminate|exact IH].
Qed.

Lemma find_app_new {A} (p : A -> bool) (l : list A) (new : A) :
  existsb p l = false -> p new = true -> List.find p (l ++ [new]) = Some new.
Proof.
  induction l as [|a r IH]; cbn [existsb List.find app].
  - intros _ ->. reflexivity.
  - destruct (p a); cbn [orb]; [discriminate|exact IH].
Qed.

Lemma find_insert_first {A} (p : A -> bool) (l : list A) (i : nat) (new : A) :
  findIndex p l = Some i -> p new = true -> List.find p (<[i := new]> l) = Some new.
Proof.
  revert i. induction l as [|a r IH]; intros i; cbn [findIndex]; [discriminate|].
  destruct (p a) eqn:Hp.
  - intros [= <-] Hn. change (<[O := new]> (a :: r)) with (new :: r).
    cbn [List.find]. now rewrite Hn.
  - destruct (findIndex p r) as [k|] eqn:Hk; cbn [option_map]; [|discriminate].
    intros [= <-] Hn. change (<[S k := new]> (a :: r)) with (a :: <[k := new]> r).
    cbn [List.find]. rewrite Hp. now apply IH.
Qed.

Section PreviewAndAccrual.
Variable ext : Externals.
Variable rejects : Call -> bool.

(** X14. The preview predicts the accrual: on the same spreadsheet and for
    the same request, when the accrual writes a record the preview computes
    (and does not write) a statement with the same key, due date, previous
    balance, charges, interests, payments, statement balance, bonifiable
    interest, installment balance, rate and payment made; its interests are
    the rounded sum of the interest on the balance and the carry-over of its
    breakdown.  The two agree on [periodDays] too when the statement date is
    a plain calendar day ([dateOnly] leaves it as it is). *)
Theorem preview_predicts_accrual (today : Date) (id : string) (options : Options)
    (s : Sheets) (debt : Debt.t) (sd : Date) :
  (forall c, c <> CallSumPaymentsCarryOver -> rejects c = false) ->
  List.find (fun r => String.eqb (Debt.id r) id) (debtsSheet s) = Some debt ->
  Debt.active debt = true ->
  resolveStatementDate (Debt.cutOffDay debt)
    (match dateParam options with Some d => d | None => today end)
    (periodParam options) = inr sd ->
  existsb (matchesKey id (isoDay ext sd)) (creditHistorySheet s)
  && negb (recompute options) = false ->
  exists rec s' data onBalance bonifiable carryOver chargesDetail paymentsDetail,
    accrueDebtInternal ext rejects today id options s
    = (Returned (Created (id ++ "|" ++ isoDay ext sd)%string rec (isoDay ext sd)), s')
    /\ getDebtStatementPreview ext rejects today id options s
       = (Returned (PreviewComputed data onBalance bonifiable carryOver
                      chargesDetail paymentsDetail), s)
    /\ CreditHistory.debtId data = CreditHistory.debtId rec
    /\ CreditHistory.statementDate data = CreditHistory.statementDate rec
    /\ CreditHistory.dueDate data = CreditHistory.dueDate rec
    /\ CreditHistory.previousBalance data = CreditHistory.previousBalance rec
    /\ CreditHistory.charges data = CreditHistory.charges rec
    /\ CreditHistory.interests data = CreditHistory.interests rec
    /\ CreditHistory.payments data = CreditHistory.payments rec
    /\ CreditHistory.statementBalance data = CreditHistory.statementBalance rec
    /\ CreditHistory.bonifiableInterest data = CreditHistory.bonifiableInterest rec
    /\ CreditHistory.installmentBalance data = CreditHistory.installmentBalance rec
    /\ CreditHistory.annualEffectiveRate data = CreditHistory.annualEffectiveRate rec
    /\ CreditHistory.paymentMade data = CreditHistory.paymentMade rec
    /\ CreditHistory.interests data = toFixed2 (onBalance + carryOver)%Q
    /\ CreditHistory.bonifiableInterest data = toFixed2 bonifiable
    /\ (dateOnly sd = sd -> data = rec).
Proof.
  intros Hok Hfind Hactive Hsd Hskip.
  assert (Hnew : (if recompute options then None
                  else List.find (matchesKey id (isoDay ext sd)) (creditHistorySheet s))
                 = None).
  { destruct (recompute options); [reflexivity|].
    apply find_absent. now rewrite andb_true_r in Hskip. }
  do 8 eexists.
  split; [exact (accrue_run ext rejects today id options s debt sd Hok Hfind Hactive Hsd Hskip)|].
  split; [exact (preview_run ext rejects today id options s debt sd Hok Hfind Hactive Hsd Hnew)|].
  repeat (split; [reflexivity|]).
  intros Hd. rewrite Hd. reflexivity.
Qed.

(** X15. What the accrual writes, the preview reads back: after a run that
    wrote the record of a statement, the preview of the same request
    without recompute answers with that very record, marked as cached, and
    computes nothing. *)
Theorem accrual_then_preview_is_cached (today : Date) (id : string) (options : Options)
    (s s' : Sheets) (key sdStr : string) (rec : CreditHistory.t) :
  accrueDebtInternal ext rejects today id options s
    = (Returned (Created key rec sdStr), s') ->
  rejects CallGetDebts = false ->
  rejects CallGetCreditHistoryObjects = false ->
  getDebtStatementPreview ext rejects today id
    (mkOptions false (dateParam options) (periodParam options)) s'
  = (Returned (PreviewCached rec), s').
Proof.
  intros Hrun R1 R2. apply accrue_outcome in Hrun. cbv zeta in Hrun.
  destruct Hrun as [(_ & Hleft)|(debt & sd & rec' & h' & Hd & Ha & Hsd & Hr1 & Hr2 & _ & _ & Hw & Hend)].
  { exfalso.
    destruct Hleft as [(c & _ & _ & H)|[(_ & H)|[(d & _ & _ & H)|[(d & e & _ & _ & _ & H)
                      |(d & sd & _ & _ & _ & _ & _ & H)]]]]; discriminate H. }
  destruct Hend as [(H & _)|(b & H & ->)]; [discriminate H|].
  injection H as -> <- ->.
  assert (Hkey : matchesKey id (isoDay ext sd) rec = true)
    by (apply matchesKey_eq; auto).
  assert (Hread : List.find (matchesKey id (isoDay ext sd)) h' = Some rec).
  { destruct Hw as [(Hno & ->)|(_ & i & Hi & ->)].
    - now apply find_app_new.
    - now apply find_insert_first. }
  unfold getDebtStatementPreview. unfold bind at 1. unfold awaitRead at 1.
  rewrite R1. cbn [debtsSheet dateParam periodParam recompute].
  rewrite (find_setBalance id b _ debt Hd). cbn [Debt.active Debt.cutOffDay Debt.dueDay].
  rewrite Ha. cbn [negb]. rewrite Hsd.
  unfold bind at 1. unfold awaitRead at 1. rewrite R2.
  cbn [creditHistorySheet]. rewrite Hread. reflexivity.
Qed.
End PreviewAndAccrual.

(* ===================================================================== *)
(** ** The events of a period                                            *)
(* ===================================================================== *)

Lemma sumQ_nonneg (l : list Q) : Forall (fun x => (0 <= x)%Q) l -> (0 <= sumQ l)%Q.
Proof.
  induction 1 as [|x r Hx _ IH]; [unfold sumQ; cbn; lra|].
  rewrite sumQ_cons. lra.
Qed.

Section PeriodEvents.
Variable ext : Externals.
Variable debtId : string.
Variables startPeriodDateOnly statementDateOnly : Date.

Lemma eventOf_Some (e : Expense.t) (ev : Event.t) :
  eventOf ext debtId startPeriodDateOnly statementDateOnly e = Some ev ->
  ofDebt debtId e = true
  /\ parseDateString ext (trim (Expense.date e)) = Some (Event.date ev)
  /\ inPeriod startPeriodDateOnly statementDateOnly (Event.date ev) = true
  /\ Expense.amount e = Some (Event.amount ev) /\ (0 < Event.amount ev)%Q
  /\ toLowerCase (Expense.entryType e) = kindName (Event.kind ev).
Proof.
  unfold eventOf. destruct (ofDebt debtId e); cbn [negb]; [|discriminate].
  destruct (parseDateString ext _) as [d|]; [|discriminate].
  destruct (inPeriod _ _ d) eqn:Hin; [|discriminate]. cbv zeta.
  destruct (Qle_bool (amountOf e) 0) eqn:Hle; [discriminate|].
  assert (Hpos : (0 < amountOf e)%Q).
  { apply Qnot_le_lt. intros H. apply Qle_bool_iff in H. congruence. }
  assert (Ham : Expense.amount e = Some (amountOf e)).
  { unfold amountOf in *. destruct (Expense.amount e); [reflexivity|lra]. }
  unfold entryTypeOf.
  destruct (truthy (Expense.entryType e)).
  - destruct (String.eqb_spec (toLowerCase (Expense.entryType e)) "charge") as [Hc|_].
    + intros [= <-]. cbn [Event.date Event.amount Event.kind kindName]. auto 7.
    + destruct (String.eqb_spec (toLowerCase (Expense.entryType e)) "payment") as [Hp|_];
        [|discriminate].
      intros [= <-]. cbn [Event.date Event.amount Event.kind kindName]. auto 7.
  - cbn. discriminate.
Qed.

Lemma gatherEvents_from (allExpenses : list Expense.t) (ev : Event.t) :
  In ev (gatherEvents ext debtId startPeriodDateOnly statementDateOnly allExpenses) ->
  exists e, In e allExpenses
            /\ eventOf ext debtId startPeriodDateOnly statementDateOnly e = Some ev.
Proof.
  induction allExpenses as [|e r IH]; cbn [gatherEvents]; [intros []|].
  destruct (eventOf ext debtId startPeriodDateOnly statementDateOnly e) as [ev'|] eqn:He.
  - intros [<-|H]; [exists e; split; [now left|exact He]|].
    destruct (IH H) as (e' & Hin & He'). exists e'. split; [now right|exact He'].
  - intros H. destruct (IH H) as (e' & Hin & He'). exists e'. split; [now right|exact He'].
Qed.

Lemma gatherEvents_length (allExpenses : list Expense.t) :
  (length (gatherEvents ext debtId startPeriodDateOnly statementDateOnly allExpenses)
   <= length allExpenses)%nat.
Proof.
  induction allExpenses as [|e r IH]; cbn [gatherEvents length]; [lia|].
  destruct (eventOf _ _ _ _ e); cbn [length]; lia.
Qed.

(** X16. What the gathering loop lets through: every event handed to the
    interest calculator comes from an expense of the debt whose date parses
    to a day inside [startPeriod, statementDate), whose amount is positive
    and whose lower-cased entry type is the kind of the event.  There are
    no more events than expenses, and the charges and the payments of the
    statement are never negative. *)
Theorem period_events_are_positive_and_in_window (allExpenses : list Expense.t) :
  let events := periodEvents ext debtId startPeriodDateOnly statementDateOnly allExpenses in
  (forall ev, In ev events ->
     (0 < Event.amount ev)%Q
     /\ inPeriod startPeriodDateOnly statementDateOnly (Event.date ev) = true
     /\ exists e, In e allExpenses
          /\ Expense.debtId e = debtId
          /\ parseDateString ext (trim (Expense.date e)) = Some (Event.date ev)
          /\ Expense.amount e = Some (Event.amount ev)
          /\ toLowerCase (Expense.entryType e) = kindName (Event.kind ev))
  /\ (length events <= length allExpenses)%nat
  /\ (0 <= sumKind charge events)%Q
  /\ (0 <= sumKind payment events)%Q.
Proof.
  cbv zeta. unfold periodEvents.
  set (g := gatherEvents ext debtId startPeriodDateOnly statementDateOnly allExpenses).
  assert (Hall : forall ev, In ev (sortEvents g) ->
     (0 < Event.amount ev)%Q
     /\ inPeriod startPeriodDateOnly statementDateOnly (Event.date ev) = true
     /\ exists e, In e allExpenses
          /\ Expense.debtId e = debtId
          /\ parseDateString ext (trim (Expense.date e)) = Some (Event.date ev)
          /\ Expense.amount e = Some (Event.amount ev)
          /\ toLowerCase (Expense.entryType e) = kindName (Event.kind ev)).
  { intros ev Hin.
    apply (Permutation_in _ (sortEvents_perm g)) in Hin.
    destruct (gatherEvents_from _ _ Hin) as (e & He & Hev).
    destruct (eventOf_Some _ _ Hev) as (Hd & Hp & Hw & Ha & Hpos & Hk).
    split; [exact Hpos|]. split; [exact Hw|].
    exists e. repeat split; auto.
    unfold ofDebt in Hd. apply andb_true_iff in Hd as [Hd _].
    apply andb_true_iff in Hd as [_ Hd]. now apply String.eqb_eq in Hd. }
  split; [exact Hall|]. split.
  - rewrite (Permutation_length (sortEvents_perm g)). apply gatherEvents_length.
  - assert (Hk : forall k, (0 <= sumKind k (sortEvents g))%Q).
    { intros k. unfold sumKind. apply sumQ_nonneg. apply List.Forall_forall.
      intros x Hx. apply in_map_iff in Hx as (ev & <- & Hev).
      apply filter_In in Hev as [Hev _]. destruct (Hall ev Hev) as [Hpos _]. lra. }
    split; apply Hk.
Qed.
End PeriodEvents.

(* ===================================================================== *)
(** ** The previous statement                                            *)
(* ===================================================================== *)

Lemma ascii_compare_lt_trans (a b c : ascii) :
  Ascii.compare a b = Lt -> Ascii.compare b c = Lt -> Ascii.compare a c = Lt.
Proof.
  unfold Ascii.compare. rewrite !N.compare_lt_iff. lia.
Qed.

Lemma ascii_compare_eq (a b : ascii) : Ascii.compare a b = Eq -> a = b.
Proof.
  unfold Ascii.compare. intros H. apply N.compare_eq in H.
  rewrite <- (ascii_N_embedding a), <- (ascii_N_embedding b). now rewrite H.
Qed.

Lemma string_compare_lt_trans (a b c : string) :
  String.compare a b = Lt -> String.compare b c = Lt -> String.compare a c = Lt.
Proof.
  revert b c. induction a as [|x a IH]; intros [|y b] [|z c]; cbn [String.compare];
    try discriminate; try reflexivity.
  destruct (Ascii.compare x y) eqn:Hxy; [|intros _|discriminate].
  - apply ascii_compare_eq in Hxy as ->.
    destruct (Ascii.compare y z); [apply IH|reflexivity|discriminate].
  - destruct (Ascii.compare y z) eqn:Hyz; [|intros _|discriminate].
    + apply ascii_compare_eq in Hyz as <-. now rewrite Hxy.
    + now rewrite (ascii_compare_lt_trans _ _ _ Hxy Hyz).
Qed.

Lemma string_ltb_trans_le (a b c : string) :
  String.ltb a b = true -> String.ltb c b = false -> String.ltb a c = true.
Proof.
  unfold String.ltb. intros Hab Hcb.
  destruct (String.compare a b) eqn:E1; try discriminate.
  destruct (String.compare c b) eqn:E2; try discriminate.
  - apply String.compare_eq_iff in E2 as ->. now rewrite E1.
  - rewrite String.compare_antisym in E2.
    destruct (String.compare b c) eqn:E3; try discriminate.
    now rewrite (string_compare_lt_trans _ _ _ E1 E3).
Qed.

Lemma string_ltb_asym (a b : string) : String.ltb a b = true -> String.ltb b a = false.
Proof.
  unfold String.ltb. rewrite (String.compare_antisym a b).
  destruct (String.compare b a); cbn; congruence.
Qed.

Lemma latestStatement_max (l : list CreditHistory.t) (top : CreditHistory.t) :
  latestStatement l = Some top ->
  In top l
  /\ forall h, In h l ->
       String.ltb (CreditHistory.statementDate top) (CreditHistory.statementDate h) = false.
Proof.
  revert top. induction l as [|h r IH]; intros top; cbn [latestStatement]; [discriminate|].
  destruct (latestStatement r) as [h'|] eqn:Hr.
  - destruct (IH h' eq_refl) as [Hin Hmax].
    destruct (String.ltb (CreditHistory.statementDate h') (CreditHistory.statementDate h))
      eqn:Hlt; intros [= <-].
    + split; [now left|]. intros x [<-|Hx]; [apply string_ltb_irrefl|].
      destruct (String.ltb (CreditHistory.statementDate h) (CreditHistory.statementDate x))
        eqn:Hhx; [|reflexivity].
      specialize (Hmax x Hx).
      rewrite (string_ltb_trans_le _ _ _ Hlt (string_ltb_asym _ _ Hhx)) in Hmax.
      discriminate.
    + split; [now right|]. intros x [<-|Hx]; [exact Hlt|now apply Hmax].
  - intros [= <-]. destruct r as [|x r']; [|cbn in Hr; destruct (latestStatement r');
      [destruct (String.ltb _ _)|]; discriminate].
    split; [now left|]. intros x [<-|[]]. apply string_ltb_irrefl.
Qed.

Lemma latestStatement_None (l : list CreditHistory.t) :
  latestStatement l = None <-> l = [].
Proof.
  split; [|intros ->; reflexivity].
  destruct l as [|h r]; [reflexivity|]. cbn [latestStatement].
  destruct (latestStatement r); [destruct (String.ltb _ _)|]; discriminate.
Qed.

(** X17. Where the previous balance comes from: the statement chosen as the
    previous one is a record of the ledger, of this debt, dated before the
    statement date, and no other such record is dated after it; its
    statement balance, when it is a number, is the previous balance.  When
    the ledger holds no earlier record of the debt (or the latest has no
    numeric balance) the previous balance is the balance of the Debts row,
    0 when that is not a number. *)
Theorem previous_balance_is_of_latest_earlier_statement (debtId statementDateStr : string)
    (history : list CreditHistory.t) (debt : Debt.t) :
  let earlier h := String.eqb (CreditHistory.debtId h) debtId
                   && truthy (CreditHistory.statementDate h)
                   && String.ltb (CreditHistory.statementDate h) statementDateStr in
  let last := latestStatement (priorStatements debtId statementDateStr history) in
  match last with
  | Some l =>
      In l history /\ earlier l = true
      /\ (forall h, In h history -> earlier h = true ->
            String.ltb (CreditHistory.statementDate l) (CreditHistory.statementDate h) = false)
      /\ previousBalanceOf last debt
         = match CreditHistory.statementBalance l with
           | Some b => b
           | None => default 0%Q (Debt.balance debt)
           end
  | None =>
      (forall h, In h history -> earlier h = false)
      /\ previousBalanceOf last debt = default 0%Q (Debt.balance debt)
  end.
Proof.
  cbv zeta. unfold priorStatements.
  destruct (latestStatement _) as [l|] eqn:Hl.
  - destruct (latestStatement_max _ _ Hl) as [Hin Hmax].
    apply filter_In in Hin as [Hin He].
    split; [exact Hin|]. split; [exact He|]. split.
    + intros h Hh Heh. apply Hmax. apply filter_In. auto.
    + unfold previousBalanceOf. destruct (CreditHistory.statementBalance l); [reflexivity|].
      destruct (Debt.balance debt); reflexivity.
  - apply latestStatement_None in Hl. split.
    + intros h Hh. destruct (_ && _) eqn:E; [|reflexivity].
      assert (Hf : In h (List.filter
                           (fun h => String.eqb (CreditHistory.debtId h) debtId
                                     && truthy (CreditHistory.statementDate h)
                                     && String.ltb (CreditHistory.statementDate h)
                                          statementDateStr) history))
        by (apply filter_In; auto).
      rewrite Hl in Hf. destruct Hf.
    + unfold previousBalanceOf. destruct (Debt.balance debt); reflexivity.
Qed.

(* ===================================================================== *)
(** ** The nightly batch                                                 *)
(* ===================================================================== *)

Section BatchAccounting.
Variable ext : Externals.
Variable today : Date.

Lemma processDebt_account (t : Tenant) (b : Batch) (s : Sheets) (debt : Debt.t) :
  let b' := fst (processDebt ext today t (b, s) debt) in
  accrualLog b'
  = accrualLog b ++ (if dueToday today debt
                     then [mkLog (userId (user t)) (Debt.id debt)
                                 (default 0 (Debt.cutOffDay debt)) (getDate today)]
                     else [])
  /\ totalCounted b' = (totalCounted b + if dueToday today debt then 1 else 0)%nat
  /\ sheetsAfter b' = sheetsAfter b.
Proof.
  cbv zeta. unfold processDebt, totalCounted.
  destruct (dueToday today debt); cbn [negb fst].
  - destruct (accrueDebtInternal _ _ _ _ _ s) as [[r|e] s'];
      [destruct (skipped r)|];
      cbn [fst accrualLog totalProcessed totalSkipped totalErrors sheetsAfter];
      repeat split; lia.
  - rewrite app_nil_r. repeat split; lia.
Qed.

Lemma processDebts_account (t : Tenant) (debts : list Debt.t) (b : Batch) (s : Sheets) :
  let b' := fst (fold_left (processDebt ext today t) debts (b, s)) in
  accrualLog b'
  = accrualLog b ++ map (fun d => mkLog (userId (user t)) (Debt.id d)
                                        (default 0 (Debt.cutOffDay d)) (getDate today))
                        (List.filter (dueToday today) debts)
  /\ totalCounted b' = (totalCounted b + length (List.filter (dueToday today) debts))%nat
  /\ sheetsAfter b' = sheetsAfter b.
Proof.
  cbv zeta. revert b s. induction debts as [|d r IH]; intros b s; cbn [fold_left List.filter].
  - cbn [map length fst]. rewrite app_nil_r. repeat split; lia.
  - destruct (processDebt_account t b s d) as (H1 & H2 & H3).
    destruct (processDebt ext today t (b, s) d) as [b1 s1]. cbn [fst] in H1, H2, H3.
    destruct (IH b1 s1) as (I1 & I2 & I3). rewrite I1, I2, I3, H1, H2, H3.
    destruct (dueToday today d); cbn [map length app].
    + rewrite <- app_assoc. cbn [app]. repeat split; lia.
    + rewrite app_nil_r. repeat split; lia.
Qed.

Lemma processUser_account (b : Batch) (t : Tenant) :
  let b' := processUser ext today b t in
  map (fun e => (logUserId e, logDebtId e)) (accrualLog b')
  = map (fun e => (logUserId e, logDebtId e)) (accrualLog b)
    ++ (if reached t && negb (tenantRejects t CallGetDebtsObjects)
        then map (fun d => (userId (user t), Debt.id d)) (dueDebts today t)
        else [])
  /\ totalCounted b'
     = (totalCounted b
        + (if reached t && negb (tenantRejects t CallGetDebtsObjects)
           then length (dueDebts today t) else 0)
        + (if reached t && tenantRejects t CallGetDebtsObjects then 1 else 0))%nat.
Proof.
  cbv zeta. unfold processUser, reached.
  destruct (truthy (sheetId (user t))); cbn [negb orb andb];
    [|rewrite app_nil_r; unfold closeTenant, totalCounted; cbn; split; [reflexivity|lia]].
  destruct (truthy (accessToken (user t))); cbn [negb orb andb];
    [|rewrite app_nil_r; unfold closeTenant, totalCounted; cbn; split; [reflexivity|lia]].
  destruct (credentialsUsable t); cbn [negb orb andb];
    [|rewrite app_nil_r; unfold closeTenant, totalCounted; cbn; split; [reflexivity|lia]].
  destruct (tenantRejects t CallGetDebtsObjects); cbn [negb].
  - rewrite app_nil_r. unfold closeTenant, totalCounted. cbn. split; [reflexivity|lia].
  - destruct (processDebts_account t (debtsSheet (tenantSheets t)) b (tenantSheets t))
      as (H1 & H2 & _).
    destruct (fold_left _ _ _) as [b' s']. cbn [fst] in H1, H2.
    unfold closeTenant, totalCounted in *.
    cbn [accrualLog totalProcessed totalSkipped totalErrors].
    rewrite H1, map_app, !map_map. cbn [logUserId logDebtId].
    unfold dueDebts. split; [reflexivity|lia].
Qed.

Lemma processUsers_account (users : list Tenant) (b : Batch) :
  let b' := fold_left (processUser ext today) users b in
  map (fun e => (logUserId e, logDebtId e)) (accrualLog b')
  = map (fun e => (logUserId e, logDebtId e)) (accrualLog b)
    ++ flat_map (fun t => if reached t && negb (tenantRejects t CallGetDebtsObjects)
                          then map (fun d => (userId (user t), Debt.id d)) (dueDebts today t)
                          else []) users
  /\ totalCounted b'
     = (totalCounted b
        + length (flat_map (fun t => if reached t && negb (tenantRejects t CallGetDebtsObjects)
                                     then dueDebts today t else []) users)
        + length (List.filter (fun t => reached t && tenantRejects t CallGetDebtsObjects)
                              users))%nat.
Proof.
  cbv zeta. revert b. induction users as [|t r IH]; intros b;
    cbn [fold_left flat_map List.filter length].
  - rewrite app_nil_r. split; [reflexivity|lia].
  - destruct (processUser_account b t) as [H1 H2].
    destruct (IH (processUser ext today b t)) as [I1 I2].
    rewrite I1, I2, H1, H2, <- app_assoc, length_app.
    split; [reflexivity|].
    destruct (reached t); destruct (tenantRejects t CallGetDebtsObjects);
      cbn [andb negb length]; lia.
Qed.

(** X18. The books of a run balance.  The accrual log lists, in the order
    of the users and of their sheets, exactly the due debts (active, cutoff
    day equal to today's day of month) of the tenants that were reached and
    whose debts could be loaded; every attempt is counted once, as
    processed, skipped or error; and the only other thing counted is one
    error for each reached tenant whose debts could not be loaded. *)
Theorem batch_counts_every_attempt_once (users : list Tenant) :
  let b := processDebtAccruals ext today users in
  let loaded t := reached t && negb (tenantRejects t CallGetDebtsObjects) in
  let failed t := reached t && tenantRejects t CallGetDebtsObjects in
  map (fun e => (logUserId e, logDebtId e)) (accrualLog b)
  = flat_map (fun t => if loaded t
                       then map (fun d => (userId (user t), Debt.id d)) (dueDebts today t)
                       else []) users
  /\ (totalProcessed b + totalSkipped b + totalErrors b
      = length (accrualLog b) + length (List.filter failed users))%nat
  /\ length (accrualLog b)
     = length (flat_map (fun t => if loaded t then dueDebts today t else []) users).
Proof.
  cbv zeta. unfold processDebtAccruals.
  destruct (processUsers_account users emptyBatch) as [H1 H2].
  cbn [emptyBatch accrualLog map app] in H1. unfold totalCounted at 2 in H2.
  cbn [emptyBatch totalProcessed totalSkipped totalErrors] in H2.
  assert (Hlen : length (accrualLog (fold_left (processUser ext today) users emptyBatch))
                 = length (flat_map (fun t => if reached t
                                                   && negb (tenantRejects t CallGetDebtsObjects)
                                              then dueDebts today t else []) users)).
  { rewrite <- (length_map (fun e => (logUserId e, logDebtId e))), H1.
    clear. induction users as [|t r IH]; [reflexivity|].
    cbn [flat_map]. rewrite !length_app, IH.
    destruct (reached t && negb (tenantRejects t CallGetDebtsObjects));
      [now rewrite length_map|reflexivity]. }
  split; [exact H1|]. split; [|exact Hlen].
  rewrite Hlen. unfold totalCounted in H2. lia.
Qed.
End BatchAccounting.

Lemma existsb_insert_same {A} (p : A -> bool) (l : list A) (i : nat) (old new : A) :
  l !! i = Some old -> p new = p old -> existsb p (<[i := new]> l) = existsb p l.
Proof.
  revert i. induction l as [|a r IH]; intros i Hi Hp; [discriminate|].
  destruct i as [|i]; cbn in Hi.
  - injection Hi as ->. change (<[O := new]> (old :: r)) with (new :: r).
    cbn [existsb]. now rewrite Hp.
  - change (<[S i := new]> (a :: r)) with (a :: <[i := new]> r). cbn [existsb].
    now rewrite (IH i Hi Hp).
Qed.

Lemma find_setBalance_other (id debtId : string) (b : Q) (rows : list Debt.t) (debt' : Debt.t) :
  List.find (fun r => String.eqb (Debt.id r) id) (setBalance debtId b rows) = Some debt' ->
  exists debt, List.find (fun r => String.eqb (Debt.id r) id) rows = Some debt
               /\ Debt.active debt' = Debt.active debt
               /\ Debt.cutOffDay debt' = Debt.cutOffDay debt.
Proof.
  induction rows as [|r rest IH]; cbn [setBalance List.find]; [discriminate|].
  destruct (String.eqb (Debt.id r) debtId); cbn [List.find Debt.id].
  - destruct (String.eqb (Debt.id r) id).
    + intros [= <-]. exists r. auto.
    + intros H. exists debt'. auto.
  - destruct (String.eqb (Debt.id r) id).
    + intros [= <-]. exists r. auto.
    + exact IH.
Qed.

Lemma find_present (id : string) (rows : list Debt.t) (d : Debt.t) :
  In d rows -> Debt.id d = id ->
  exists debt, List.find (fun r => String.eqb (Debt.id r) id) rows = Some debt.
Proof.
  induction rows as [|r rest IH]; [intros []|]. cbn [List.find].
  intros [->|Hin] Hid.
  - rewrite Hid, String.eqb_refl. eauto.
  - destruct (String.eqb (Debt.id r) id); eauto.
Qed.

Lemma resolveStatementDate_of_base (cutOffDay : option Z) (baseDate : Date) :
  exists sd, resolveStatementDate cutOffDay baseDate None = inr sd.
Proof. unfold resolveStatementDate. eauto. Qed.

Section BatchTenants.
Variable ext : Externals.
Variable today : Date.

Lemma accrue_establishes (rejects : Call -> bool) (id : string) (s s' : Sheets)
    (o : Outcome AccrueResult) :
  (forall c, rejects c = false) ->
  accrueDebtInternal ext rejects today id (mkOptions false None None) s = (o, s') ->
  accruedToday ext today s' id.
Proof.
  intros Hok Hrun. apply accrue_outcome in Hrun. cbv zeta in Hrun.
  cbn [dateParam periodParam recompute] in Hrun.
  intros debt' sd' Hf' Ha' Hsd'.
  destruct Hrun as [(-> & Hleft)|(debt & sd & rec & h' & Hd & Ha & Hsd & Hr1 & Hr2 & _ & _ & Hw & Hend)].
  - destruct Hleft as [(c & _ & Hc & _)|[(Hn & _)|[(d & Hd & Hna & _)|[(d & e & Hd & _ & He & _)
                      |(d & sd & Hd & _ & Hsd & Hex & _)]]]].
    + rewrite Hok in Hc. discriminate.
    + congruence.
    + rewrite Hd in Hf'. injection Hf' as <-. congruence.
    + rewrite Hd in Hf'. injection Hf' as <-. congruence.
    + rewrite Hd in Hf'. injection Hf' as <-. rewrite Hsd in Hsd'. injection Hsd' as <-.
      exact Hex.
  - destruct Hend as [(_ & Hc & _)|(b & _ & ->)]; [rewrite Hok in Hc; discriminate|].
    cbn [debtsSheet creditHistorySheet] in *.
    rewrite (find_setBalance id b _ debt Hd) in Hf'. injection Hf' as <-.
    cbn [Debt.cutOffDay] in Hsd'. rewrite Hsd in Hsd'. injection Hsd' as <-.
    assert (Hkey : matchesKey id (isoDay ext sd) rec = true) by (apply matchesKey_eq; auto).
    destruct Hw as [(_ & ->)|(_ & i & Hi & ->)].
    + rewrite existsb_app. cbn [existsb]. rewrite Hkey. now rewrite orb_true_r.
    + destruct (findIndex_lookup _ _ _ Hi) as (old & Hold & _).
      now apply (existsb_insert _ _ _ old).
Qed.

Lemma accrue_keeps (rejects : Call -> bool) (id id2 : string) (options : Options)
    (s s' : Sheets) (o : Outcome AccrueResult) :
  accrueDebtInternal ext rejects today id2 options s = (o, s') ->
  accruedToday ext today s id -> accruedToday ext today s' id.
Proof.
  intros Hrun Hdone. apply accrue_outcome in Hrun. cbv zeta in Hrun.
  destruct Hrun as [(-> & _)|(debt & sd & rec & h' & Hd & Ha & Hsd & Hr1 & Hr2 & _ & _ & Hw & Hend)];
    [exact Hdone|].
  assert (Hgrow : forall p, (forall old, matchesKey id2 (isoDay ext sd) old = true ->
                                         p rec = p old) ->
                            existsb p (creditHistorySheet s) = true -> existsb p h' = true).
  { intros p Hp Hex. destruct Hw as [(_ & ->)|(_ & i & Hi & ->)].
    - rewrite existsb_app, Hex. reflexivity.
    - destruct (findIndex_lookup _ _ _ Hi) as (old & Hold & Hkey).
      rewrite (existsb_insert_same _ _ _ old); auto. }
  assert (Hp : forall k old, matchesKey id2 (isoDay ext sd) old = true ->
                             matchesKey id k rec = matchesKey id k old).
  { intros k old Hold. apply matchesKey_eq in Hold as [K1 K2].
    unfold matchesKey. now rewrite Hr1, Hr2, K1, K2. }
  intros debt' sd' Hf' Ha' Hsd'.
  destruct Hend as [(_ & _ & ->)|(b & _ & ->)]; cbn [debtsSheet creditHistorySheet] in *.
  - apply Hgrow; [apply Hp|]. now apply (Hdone debt').
  - destruct (find_setBalance_other _ _ _ _ _ Hf') as (d0 & Hf0 & E1 & E2).
    apply Hgrow; [apply Hp|]. apply (Hdone d0); [exact Hf0|congruence|congruence].
Qed.

Lemma processDebts_state (t : Tenant) (debts : list Debt.t) (b : Batch) (s : Sheets) :
  (forall c, tenantRejects t c = false) ->
  let s' := snd (fold_left (processDebt ext today t) debts (b, s)) in
  (forall d, In d debts -> dueToday today d = true -> accruedToday ext today s' (Debt.id d))
  /\ (forall id, accruedToday ext today s id -> accruedToday ext today s' id).
Proof.
  intros Hok. cbv zeta. revert b s.
  induction debts as [|d r IH]; intros b s; cbn [fold_left].
  - split; [intros d []|auto].
  - assert (Hstep : accruedToday ext today (snd (processDebt ext today t (b, s) d)) (Debt.id d)
                    \/ dueToday today d = false).
    { unfold processDebt. destruct (dueToday today d); cbn [negb]; [left|now right].
      destruct (accrueDebtInternal _ _ _ _ _ s) as [[r0|e] s1] eqn:Hrun;
        [destruct (skipped r0)|]; cbn [snd];
        exact (accrue_establishes _ _ _ _ _ Hok Hrun). }
    assert (Hkeep : forall id, accruedToday ext today s id ->
                               accruedToday ext today (snd (processDebt ext today t (b, s) d)) id).
    { intros id Hid. unfold processDebt. destruct (dueToday today d); cbn [negb]; [|exact Hid].
      destruct (accrueDebtInternal _ _ _ _ _ s) as [[r0|e] s1] eqn:Hrun;
        [destruct (skipped r0)|]; cbn [snd];
        exact (accrue_keeps _ _ _ _ _ _ _ Hrun Hid). }
    destruct (processDebt ext today t (b, s) d) as [b1 s1]. cbn [snd] in Hstep, Hkeep.
    destruct (IH b1 s1) as [I1 I2]. split.
    + intros x [<-|Hx] Hdue; [|now apply I1].
      destruct Hstep as [H|H]; [now apply I2|congruence].
    + intros id Hid. apply I2, Hkeep, Hid.
Qed.

Lemma processDebts_frame (t : Tenant) (debts : list Debt.t) (b : Batch) (s : Sheets) :
  let s' := snd (fold_left (processDebt ext today t) debts (b, s)) in
  expensesSheet s' = expensesSheet s
  /\ map (fun r => (Debt.id r, Debt.dueDay r, Debt.cutOffDay r, Debt.interesEfectivo r,
                    Debt.active r)) (debtsSheet s')
     = map (fun r => (Debt.id r, Debt.dueDay r, Debt.cutOffDay r, Debt.interesEfectivo r,
                      Debt.active r)) (debtsSheet s)
  /\ (List.filter (dueToday today) debts = [] -> s' = s).
Proof.
  cbv zeta. revert b s. induction debts as [|d r IH]; intros b s; cbn [fold_left List.filter].
  - auto.
  - assert (Hstep : let s1 := snd (processDebt ext today t (b, s) d) in
              expensesSheet s1 = expensesSheet s
              /\ map (fun r => (Debt.id r, Debt.dueDay r, Debt.cutOffDay r,
                                Debt.interesEfectivo r, Debt.active r)) (debtsSheet s1)
                 = map (fun r => (Debt.id r, Debt.dueDay r, Debt.cutOffDay r,
                                  Debt.interesEfectivo r, Debt.active r)) (debtsSheet s)
              /\ (dueToday today d = false -> s1 = s)).
    { cbv zeta. unfold processDebt. destruct (dueToday today d); cbn [negb]; [|auto].
      destruct (accrueDebtInternal _ _ _ _ _ s) as [[r0|e] s1] eqn:Hrun;
        [destruct (skipped r0)|]; cbn [snd];
        destruct (accrue_frame _ _ _ _ _ _ _ _ Hrun) as (F1 & F2);
        (split; [exact F1|split; [exact F2|discriminate]]). }
    cbv zeta in Hstep.
    destruct (processDebt ext today t (b, s) d) as [b1 s1]. cbn [snd] in Hstep.
    destruct Hstep as (F1 & F2 & F3). destruct (IH b1 s1) as (I1 & I2 & I3).
    split; [congruence|]. split; [congruence|].
    destruct (dueToday today d); [discriminate|].
    intros Hnone. rewrite (I3 Hnone). now apply F3.
Qed.

Lemma processDebts_sheets (t : Tenant) (debts : list Debt.t) (b1 b2 : Batch) (s : Sheets) :
  snd (fold_left (processDebt ext today t) debts (b1, s))
  = snd (fold_left (processDebt ext today t) debts (b2, s)).
Proof.
  revert b1 b2 s. induction debts as [|d r IH]; intros b1 b2 s; cbn [fold_left]; [reflexivity|].
  assert (Hs : snd (processDebt ext today t (b1, s) d) = snd (processDebt ext today t (b2, s) d)).
  { unfold processDebt. destruct (dueToday today d); cbn [negb]; [|reflexivity].
    destruct (accrueDebtInternal _ _ _ _ _ s) as [[r0|e] s1];
      [destruct (skipped r0)|]; reflexivity. }
  destruct (processDebt ext today t (b1, s) d) as [c1 s1].
  destruct (processDebt ext today t (b2, s) d) as [c2 s2].
  cbn [snd] in Hs. subst s2. apply IH.
Qed.

(** The spreadsheet of a tenant after the run has passed over it. *)
Lemma processUser_after (b : Batch) (t : Tenant) :
  sheetsAfter (processUser ext today b t)
  = sheetsAfter b
    ++ [if reached t && negb (tenantRejects t CallGetDebtsObjects)
        then snd (fold_left (processDebt ext today t) (debtsSheet (tenantSheets t))
                    (emptyBatch, tenantSheets t))
        else tenantSheets t].
Proof.
  unfold processUser, reached.
  destruct (truthy (sheetId (user t))); cbn [negb orb andb]; [|reflexivity].
  destruct (truthy (accessToken (user t))); cbn [negb orb andb]; [|reflexivity].
  destruct (credentialsUsable t); cbn [negb orb andb]; [|reflexivity].
  destruct (tenantRejects t CallGetDebtsObjects); cbn [negb]; [reflexivity|].
  rewrite (processDebts_sheets t _ emptyBatch b).
  destruct (processDebts_account ext today t (debtsSheet (tenantSheets t)) b (tenantSheets t))
    as (_ & _ & H3).
  destruct (fold_left _ _ (b, _)) as [b' s']. cbn [fst snd] in *.
  unfold closeTenant. cbn [sheetsAfter]. now rewrite H3.
Qed.

Lemma processUsers_after (users : list Tenant) (b : Batch) :
  sheetsAfter (fold_left (processUser ext today) users b)
  = sheetsAfter b
    ++ map (fun t => if reached t && negb (tenantRejects t CallGetDebtsObjects)
                     then snd (fold_left (processDebt ext today t) (debtsSheet (tenantSheets t))
                                 (emptyBatch, tenantSheets t))
                     else tenantSheets t) users.
Proof.
  revert b. induction users as [|t r IH]; intros b; cbn [fold_left map].
  - now rewrite app_nil_r.
  - rewrite IH, processUser_after, <- app_assoc. reflexivity.
Qed.

End BatchTenants.

Section BatchSecondRun.
Variable ext : Externals.
Variable today : Date.

Lemma accrue_when_accrued (rejects : Call -> bool) (s : Sheets) (d : Debt.t) :
  (forall c, rejects c = false) ->
  In d (debtsSheet s) ->
  accruedToday ext today s (Debt.id d) ->
  exists r, accrueDebtInternal ext rejects today (Debt.id d) (mkOptions false None None) s
            = (Returned r, s)
            /\ skipped r = true.
Proof.
  intros Hok Hin Hdone.
  destruct (find_present (Debt.id d) _ d Hin eq_refl) as (debt & Hfind).
  destruct (Debt.active debt) eqn:Ha.
  - destruct (resolveStatementDate_of_base (Debt.cutOffDay debt) today) as (sd & Hsd).
    exists (SkippedAlready (isoDay ext sd)). split; [|reflexivity].
    rewrite (accrue_existing_run ext rejects today (Debt.id d) (mkOptions false None None)
               s debt sd Hfind Ha Hsd
               (Hdone debt sd Hfind Ha Hsd) eq_refl).
    now rewrite !Hok.
  - exists SkippedInactive. split; [|reflexivity].
    unfold accrueDebtInternal. unfold bind at 1. unfold awaitRead at 1.
    rewrite Hok, Hfind, Ha. reflexivity.
Qed.

Lemma processDebts_again (t : Tenant) (s : Sheets) (debts : list Debt.t) (b : Batch) :
  (forall c, tenantRejects t c = false) ->
  (forall d, In d debts -> In d (debtsSheet s)) ->
  (forall d, In d debts -> dueToday today d = true -> accruedToday ext today s (Debt.id d)) ->
  let r := fold_left (processDebt ext today t) debts (b, s) in
  snd r = s
  /\ totalProcessed (fst r) = totalProcessed b
  /\ totalErrors (fst r) = totalErrors b
  /\ totalSkipped (fst r)
     = (totalSkipped b + length (List.filter (dueToday today) debts))%nat.
Proof.
  intros Hok. cbv zeta. revert b.
  induction debts as [|d r IH]; intros b Hin Hdone; cbn [fold_left List.filter].
  - cbn. repeat split. lia.
  - assert (Hstep : exists b1,
              processDebt ext today t (b, s) d = (b1, s)
              /\ totalProcessed b1 = totalProcessed b /\ totalErrors b1 = totalErrors b
              /\ totalSkipped b1
                 = (totalSkipped b + if dueToday today d then 1 else 0)%nat).
    { unfold processDebt. destruct (dueToday today d) eqn:Hdue; cbn [negb].
      - destruct (accrue_when_accrued (tenantRejects t) s d Hok (Hin d (or_introl eq_refl))
                    (Hdone d (or_introl eq_refl) Hdue)) as (r0 & -> & ->).
        eexists. split; [reflexivity|]. cbn. repeat split. lia.
      - exists b. repeat split. lia. }
    destruct Hstep as (b1 & -> & H1 & H2 & H3).
    destruct (IH b1) as (I1 & I2 & I3 & I4);
      [intros x Hx; apply Hin; now right|intros x Hx; apply Hdone; now right|].
    rewrite I1, I2, I3, I4, H1, H2, H3.
    destruct (dueToday today d); cbn [length]; repeat split; lia.
Qed.

Lemma dueToday_of_row (d d' : Debt.t) :
  (Debt.id d, Debt.dueDay d, Debt.cutOffDay d, Debt.interesEfectivo d, Debt.active d)
  = (Debt.id d', Debt.dueDay d', Debt.cutOffDay d', Debt.interesEfectivo d', Debt.active d') ->
  Debt.id d = Debt.id d' /\ dueToday today d = dueToday today d'.
Proof. intros [= H1 H2 H3 H4 H5]. unfold dueToday. now rewrite H3, H5. Qed.

Lemma dueDebts_of_rows (l l' : list Debt.t) :
  map (fun r => (Debt.id r, Debt.dueDay r, Debt.cutOffDay r, Debt.interesEfectivo r,
                 Debt.active r)) l
  = map (fun r => (Debt.id r, Debt.dueDay r, Debt.cutOffDay r, Debt.interesEfectivo r,
                   Debt.active r)) l' ->
  length (List.filter (dueToday today) l) = length (List.filter (dueToday today) l')
  /\ forall d, In d l -> exists d', In d' l' /\ Debt.id d = Debt.id d'
                                   /\ dueToday today d = dueToday today d'.
Proof.
  revert l'. induction l as [|a r IH]; intros [|a' r']; cbn [map]; try discriminate.
  - intros _. split; [reflexivity|intros d []].
  - intros H. injection H as H1 H2 H3 H4 H5 Htail.
    assert (Ha : Debt.id a = Debt.id a' /\ dueToday today a = dueToday today a')
      by (apply dueToday_of_row; congruence).
    destruct Ha as [Ha1 Ha2]. destruct (IH r' Htail) as [I1 I2]. split.
    + cbn [List.filter]. rewrite Ha2. destruct (dueToday today a'); cbn [length]; lia.
    + intros d [<-|Hd]; [exists a'; split; [now left|auto]|].
      destruct (I2 d Hd) as (d' & Hin & E). exists d'. split; [now right|exact E].
Qed.

Lemma processUser_unreached (b : Batch) (t : Tenant) :
  reached t = false -> processUser ext today b t = closeTenant b (tenantSheets t).
Proof.
  unfold reached, processUser.
  destruct (truthy (sheetId (user t))); cbn [negb orb andb]; [|reflexivity].
  destruct (truthy (accessToken (user t))); cbn [negb orb andb]; [|reflexivity].
  now intros ->.
Qed.

Lemma processUser_reached (b : Batch) (t : Tenant) :
  reached t = true -> tenantRejects t CallGetDebtsObjects = false ->
  processUser ext today b t
  = closeTenant (fst (fold_left (processDebt ext today t) (debtsSheet (tenantSheets t))
                        (b, tenantSheets t)))
                (snd (fold_left (processDebt ext today t) (debtsSheet (tenantSheets t))
                        (b, tenantSheets t))).
Proof.
  unfold reached, processUser. intros Hr Hl.
  apply andb_true_iff in Hr as [Hr ->]. apply andb_true_iff in Hr as [-> ->].
  cbn [negb orb]. rewrite Hl. now destruct (fold_left _ _ _).
Qed.

(** X20. Running the batch a second time on the same day creates nothing:
    for a tenant none of whose calls is rejected, the run over the
    spreadsheet that a first run has left processes no debt and counts no
    error, skips every due debt, and leaves the spreadsheet exactly as the
    first run left it. *)
Theorem second_run_of_the_day_creates_nothing (t : Tenant) (s1 : Sheets) :
  (forall c, tenantRejects t c = false) ->
  sheetsAfter (processDebtAccruals ext today [t]) = [s1] ->
  let again := processDebtAccruals ext today [tenantWith t s1] in
  totalProcessed again = O
  /\ totalErrors again = O
  /\ totalSkipped again = (if reached t then length (dueDebts today t) else O)
  /\ sheetsAfter again = [s1].
Proof.
  intros Hok Hfirst. cbv zeta. unfold processDebtAccruals in *.
  rewrite processUsers_after in Hfirst. cbn [emptyBatch sheetsAfter app map] in Hfirst.
  rewrite (Hok CallGetDebtsObjects), andb_true_r in Hfirst. cbn [fold_left].
  assert (Hr2 : reached (tenantWith t s1) = reached t) by reflexivity.
  destruct (reached t) eqn:Hr.
  - injection Hfirst as Hs1.
    destruct (processDebts_state ext today t (debtsSheet (tenantSheets t)) emptyBatch
                (tenantSheets t) Hok) as [Hdone _].
    destruct (processDebts_frame ext today t (debtsSheet (tenantSheets t)) emptyBatch
                (tenantSheets t)) as (_ & Hrows & _).
    cbv zeta in Hdone, Hrows. rewrite Hs1 in Hdone, Hrows.
    destruct (dueDebts_of_rows _ _ Hrows) as [Hlen Hsame].
    rewrite processUser_reached by (auto; apply Hok).
    cbn [tenantWith tenantSheets].
    destruct (processDebts_again (tenantWith t s1) s1 (debtsSheet s1) emptyBatch Hok)
      as (A1 & A2 & A3 & A4).
    + auto.
    + intros d Hd Hdue. destruct (Hsame d Hd) as (d' & Hin' & Eid & Edue).
      rewrite Eid. apply Hdone; [exact Hin'|congruence].
    + cbv zeta in A1, A2, A3, A4. unfold closeTenant.
      cbn [totalProcessed totalErrors totalSkipped sheetsAfter].
      destruct (processDebts_account ext today (tenantWith t s1) (debtsSheet s1) emptyBatch s1)
        as (_ & _ & A5). cbv zeta in A5.
      rewrite A1, A2, A3, A4, A5, Hlen. unfold dueDebts.
      cbn [emptyBatch totalProcessed totalErrors totalSkipped sheetsAfter app]. auto.
  - injection Hfirst as Hs1. rewrite processUser_unreached by exact Hr2.
    cbn [tenantWith tenantSheets closeTenant emptyBatch totalProcessed totalErrors totalSkipped
         sheetsAfter app]. auto.
Qed.
End BatchSecondRun.

(* ===================================================================== *)
(** ** The installment plan                                              *)
(* ===================================================================== *)

Lemma toFixed2_mono (x y : Q) : (0 <= x)%Q -> (x <= y)%Q -> (toFixed2 x <= toFixed2 y)%Q.
Proof.
  intros Hx Hxy. rewrite !toFixed2_of_nonneg by lra.
  unfold Qle. cbn [Qnum Qden].
  assert (H : (Qfloor (x * 100 + (1 # 2)) <= Qfloor (y * 100 + (1 # 2)))%Z)
    by (apply Qfloor_resp_le; lra).
  nia.
Qed.

Lemma toFixed2_zero : (toFixed2 0 == 0)%Q.
Proof. reflexivity. Qed.

Lemma mathMax0_of_nonneg (x : Q) : (0 <= x)%Q -> (mathMax0 x == x)%Q.
Proof. intros H. unfold mathMax0. now apply Q.max_r. Qed.

Section InstallmentPlan.
Variable interestForMonth : Q -> Q -> Q.

Lemma principalPartOf_bounds (payment interest remaining : Q) :
  (0 <= remaining)%Q ->
  (0 <= principalPartOf payment interest remaining <= remaining)%Q.
Proof.
  intros Hr. unfold principalPartOf.
  destruct (Qltb (payment - interest) 0) eqn:Hneg.
  - destruct (Qltb remaining 0) eqn:H0.
    + apply Qltb_true_iff in H0. lra.
    + lra.
  - apply Qltb_false_iff in Hneg.
    destruct (Qltb remaining (payment - interest)) eqn:Hcap.
    + lra.
    + apply Qltb_false_iff in Hcap. lra.
Qed.

Lemma scheduleFrom_rows (fuel : nat) (i : Z) (remaining payment monthlyRate : Q)
    (baseYear baseMonth targetDay : Z) :
  (0 <= remaining)%Q ->
  let schedule := scheduleFrom interestForMonth fuel i remaining payment monthlyRate
                    baseYear baseMonth targetDay in
  (length schedule <= fuel)%nat
  /\ (fuel <> O -> schedule <> [])
  /\ (forall k row, schedule !! k = Some row ->
        rowPeriod row = i + 1 + Z.of_nat k
        /\ rowPayment row = toFixed2 payment
        /\ (0 <= rowPrincipal row)%Q
        /\ (0 <= rowRemaining row <= toFixed2 remaining)%Q)
  /\ (forall k row row', schedule !! k = Some row -> schedule !! S k = Some row' ->
        (rowRemaining row' <= rowRemaining row)%Q)
  /\ ((length schedule < fuel)%nat ->
      exists row, last schedule = Some row /\ (rowRemaining row == 0)%Q).
Proof.
  cbv zeta. revert i remaining.
  induction fuel as [|fuel IH]; intros i remaining Hr; cbn [scheduleFrom].
  - split; [cbn; lia|]. split; [congruence|]. split; [intros k row H; discriminate H|].
    split; [intros k row row' H; discriminate H|]. cbn. lia.
  - set (pp := principalPartOf payment (interestForMonth remaining monthlyRate) remaining).
    destruct (principalPartOf_bounds payment (interestForMonth remaining monthlyRate)
                remaining Hr) as [Hp0 Hp1]. fold pp in Hp0, Hp1.
    assert (Hrem : (mathMax0 (remaining - pp) == remaining - pp)%Q)
      by (apply mathMax0_of_nonneg; lra).
    assert (Hnext : (0 <= mathMax0 (remaining - pp))%Q) by apply mathMax0_nonneg.
    assert (Hrow : (0 <= toFixed2 pp)%Q
                   /\ (0 <= toFixed2 (mathMax0 (remaining - pp)) <= toFixed2 remaining)%Q).
    { split; [now apply toFixed2_nonneg|]. split; [now apply toFixed2_nonneg|].
      apply toFixed2_mono; [exact Hnext|]. rewrite Hrem. lra. }
    destruct (Qle_bool (mathMax0 (remaining - pp)) 0) eqn:Hstop.
    + split; [cbn; lia|]. split; [congruence|]. split.
      * intros [|k] row H; [|discriminate H]. injection H as <-.
        cbn [rowPeriod rowPayment rowPrincipal rowRemaining]. split; [lia|]. tauto.
      * split; [intros k row row' _ H; destruct k; discriminate H|].
        intros _. eexists. split; [reflexivity|]. cbn [rowRemaining].
        apply Qle_bool_iff in Hstop.
        assert (Hz : (mathMax0 (remaining - pp) == 0)%Q) by lra.
        transitivity (mathMax0 (remaining - pp)); [|exact Hz].
        apply (toFixed2_cents _ 0); [exact Hnext|]. rewrite Hz. reflexivity.
    + destruct (IH (i + 1) (mathMax0 (remaining - pp)) Hnext) as (I1 & I2 & I3 & I4 & I5).
      split; [cbn [length]; lia|]. split; [congruence|]. split.
      * intros [|k] row H.
        -- injection H as <-. cbn [rowPeriod rowPayment rowPrincipal rowRemaining].
           split; [lia|]. tauto.
        -- destruct (I3 k row H) as (J1 & J2 & J3 & J4 & J5).
           split; [lia|]. split; [exact J2|]. split; [exact J3|]. split; [exact J4|].
           destruct Hrow as (_ & _ & Hle). lra.
      * split.
        -- intros [|k] row row' H H'.
           ++ injection H as <-. cbn [rowRemaining].
              destruct (I3 O row' H') as (_ & _ & _ & _ & J5). exact J5.
           ++ exact (I4 k row row' H H').
        -- cbn [length]. intros Hlt.
           destruct I5 as (row & Hlast & Hzero); [lia|].
           exists row. split; [|exact Hzero].
           destruct (scheduleFrom _ _ _ _ _ _ _ _ _) as [|x rest]; [discriminate Hlast|].
           exact Hlast.
Qed.

(** X21. The shape of an installment plan: for a positive number of months
    the schedule has at least one row and at most one row per month, the
    rows are numbered 1, 2, 3, ... without gaps, every row carries the same
    payment (the payment of the plan, in cents), and the months of the
    answer are the number of rows, not the number of months asked for. *)
Theorem installment_schedule_shape (balance monthlyRate : Q) (months : Z) (startDate : Date) :
  let plan := installmentPlan interestForMonth balance monthlyRate months startDate in
  planMonths plan = length (planSchedule plan)
  /\ (Z.of_nat (planMonths plan) <= Z.max 0 months)
  /\ (0 < months -> (1 <= planMonths plan)%nat)
  /\ (forall k row, planSchedule plan !! k = Some row ->
        rowPeriod row = Z.of_nat k + 1 /\ rowPayment row = planPayment plan).
Proof.
  cbv zeta. unfold installmentPlan. cbn [planMonths planSchedule planPayment].
  destruct (scheduleFrom_rows (Z.to_nat months) 0 (mathMax0 balance)
              (annuityPayment (mathMax0 balance) monthlyRate months) monthlyRate
              (getFullYear startDate) (getMonth startDate) (getDate startDate)
              (mathMax0_nonneg balance)) as (H1 & H2 & H3 & _).
  cbv zeta in H1, H2, H3.
  split; [reflexivity|]. split; [lia|]. split.
  - intros Hm. destruct (scheduleFrom _ _ _ _ _ _ _ _ _) as [|x r] eqn:E.
    + exfalso. apply H2; [lia|reflexivity].
    + cbn [length]. lia.
  - intros k row Hk. destruct (H3 k row Hk) as (J1 & J2 & _). split; [lia|exact J2].
Qed.

End InstallmentPlan.

Section InstallmentsHandler.
Variable ext : Externals.
Variable rejects : Call -> bool.
Variable monthlyRateOf : Debt.t -> Q.
Variable interestForMonth : Q -> Q -> Q.

(** X23. The answers of the installments handler.  It never writes.  It
    answers 400 "Invalid parameters" exactly when the id is empty or the
    months are not a number above 0, and then without calling the
    service; 404 "Debt not found" exactly when the parameters are valid,
    the debts could be read and none has the id; the rejection of the read
    when the parameters are valid and the read is rejected; and a plan
    otherwise. *)
Theorem installments_answers (today : Date) (id : string) (months : option Z)
    (start : option Date) (s : Sheets) :
  let run := getDebtInstallments ext rejects monthlyRateOf interestForMonth today id months
               start s in
  let valid := exists n, months = Some n /\ 0 < n /\ id <> EmptyString in
  let found := List.find (fun r => String.eqb (Debt.id r) id) (debtsSheet s) in
  snd run = s
  /\ (fst run = Thrown (ApiError 400 "Invalid parameters") <-> ~ valid)
  /\ (fst run = Thrown (Rejected CallGetDebts) <-> valid /\ rejects CallGetDebts = true)
  /\ (fst run = Thrown (ApiError 404 "Debt not found")
      <-> valid /\ rejects CallGetDebts = false /\ found = None)
  /\ ((exists plan, fst run = Returned plan)
      <-> valid /\ rejects CallGetDebts = false /\ found <> None).
Proof.
  cbv zeta. unfold getDebtInstallments.
  destruct months as [n|].
  2:{ cbn [throw fst snd]. split; [reflexivity|].
      split; [split; [intros _ (n & H & _); discriminate H|reflexivity]|].
      split; [split; [discriminate|intros [(n & H & _) _]; discriminate H]|].
      split; [split; [discriminate|intros [(n & H & _) _]; discriminate H]|].
      split; [intros (p & H); discriminate H|intros [(n & H & _) _]; discriminate H]. }
  unfold truthy. destruct (String.eqb_spec id EmptyString) as [Hid|Hid]; cbn [negb orb].
  { cbn [throw fst snd]. split; [reflexivity|].
    split; [split; [intros _ (n' & _ & _ & H); congruence|reflexivity]|].
    split; [split; [discriminate|intros [(n' & _ & _ & H) _]; congruence]|].
    split; [split; [discriminate|intros [(n' & _ & _ & H) _]; congruence]|].
    split; [intros (p & H); discriminate H|intros [(n' & _ & _ & H) _]; congruence]. }
  destruct (Z.leb_spec n 0) as [Hn|Hn].
  { cbn [throw fst snd]. split; [reflexivity|].
    split; [split; [intros _ (n' & [= <-] & H & _); lia|reflexivity]|].
    split; [split; [discriminate|intros [(n' & [= <-] & H & _) _]; lia]|].
    split; [split; [discriminate|intros [(n' & [= <-] & H & _) _]; lia]|].
    split; [intros (p & H); discriminate H|intros [(n' & [= <-] & H & _) _]; lia]. }
  assert (Hvalid : exists n0, Some n = Some n0 /\ 0 < n0 /\ id <> EmptyString) by eauto.
  unfold bind, awaitRead. destruct (rejects CallGetDebts) eqn:R.
  { cbn [fst snd]. split; [reflexivity|].
    split; [split; [discriminate|intros H; contradiction]|].
    split; [split; [auto|reflexivity]|].
    split; [split; [discriminate|intros (_ & H & _); discriminate H]|].
    split; [intros (p & H); discriminate H|intros (_ & H & _); discriminate H]. }
  destruct (List.find _ (debtsSheet s)) as [debt|] eqn:Hf.
  - destruct (Debt.balance debt); cbn [ret fst snd]; (split; [reflexivity|]);
      (split; [split; [discriminate|intros H; contradiction]|]);
      (split; [split; [discriminate|intros (_ & H); discriminate H]|]);
      (split; [split; [discriminate|intros (_ & _ & H); discriminate H]|]);
      (split; [intros _; repeat split; [exact Hvalid|discriminate]|eauto]).
  - cbn [throw fst snd]. split; [reflexivity|].
    split; [split; [discriminate|intros H; contradiction]|].
    split; [split; [discriminate|intros (_ & H); discriminate H]|].
    split; [split; [auto|reflexivity]|].
    split; [intros (p & H); discriminate H|intros (_ & _ & H); congruence].
Qed.

End InstallmentsHandler.

(* ===================================================================== *)
(** ** Edges of the calendar                                             *)
(* ===================================================================== *)

Lemma parseDateString_text (ext : Externals) (y m d : Z) (rest : string) :
  0 <= y <= 9999 -> 0 <= m + 1 <= 99 -> 0 <= d <= 99 ->
  parseDateString ext (formatDay (mkDate y m d) ++ rest) = Some (atMidnight (newDate y m d)).
Proof.
  intros Hy Hm Hd.
  unfold parseDateString, formatDay; cbn [getFullYear getMonth getDate].
  rewrite !string_append_assoc.
  rewrite parseDigits_pad4 by lia. cbn [append].
  rewrite parseDigits_pad2 by lia. cbn [append].
  rewrite parseDigits_pad2 by lia.
  replace (m + 1 - 1) with m by lia. reflexivity.
Qed.

Lemma newDate_overflow (y m d : Z) :
  100 <= y -> 0 <= m <= 11 -> daysInMonth y m < d <= 31 ->
  m < 11 /\ newDate y m d = mkDate y (m + 1) (d - daysInMonth y m).
Proof.
  intros Hy Hm Hd.
  assert (Hm11 : m < 11).
  { destruct (Z.eq_dec m 11) as [->|]; [|lia]. change (daysInMonth y 11) with 31 in Hd. lia. }
  split; [exact Hm11|].
  pose proof (daysInMonth_bounds y m) as Hb.
  pose proof (daysInMonth_bounds y (m + 1)) as Hb'.
  unfold newDate. rewrite plain_year by lia.
  replace (m / 12) with 0 by (symmetry; apply Z.div_small; lia).
  rewrite Z.mod_small by lia. rewrite Z.add_0_r.
  unfold addDays. replace (0 <=? d - 1) with true by (symmetry; apply Z.leb_le; lia).
  replace (Z.to_nat (d - 1))
    with (Z.to_nat (d - daysInMonth y m - 1) + S (Z.to_nat (daysInMonth y m - 1)))%nat by lia.
  rewrite Nat.iter_add, Nat.iter_succ.
  rewrite iter_nextDay by lia.
  replace (1 + Z.of_nat (Z.to_nat (daysInMonth y m - 1))) with (daysInMonth y m) by lia.
  unfold nextDay at 2; cbn [getFullYear getMonth getDate].
  rewrite Z.ltb_irrefl. replace (m <? 11) with true by (symmetry; apply Z.ltb_lt; lia).
  rewrite iter_nextDay by lia. f_equal. lia.
Qed.

(** X24. A date text whose day lies beyond the end of its month is not an
    error: as [new Date(year, month, day)] does, [parseDateString] carries
    the extra days into the next month, so that an expense dated
    2025-02-30 is an event of 2 March (days up to 31, years 100..9999). *)
Theorem impossible_day_rolls_into_next_month (ext : Externals) (y m d : Z) (rest : string) :
  100 <= y <= 9999 -> 0 <= m <= 11 -> daysInMonth y m < d <= 31 ->
  parseDateString ext (formatDay (mkDate y m d) ++ rest)
  = Some (atMidnight (mkDate y (m + 1) (d - daysInMonth y m)))
  /\ validDate (mkDate y (m + 1) (d - daysInMonth y m)).
Proof.
  intros Hy Hm Hd. destruct (newDate_overflow y m d) as [Hm11 Hnew]; [lia..|].
  pose proof (daysInMonth_bounds y m) as Hb.
  pose proof (daysInMonth_bounds y (m + 1)) as Hb'.
  split.
  - rewrite parseDateString_text by lia. now rewrite Hnew.
  - unfold validDate; cbn [getFullYear getMonth getDate]. lia.
Qed.

Section BatchStatement.
Variable ext : Externals.
Variable today : Date.

(** X25. The batch accrues the statement that closes today: for a debt
    that passes the gate of the nightly run, the statement date that
    [accrueDebtInternal] resolves from the options of the batch (no date,
    no period) is today itself (calendar days of the years from 100 on). *)
Theorem batch_accrues_the_statement_of_today (debt : Debt.t) :
  validDate today -> 100 <= getFullYear today ->
  dueToday today debt = true ->
  resolveStatementDate (Debt.cutOffDay debt) today None = inr today.
Proof.
  intros Hv Hy Hdue. apply dueToday_iff in Hdue as (_ & c & Hc & Hc0 & Hct).
  destruct today as [y m d]. unfold validDate in Hv. cbn [getFullYear getMonth getDate] in *.
  destruct Hv as [Hm Hd]. subst c.
  unfold resolveStatementDate. rewrite Hc.
  rewrite (dateOnly_valid y m d) by lia. cbn [getFullYear getMonth getDate].
  rewrite cutoffOfMonth_eq by lia.
  replace (Z.min (Z.max 1 d) (daysInMonth y m)) with d by lia.
  cbn [getDate]. now rewrite Z.leb_refl.
Qed.
End BatchStatement.

Lemma resolveStatementDate_error (cutOffDay : option Z) (baseDate : Date)
    (periodParam : option string) (e : Error) :
  resolveStatementDate cutOffDay baseDate periodParam = inl e ->
  e = ApiError 400 "Invalid period format. Expected YYYY-MM".
Proof.
  unfold resolveStatementDate. destruct periodParam as [p|]; [|discriminate].
  destruct (if truthy p then parsePeriod p else None) as [[y m]|]; [|discriminate].
  destruct ((m <? 0) || (11 <? m)); [|discriminate]. now intros [= <-].
Qed.

Section AccrualEdges.
Variable ext : Externals.
Variable rejects : Call -> bool.

(** X26. The API errors and the rejections of an accrual, for a request
    whose date parameter, if it has one, is a date.  Whatever the fault plan,
    an API error that the run throws is the 404 of a debt that is not in the
    sheet or the 400 of a period with a month outside 01..12, and a
    rejection that it throws is the rejection of one of its service calls by
    the service; the rejection of the read of the payments of the previous
    cycle is never thrown. *)
Theorem accrual_api_errors_are_404_or_400 (today : Date) (debtId : string)
    (options : Options) (s s' : Sheets) (e : Error) :
  accrueDebtInternal ext rejects today debtId options s = (Thrown e, s') ->
  (forall status message, e = ApiError status message ->
     (status = 404 /\ message = "Debt not found"%string
      /\ List.find (fun r => String.eqb (Debt.id r) debtId) (debtsSheet s) = None)
     \/ (status = 400 /\ message = "Invalid period format. Expected YYYY-MM"%string
         /\ exists p, periodParam options = Some p))
  /\ (forall c, e = Rejected c -> rejects c = true /\ c <> CallSumPaymentsCarryOver).
Proof.
  intros Hrun. apply accrue_outcome in Hrun. cbv zeta in Hrun.
  destruct Hrun as [(_ & Hleft)|(debt & sd & rec & h' & _ & _ & _ & _ & _ & _ & _ & _ & Hend)].
  - destruct Hleft as [(c & Hc & Hr & [= ->])|[(Hn & [= ->])|[(d & _ & _ & H)
                      |[(d & e' & _ & _ & He & [= ->])|(d & sd & _ & _ & _ & _ & _ & H)]]]];
      try discriminate H.
    + split; [discriminate|]. intros c' [= <-]. auto.
    + split; [|discriminate]. intros st msg [= <- <-]. left. auto.
    + pose proof (resolveStatementDate_error _ _ _ _ He) as ->.
      split; [|discriminate]. intros st msg [= <- <-]. right.
      split; [reflexivity|]. split; [reflexivity|].
      destruct (periodParam options) as [p|]; [eauto|].
      unfold resolveStatementDate in He. discriminate He.
  - destruct Hend as [([= ->] & Hr & _)|(b & H & _)]; [|discriminate H].
    split; [discriminate|]. intros c [= <-]. split; [exact Hr|discriminate].
Qed.

(** X27. The due date of a debt without a due day is the 25th of the month
    of the statement date itself.  For a statement that closes after the
    25th the record therefore carries a due date that lies before its
    statement date (statement dates of the years from 100 on). *)
Theorem due_date_without_due_day_is_the_25th (today : Date) (debtId : string)
    (options : Options) (s : Sheets) (debt : Debt.t) (sd : Date) :
  (forall c, c <> CallSumPaymentsCarryOver -> rejects c = false) ->
  List.find (fun r => String.eqb (Debt.id r) debtId) (debtsSheet s) = Some debt ->
  Debt.active debt = true ->
  resolveStatementDate (Debt.cutOffDay debt)
    (match dateParam options with Some d => d | None => today end)
    (periodParam options) = inr sd ->
  existsb (matchesKey debtId (isoDay ext sd)) (creditHistorySheet s)
  && negb (recompute options) = false ->
  Debt.dueDay debt = None ->
  100 <= getFullYear sd -> 0 <= getMonth sd <= 11 ->
  exists rec s',
    accrueDebtInternal ext rejects today debtId options s
    = (Returned (Created (debtId ++ "|" ++ isoDay ext sd)%string rec (isoDay ext sd)), s')
    /\ CreditHistory.dueDate rec = isoDay ext (mkDate (getFullYear sd) (getMonth sd) 25)
    /\ (25 < getDate sd ->
        dateLtb (mkDate (getFullYear sd) (getMonth sd) 25) sd = true).
Proof.
  intros Hok Hfind Hactive Hsd Hskip Hdue Hy Hm.
  do 2 eexists.
  split; [exact (accrue_run ext rejects today debtId options s debt sd Hok Hfind Hactive Hsd
                   Hskip)|].
  pose proof (daysInMonth_bounds (getFullYear sd) (getMonth sd)) as Hb.
  split.
  - unfold cycleRecord. cbn [CreditHistory.dueDate]. unfold dueDateOf. rewrite Hdue.
    rewrite cutoffOfMonth_eq by lia. f_equal. f_equal. lia.
  - intros Hlate. unfold dateLtb, dateCompare. cbn [getFullYear getMonth getDate].
    rewrite !Z.compare_refl. now apply Z.compare_lt_iff in Hlate as ->.
Qed.
End AccrualEdges.

(* ===================================================================== *)
(** ** The further properties on the fixtures                            *)
(* ===================================================================== *)

(** The period 2025-02 for a card that closes on the 31st. *)
Lemma period_statement_date_is_clamped_cutoff_witness :
  resolveStatementDate (Some 31) april15 (Some "2025-02"%string) = inr (mkDate 2025 1 28)
  /\ validDate (mkDate 2025 1 28).
Proof.
  apply (period_statement_date_is_clamped_cutoff (Some 31) april15 "2025-02" 2025 1);
    [reflexivity|lia|lia].
Defined.

(** No period, base date 20 March 2025, cutoff day 15. *)
Lemma base_statement_date_is_latest_cutoff_witness :
  exists sd, resolveStatementDate (Some 15) march20 None = inr sd
             /\ validDate sd /\ dateLeb sd march20 = true.
Proof.
  destruct (base_statement_date_is_latest_cutoff (Some 15) march20) as (sd & H1 & H2 & H3 & _).
  - unfold validDate, march20; cbn [getFullYear getMonth getDate].
    change (daysInMonth 2025 2) with 31. lia.
  - cbn. lia.
  - exists sd. auto.
Defined.

(** The text of 15 April 2025 followed by a time. *)
Lemma parseDateString_formatDay_witness :
  parseDateString plainExt "2025-04-15T10:30:00" = Some (atMidnight april15).
Proof.
  apply (parseDateString_formatDay plainExt april15 "T10:30:00").
  - unfold validDate, april15; cbn [getFullYear getMonth getDate].
    change (daysInMonth 2025 3) with 30. lia.
  - cbn. lia.
Defined.

(** London, 30 and 31 March 2025: summer time starts during the 30th, and
    the local midnights of both days fall on 30 March in UTC. *)
Lemma isoDay_is_injective_while_offset_keeps_side_witness :
  isoDay london march30 = "2025-03-30"%string
  /\ isoDay london (nextDay march30) = isoDay london march30
  /\ nextDay march30 <> march30.
Proof.
  split; [reflexivity|].
  apply (proj2 (isoDay_is_injective_while_offset_keeps_side london march30 march30
                  ltac:(unfold validDate, march30; cbn [getFullYear getMonth getDate];
                        change (daysInMonth 2025 2) with 31; lia)
                  ltac:(unfold validDate, march30; cbn [getFullYear getMonth getDate];
                        change (daysInMonth 2025 2) with 31; lia)
                  ltac:(cbn; lia) ltac:(cbn; lia)));
    reflexivity.
Defined.

(** The first accrual of April on an empty ledger. *)
Lemma first_accrual_appends_one_record_witness :
  exists rec b,
    accrueDebtInternal plainExt noFault april15 "visa" accrueApril (ledger [] [chargeOfMarch20])
    = (Returned (Created "visa|2025-04-15" rec "2025-04-15"),
       mkSheets (setBalance "visa" b [visa]) [rec] [chargeOfMarch20])
    /\ countKey "visa" "2025-04-15" [rec] = 1%nat.
Proof.
  destruct (first_accrual_appends_one_record plainExt noFault april15 "visa" accrueApril
              (ledger [] [chargeOfMarch20]) visa april15)
    as (rec & b & H1 & _ & _ & _ & _ & H6 & _);
    [intros c _; reflexivity|reflexivity|reflexivity|reflexivity|reflexivity|].
  exists rec, b. split; [exact H1|exact H6].
Defined.

(** The invariant through the accrual of April on the fixture. *)
Lemma accrual_keeps_keys_unique_witness :
  (forall d k, (countKey d k (creditHistorySheet (ledger [statementOfApril] [])) <= 1)%nat)
  /\ (forall d k,
        (countKey d k
           (creditHistorySheet
              (snd (accrueDebtInternal plainExt noFault april15 "visa" recomputeApril
                      (ledger [statementOfApril] [])))) <= 1)%nat).
Proof.
  assert (H : forall d k,
             (countKey d k (creditHistorySheet (ledger [statementOfApril] [])) <= 1)%nat).
  { intros d k. unfold countKey, ledger. cbn [creditHistorySheet List.filter].
    destruct (matchesKey d k statementOfApril); cbn [length]; lia. }
  split; [exact H|].
  apply (accrual_keeps_keys_unique plainExt noFault april15 "visa" recomputeApril
           (ledger [statementOfApril] []) _ _ (surjective_pairing _) H).
Defined.

Lemma accrual_changes_only_ledger_and_balance_witness :
  expensesSheet (snd (accrueDebtInternal plainExt noFault april15 "visa" accrueApril
                        (ledger [] [chargeOfMarch20])))
  = [chargeOfMarch20]
  /\ map Debt.id (debtsSheet (snd (accrueDebtInternal plainExt noFault april15 "visa"
                                     accrueApril (ledger [] [chargeOfMarch20]))))
     = ["visa"%string].
Proof.
  destruct (accrual_changes_only_ledger_and_balance plainExt noFault april15 "visa" accrueApril
              (ledger [] [chargeOfMarch20]) _ _ (surjective_pairing _)) as (H1 & H2 & _).
  split; [exact H1|].
  apply (f_equal (map (fun x => fst (fst (fst (fst x)))))) in H2.
  rewrite !map_map in H2. exact H2.
Defined.

(** The accrual of April, and the same request again. *)
Lemma accrue_twice_second_is_skipped_witness :
  exists rec s',
    accrueDebtInternal plainExt noFault april15 "visa" accrueApril (ledger [] [])
    = (Returned (Created "visa|2025-04-15" rec "2025-04-15"), s')
    /\ accrueDebtInternal plainExt noFault april15 "visa" accrueApril s'
       = (Returned (SkippedAlready "2025-04-15"), s').
Proof.
  do 2 eexists. split.
  - exact (accrue_run plainExt noFault april15 "visa" accrueApril (ledger [] []) visa april15
             (fun c _ => eq_refl) eq_refl eq_refl eq_refl eq_refl).
  - exact (accrue_twice_second_is_skipped plainExt noFault april15 "visa" accrueApril
             (ledger [] []) _ _ _ _
             (accrue_run plainExt noFault april15 "visa" accrueApril (ledger [] []) visa
                april15 (fun c _ => eq_refl) eq_refl eq_refl eq_refl eq_refl)
             eq_refl eq_refl).
Defined.

(** The accrual of May with the April statement in the ledger and the read
    of the April payments refused. *)
Lemma carry_over_failure_is_swallowed_witness :
  exists rec s',
    accrueDebtInternal plainExt carryOverFails may15 "visa" accrueMay
      (ledger [statementOfApril] [])
    = (Returned (Created "visa|2025-05-15" rec "2025-05-15"), s')
    /\ existsb (matchesKey "visa" "2025-05-15") (creditHistorySheet s') = true.
Proof.
  destruct (carry_over_failure_is_swallowed plainExt carryOverFails may15 "visa" accrueMay
              (ledger [statementOfApril] []) visa may15)
    as (rec & s' & H1 & H2 & _);
    [intros [] H; try reflexivity; contradiction|reflexivity|reflexivity|reflexivity
    |reflexivity|reflexivity|].
  exists rec, s'. split; [exact H1|exact H2].
Defined.

(** The statement of May recomputed twice, after the statement of April. *)
Lemma recompute_twice_is_recompute_once_witness :
  exists rec s1,
    accrueDebtInternal plainExt noFault may15 "visa" recomputeMay (ledger [statementOfApril] [])
    = (Returned (Created "visa|2025-05-15" rec "2025-05-15"), s1)
    /\ accrueDebtInternal plainExt noFault may15 "visa" recomputeMay s1
       = (Returned (Created "visa|2025-05-15" rec "2025-05-15"), s1).
Proof.
  apply (recompute_twice_is_recompute_once plainExt noFault may15 "visa" recomputeMay
           (ledger [statementOfApril] []) visa may15 statementOfApril 1000%Q);
    [intros c _; reflexivity|reflexivity..].
Defined.


(** The preview and the accrual of April with a charge and a payment. *)
Lemma preview_predicts_accrual_witness :
  exists rec s' data onBalance bonifiable carryOver chargesDetail paymentsDetail,
    accrueDebtInternal plainExt noFault april15 "visa" accrueApril
      (ledger [] [chargeOfMarch20; paymentOfMarch20])
    = (Returned (Created "visa|2025-04-15" rec "2025-04-15"), s')
    /\ getDebtStatementPreview plainExt noFault april15 "visa" accrueApril
         (ledger [] [chargeOfMarch20; paymentOfMarch20])
       = (Returned (PreviewComputed data onBalance bonifiable carryOver
                      chargesDetail paymentsDetail),
          ledger [] [chargeOfMarch20; paymentOfMarch20])
    /\ data = rec.
Proof.
  destruct (preview_predicts_accrual plainExt noFault april15 "visa" accrueApril
              (ledger [] [chargeOfMarch20; paymentOfMarch20]) visa april15)
    as (rec & s' & data & a & b & c & cd & pd & H1 & H2 & H);
    [intros x _; reflexivity|reflexivity..|].
  exists rec, s', data, a, b, c, cd, pd. split; [exact H1|]. split; [exact H2|].
  apply H. reflexivity.
Defined.

(** The accrual of April, then the preview of April. *)
Lemma accrual_then_preview_is_cached_witness :
  exists rec s',
    accrueDebtInternal plainExt noFault april15 "visa" accrueApril (ledger [] [])
    = (Returned (Created "visa|2025-04-15" rec "2025-04-15"), s')
    /\ getDebtStatementPreview plainExt noFault april15 "visa" accrueApril s'
       = (Returned (PreviewCached rec), s').
Proof.
  do 2 eexists. split.
  - exact (accrue_run plainExt noFault april15 "visa" accrueApril (ledger [] []) visa april15
             (fun c _ => eq_refl) eq_refl eq_refl eq_refl eq_refl).
  - exact (accrual_then_preview_is_cached plainExt noFault april15 "visa" accrueApril
             (ledger [] []) _ _ _ _
             (accrue_run plainExt noFault april15 "visa" accrueApril (ledger [] []) visa
                april15 (fun c _ => eq_refl) eq_refl eq_refl eq_refl eq_refl)
             eq_refl eq_refl).
Defined.

(** The run of 15 April over the first tenant, and the run again. *)
Lemma second_run_of_the_day_creates_nothing_witness :
  sheetsAfter (processDebtAccruals plainExt april15 [alice]) = [aliceAfter]
  /\ totalProcessed (processDebtAccruals plainExt april15 [alice]) = 1%nat
  /\ totalProcessed (processDebtAccruals plainExt april15 [tenantWith alice aliceAfter]) = O
  /\ totalErrors (processDebtAccruals plainExt april15 [tenantWith alice aliceAfter]) = O
  /\ totalSkipped (processDebtAccruals plainExt april15 [tenantWith alice aliceAfter]) = 1%nat
  /\ sheetsAfter (processDebtAccruals plainExt april15 [tenantWith alice aliceAfter])
     = [aliceAfter].
Proof.
  split; [reflexivity|]. split; [reflexivity|].
  apply (second_run_of_the_day_creates_nothing plainExt april15 alice aliceAfter);
    [intros c; reflexivity|reflexivity].
Defined.

(** The text 2025-02-30. *)
Lemma impossible_day_rolls_into_next_month_witness :
  parseDateString plainExt "2025-02-30" = Some (atMidnight (mkDate 2025 2 2))
  /\ validDate (mkDate 2025 2 2).
Proof.
  apply (impossible_day_rolls_into_next_month plainExt 2025 1 30 "");
    [lia|lia|change (daysInMonth 2025 1) with 28; lia].
Defined.

(** The card that closes on the 15th, in the run of 15 April. *)
Lemma batch_accrues_the_statement_of_today_witness :
  dueToday april15 visa = true
  /\ resolveStatementDate (Debt.cutOffDay visa) april15 None = inr april15.
Proof.
  split; [reflexivity|].
  apply (batch_accrues_the_statement_of_today april15 visa).
  - unfold validDate, april15; cbn [getFullYear getMonth getDate].
    change (daysInMonth 2025 3) with 30. lia.
  - cbn. lia.
  - reflexivity.
Defined.

(** The accrual of a card that is not in the sheet. *)
Lemma accrual_api_errors_are_404_or_400_witness :
  accrueDebtInternal plainExt noFault april15 "mastercard" accrueApril (ledger [] [])
  = (Thrown (ApiError 404 "Debt not found"), ledger [] [])
  /\ ((404 = 404 /\ "Debt not found"%string = "Debt not found"%string
       /\ List.find (fun r => String.eqb (Debt.id r) "mastercard")
            (debtsSheet (ledger [] [])) = None)
      \/ (404 = 400
          /\ "Debt not found"%string = "Invalid period format. Expected YYYY-MM"%string
          /\ exists p, periodParam accrueApril = Some p)).
Proof.
  split; [reflexivity|].
  apply (proj1 (accrual_api_errors_are_404_or_400 plainExt noFault april15 "mastercard"
                  accrueApril (ledger [] []) (ledger [] []) _ eq_refl)
           404 "Debt not found"%string eq_refl).
Defined.

(** The March statement of the card that closes on the 31st. *)
Lemma due_date_without_due_day_is_the_25th_witness :
  exists rec s',
    accrueDebtInternal plainExt noFault april15 "gold" accrueMarch goldLedger
    = (Returned (Created "gold|2025-03-31" rec "2025-03-31"), s')
    /\ CreditHistory.dueDate rec = "2025-03-25"%string
    /\ dateLtb (mkDate 2025 2 25) march31 = true.
Proof.
  destruct (due_date_without_due_day_is_the_25th plainExt noFault april15 "gold" accrueMarch
              goldLedger closesOn31 march31)
    as (rec & s' & H1 & H2 & H3);
    [intros c _; reflexivity|reflexivity|reflexivity|reflexivity|reflexivity|reflexivity
    |cbn; lia|cbn; lia|].
  exists rec, s'. split; [exact H1|]. split; [exact H2|]. apply H3. cbn. lia.
Defined.


(** C4 on the fixture: the April statement stands in the ledger without the
    charge of 20 March, and is recomputed: the record with the charge and
    the balance of 1200 takes its place, and the ledger still has one
    record. *)
Lemma recompute_overwrites_in_place_witness :
  exists rec b,
    accrueDebtInternal plainExt noFault april15 "visa" recomputeApril
      (ledger [statementOfApril] [chargeOfMarch20])
    = (Returned (Created "visa|2025-04-15" rec "2025-04-15"),
       mkSheets (setBalance "visa" b [visa]) [rec] [chargeOfMarch20])
    /\ CreditHistory.charges statementOfApril = 0%Q
    /\ CreditHistory.charges rec = 200%Q
    /\ CreditHistory.statementBalance rec = Some (120000 # 100)%Q
    /\ b = (120000 # 100)%Q
    /\ rec <> statementOfApril.
Proof.
  destruct (recompute_overwrites_in_place plainExt noFault april15 "visa" recomputeApril
              (ledger [statementOfApril] [chargeOfMarch20]) visa april15)
    as (i & old & Hi & _ & _ & _ & Hrun & _);
    [intros c _; reflexivity|reflexivity..|].
  vm_compute in Hi. injection Hi as <-.
  do 2 eexists. split; [exact Hrun|].
  split; [reflexivity|]. split; [reflexivity|]. split; [reflexivity|].
  split; [reflexivity|]. intros E. vm_compute in E. discriminate E.
Defined.

